(** * Cross-validation and model selection of [src/utils.py]

    A shallow embedding of the fold partitioner, the evaluator, the grid
    search, the kernel cache and the kernel composer, followed by the
    properties proved about them.

    Conventions of the embedding.
    - Lengths, fold counts, repeat counts and indices are natural numbers.
    - Python exceptions are the [Raise] outcomes of an error monad.
    - numpy's global random state is an abstract state [rng] threaded through
      every computation that draws a permutation.
    - The arithmetic of numpy's floats is an interface, [Float]: the
      programs are written over any implementation of it. What depends on
      the order of the scores only is proved for every implementation that
      orders its numbers as IEEE 754 does; what depends on their values is
      proved for the exact implementation, the real numbers extended with
      [nan], the value numpy yields for the mean of an empty array and for
      0/0. *)

From Stdlib Require Import Reals Lra Lia Ascii.
From stdpp Require Import base list gmap sets strings pretty.

#[local] Set Warnings "-clear-no-such-hyp".

(** ** Python outcomes *)

Module Py.

Inductive exn : Set :=
  | AssertionError
  | ZeroDivisionError
  | IndexError
  | ValueError
  | OSError.

Inductive outcome (A : Type) : Type :=
  | Return (a : A)
  | Raise (e : exn).
Arguments Return {A} a.
Arguments Raise {A} e.

#[export] Instance outcome_ret : MRet outcome := fun A a => Return a.
#[export] Instance outcome_bind : MBind outcome := fun A B f m =>
  match m with
  | Return a => f a
  | Raise e => Raise e
  end.

(** [a % b] on non-negative ints. *)
Definition py_mod (a b : nat) : outcome nat :=
  match b with
  | 0 => Raise ZeroDivisionError
  | S _ => Return (a mod b)
  end.

(** [a // b] on non-negative ints. *)
Definition py_floordiv (a b : nat) : outcome nat :=
  match b with
  | 0 => Raise ZeroDivisionError
  | S _ => Return (a / b)
  end.

(** [assert b]. *)
Definition py_assert (b : bool) : outcome unit :=
  if b then Return tt else Raise AssertionError.

(** [l[i]] for a non-negative index. *)
Definition py_index {A} (l : list A) (i : nat) : outcome A :=
  match l !! i with
  | Some x => Return x
  | None => Raise IndexError
  end.

(** [l[lo:hi]] for non-negative bounds. *)
Definition py_slice {A} (lo hi : nat) (l : list A) : list A :=
  drop lo (take hi l).

(** [zip] applied to the unpacked list [ls]: the columns of [ls], as many as
    the shortest element has. *)
Fixpoint zip_star {A} (ls : list (list A)) : list (list A) :=
  match ls with
  | [] => []
  | [l] => map (fun x => [x]) l
  | l :: ls' => zip_with cons l (zip_star ls')
  end.

(** [enumerate(l)]. *)
Definition enumerate {A} (l : list A) : list (nat * A) :=
  imap (fun i x => (i, x)) l.

End Py.
Import Py.

(** ** The random state *)

(** A computation that may draw from the global random state and may raise. *)
Definition rand (rng A : Type) : Type := rng -> outcome (A * rng).

Definition rret {rng A} (a : A) : rand rng A := fun g => Return (a, g).

Definition rbind {rng A B} (m : rand rng A) (f : A -> rand rng B) : rand rng B :=
  fun g =>
    match m g with
    | Return (a, g') => f a g'
    | Raise e => Raise e
    end.

Definition lift {rng A} (m : outcome A) : rand rng A :=
  fun g =>
    match m with
    | Return a => Return (a, g)
    | Raise e => Raise e
    end.

(** A draw that cannot raise. *)
Definition draw {rng A} (d : rng -> A * rng) : rand rng A :=
  fun g => Return (d g).

Notation "x <~ m ; k" := (rbind m (fun x => k))
  (at level 20, m at level 100, k at level 200, only parsing).

(** A [for] loop over [l] that threads the accumulator [acc]. *)
Fixpoint for_each {rng A S} (l : list A) (body : S -> A -> rand rng S) (acc : S)
  : rand rng S :=
  match l with
  | [] => rret acc
  | x :: l' => acc' <~ body acc x ; for_each l' body acc'
  end.

(** The same loop for a body that draws nothing. *)
Fixpoint for_each_pure {A S} (l : list A) (body : S -> A -> outcome S) (acc : S)
  : outcome S :=
  match l with
  | [] => Return acc
  | x :: l' => acc' ← body acc x; for_each_pure l' body acc'
  end.

(** ** Fold partitioner *)

Section FoldPartitioner.
Context {rng : Type}.
(** [np.random.permutation(n)], for the sizes that numpy accepts. *)
Variable permutation : nat -> rng -> list nat * rng.

Definition fold_pair (indices : list nat) (m i : nat) : list nat * list nat :=
  (py_slice 0 (i * m) indices ++ drop ((i + 1) * m) indices,
   py_slice (i * m) ((i + 1) * m) indices).

Definition k_folds_indices (n k : nat) (subsample : option nat)
  : rand rng (list (list nat * list nat)) :=
  let subsample := default n subsample in
  r <~ lift (py_mod subsample k) ;
  _ <~ lift (py_assert (r =? 0)) ;
  m <~ lift (py_floordiv subsample k) ;
  perm <~ draw (permutation n) ;
  let indices := take subsample perm in
  rret (fold_left (fun folds i => folds ++ [fold_pair indices m i])
                  (seq 0 k) []).
End FoldPartitioner.

(** ** numpy values and array operations *)

Module Np.

(** The arithmetic of float64 that the code uses. [np_sum] is the sum of
    an array of floats, which numpy adds up pairwise and not from left to
    right. *)
Class Float (F : Type) : Type := {
  (** The float of an int. *)
  of_count : nat -> F;
  fadd : F -> F -> F;
  fsub : F -> F -> F;
  fmul : F -> F -> F;
  fsqrt : F -> F;
  (** [a / n] for a float [a] and an int [n]. *)
  fdiv_nat : F -> nat -> F;
  (** [a < b]: false when one of them is [nan]. *)
  fless : F -> F -> bool;
  (** [a <= b]: false when one of them is [nan]. *)
  fle : F -> F -> bool;
  fisnan : F -> bool;
  np_sum : list F -> F
}.

(** How IEEE 754 orders floats: [nan] is below and above nothing, and the
    other floats, infinities included, are totally ordered. *)
Class FloatOrder (F : Type) `{Float F} : Prop := {
  fle_nan_l : forall x y : F, fisnan x = true -> fle x y = false;
  fle_nan_r : forall x y : F, fisnan y = true -> fle x y = false;
  fle_total : forall x y : F,
    fisnan x = false -> fisnan y = false -> fle x y = true \/ fle y x = true;
  fle_trans : forall x y z : F,
    fle x y = true -> fle y z = true -> fle x z = true
}.

(** The exact floats: a real number, or [nan].  Every quotient by zero that
    the embedded code can reach is 0/0, so no infinity is needed. *)
Inductive npfloat : Type :=
  | nan
  | fin (r : R).

#[export] Instance Rlt_decision : RelDecision Rlt := Rlt_dec.
#[export] Instance Rle_decision : RelDecision Rle := Rle_dec.

Definition exact_add (a b : npfloat) : npfloat :=
  match a, b with
  | fin x, fin y => fin (x + y)
  | _, _ => nan
  end.

Definition exact_sub (a b : npfloat) : npfloat :=
  match a, b with
  | fin x, fin y => fin (x - y)
  | _, _ => nan
  end.

Definition exact_mul (a b : npfloat) : npfloat :=
  match a, b with
  | fin x, fin y => fin (x * y)
  | _, _ => nan
  end.

Definition exact_sqrt (a : npfloat) : npfloat :=
  match a with
  | fin x => fin (sqrt x)
  | nan => nan
  end.

Definition exact_div_nat (a : npfloat) (n : nat) : npfloat :=
  match a, n with
  | fin x, S _ => fin (x / INR n)
  | _, _ => nan
  end.

Definition exact_less (a b : npfloat) : bool :=
  match a, b with
  | fin x, fin y => bool_decide (x < y)%R
  | _, _ => false
  end.

Definition exact_le (a b : npfloat) : bool :=
  match a, b with
  | fin x, fin y => bool_decide (x <= y)%R
  | _, _ => false
  end.

Definition exact_isnan (a : npfloat) : bool :=
  match a with
  | fin _ => false
  | nan => true
  end.

Definition exact_sum (xs : list npfloat) : npfloat :=
  foldr exact_add (fin 0) xs.

#[export] Instance exact_float : Float npfloat := {|
  of_count c := fin (INR c);
  fadd := exact_add;
  fsub := exact_sub;
  fmul := exact_mul;
  fsqrt := exact_sqrt;
  fdiv_nat := exact_div_nat;
  fless := exact_less;
  fle := exact_le;
  fisnan := exact_isnan;
  np_sum := exact_sum
|}.
Arguments exact_float : simpl never.

(** [b.sum()] of a boolean array. *)
Definition count_true (b : list bool) : nat := length (filter (fun x => x = true) b).

(** [a == b] of two boolean arrays: element-wise on equal shapes; a
    one-element operand is broadcast over the other one; other shapes raise
    (numpy 1.25 and later). *)
Definition np_equal (a b : list bool) : outcome (list bool) :=
  if length a =? length b then Return (zip_with eqb a b)
  else match a, b with
       | [x], _ => Return (map (eqb x) b)
       | _, [y] => Return (map (fun x => eqb x y) a)
       | _, _ => Raise ValueError
       end.

(** [Y[inds]]. *)
Definition fancy_index {A} (Y : list A) (inds : list nat) : outcome (list A) :=
  mapM (py_index Y) inds.

(** [K[np.ix_(rows, cols)]]. *)
Definition ix_ {A} (K : list (list A)) (rows cols : list nat)
  : outcome (list (list A)) :=
  mapM (fun r => row ← py_index K r; fancy_index row cols) rows.

(** [xs[mask]]. *)
Fixpoint mask_index {A} (xs : list A) (mask : list bool) : list A :=
  match xs, mask with
  | x :: xs', b :: mask' =>
      if b then x :: mask_index xs' mask' else mask_index xs' mask'
  | _, _ => []
  end.

Section Arrays.
Context {F : Type} `{Float F}.

(** [x * x]. *)
Definition fsqr (a : F) : F := fmul a a.

(** [a < n] for a float [a] and an int [n], which is compared as a
    float. *)
Definition flt (a : F) (n : nat) : bool := fless a (of_count n).

(** [x > best] in the scan of [argmax], which moves on when [x <= best]
    does not hold and stops at a [nan]: [nan] beats every number and is
    beaten by nothing. *)
Definition beats (x best : F) : bool :=
  if fisnan best then false else negb (fle x best).

(** [xs.mean()]. *)
Definition np_mean (xs : list F) : F :=
  fdiv_nat (np_sum xs) (length xs).

(** [xs.var(ddof)]: the squared deviations from the mean, summed and divided
    by [len(xs) - ddof]. *)
Definition np_var (ddof : nat) (xs : list F) : F :=
  let arrmean := np_mean xs in
  fdiv_nat (np_sum (map (fun x => fsqr (fsub x arrmean)) xs)) (length xs - ddof).

(** [xs.std(ddof)]; the default of [ddof] is 0. *)
Definition np_std (ddof : nat) (xs : list F) : F :=
  fsqrt (np_var ddof xs).

(** [b.mean()] of a boolean array. *)
Definition mean_bool (b : list bool) : F :=
  fdiv_nat (of_count (count_true b)) (length b).

Fixpoint argmax_scan (best_i : nat) (best : F) (i : nat) (xs : list F)
  : nat :=
  match xs with
  | [] => best_i
  | x :: xs' =>
      if beats x best then argmax_scan i x (S i) xs'
      else argmax_scan best_i best (S i) xs'
  end.

(** [np.argmax(xs)]: the first index of the maximum, the first [nan] if
    there is one. *)
Definition np_argmax (xs : list F) : outcome nat :=
  match xs with
  | [] => Raise ValueError
  | x :: xs' => Return (argmax_scan 0 x 1 xs')
  end.
End Arrays.

End Np.
Import Np.

(** ** Evaluator *)

(** The tuple returned by [evaluate]. *)
Record evaluation {F : Type} : Type := Evaluation {
  valid_scores_mean : F;
  valid_scores_std : F;
  train_scores_mean : F;
  train_scores_std : F
}.
Arguments Evaluation {F} _ _ _ _.

Section Evaluator.
Context {rng A clf F : Type} `{Float F}.
Variable permutation : nat -> rng -> list nat * rng.
(** [classifier.fit(K, Y)] updates the classifier. *)
Variable fit : clf -> list (list A) -> list bool -> clf.
(** [classifier.predict(K)]. *)
Variable predict : clf -> list (list A) -> list bool.

(** Body of the loop over the folds. *)
Definition fold_body (K : list (list A)) (Y : list bool)
    (acc : clf * nat * F) (fold : list nat * list nat)
  : outcome (clf * nat * F) :=
  let '(classifier, valid_score, train_score) := acc in
  let '(train_inds, valid_inds) := fold in
  K_fit ← ix_ K train_inds train_inds;
  Y_fit ← fancy_index Y train_inds;
  let classifier := fit classifier K_fit Y_fit in
  K_valid ← ix_ K valid_inds train_inds;
  Y_valid ← fancy_index Y valid_inds;
  hits_valid ← np_equal (predict classifier K_valid) Y_valid;
  let valid_score := valid_score + count_true hits_valid in
  K_train ← ix_ K train_inds train_inds;
  Y_train ← fancy_index Y train_inds;
  hits_train ← np_equal (predict classifier K_train) Y_train;
  let train_score := fadd train_score (mean_bool hits_train) in
  Return (classifier, valid_score, train_score).

(** Body of the loop over the repeats. *)
Definition repeat_body (K : list (list A)) (Y : list bool) (N folds : nat)
    (acc : clf * list F * list F) (i : nat)
  : rand rng (clf * list F * list F) :=
  let '(classifier, valid_scores, train_scores) := acc in
  splits <~ k_folds_indices permutation N folds None;
  r <~ lift (for_each_pure splits (fold_body K Y) (classifier, 0, of_count 0));
  let '(classifier, valid_score, train_score) := r in
  rret (classifier,
        valid_scores ++ [fdiv_nat (of_count valid_score) N],
        train_scores ++ [fdiv_nat train_score folds]).

Definition evaluate (classifier : clf) (K : list (list A)) (Y : list bool)
    (folds repeats : nat) : rand rng evaluation :=
  let N := length K in
  r <~ for_each (seq 0 repeats) (repeat_body K Y N folds) (classifier, [], []);
  let '(_, valid_scores, train_scores) := r in
  rret {| valid_scores_mean := np_mean valid_scores;
          valid_scores_std := np_std 0 valid_scores;
          train_scores_mean := np_mean train_scores;
          train_scores_std := np_std 0 train_scores |}.
End Evaluator.

(** ** Grid search *)

Section GridSearch.
Context {rng A clf P F : Type} `{Float F}.
Variable permutation : nat -> rng -> list nat * rng.
Variable fit : clf -> list (list A) -> list bool -> clf.
Variable predict : clf -> list (list A) -> list bool.
(** [model(p)] instantiates a classifier. *)
Variable model : P -> clf.

(** [results[:, 0] - results[:, 1]]. *)
Definition selection_scores (results : list evaluation) : list F :=
  map (fun r => fsub (valid_scores_mean r) (valid_scores_std r)) results.

(** The index used to pick the configuration out of [params]. *)
Definition selected_index (no_perfect : bool) (results : list evaluation)
  : outcome nat :=
  match results with
  | [] => Raise IndexError
  | _ =>
      if no_perfect then
        let non_perfect := map (fun r => flt (train_scores_mean r) 1) results in
        np_argmax (selection_scores (mask_index results non_perfect))
      else
        np_argmax (selection_scores results)
  end.

(** The loop that evaluates every configuration of [params]. *)
Definition grid_results (params : list P) (K : list (list A)) (Y : list bool)
    (folds repeats : nat) : rand rng (list evaluation) :=
  for_each params
    (fun results p =>
       r <~ evaluate permutation fit predict (model p) K Y folds repeats;
       rret (results ++ [r]))
    [].

Definition grid_search (params : list P) (K : list (list A)) (Y : list bool)
    (folds repeats : nat) (no_perfect : bool) : rand rng (P * evaluation) :=
  results <~ grid_results params K Y folds repeats;
  i <~ lift (selected_index no_perfect results);
  p <~ lift (py_index params i);
  final <~ evaluate permutation fit predict (model p) K Y 20 repeats;
  rret (p, final).
End GridSearch.

(** ** Kernel cache *)

Definition n_datasets : nat := 3.

(** What [precomputed_kernels] reads and writes: the directory [kernels],
    one pickled pair per file name in it, and the number of kernel
    computations submitted so far. The files are kept by the name given to
    the call, and opening them is taken to succeed: names that the file
    system resolves to one file, or refuses, are outside this model, and
    nothing is stated about them. *)
Record world (KM : Type) : Type := World {
  kernels_dir : bool;
  kernel_files : gmap string (list KM * list KM);
  kernel_calls : nat
}.
Arguments World {KM}.
Arguments kernels_dir {KM}.
Arguments kernel_files {KM}.
Arguments kernel_calls {KM}.

Section KernelCache.
Context {X KM P : Type}.
(** [load(k=k, train=train, numeric=numeric)] on the feature files. *)
Variable load : nat -> bool -> bool -> outcome X.

Definition mkdir (w : world KM) : world KM :=
  if kernels_dir w then w
  else World true (kernel_files w) (kernel_calls w).

Definition submitted (n : nat) (w : world KM) : world KM :=
  World (kernels_dir w) (kernel_files w) (kernel_calls w + n).

Definition dump (name : string) (kernels : list KM * list KM) (w : world KM)
  : world KM :=
  World (kernels_dir w) (<[name := kernels]> (kernel_files w)) (kernel_calls w).

Definition precomputed_kernels (kernel : X -> option X -> P -> outcome KM)
    (name : string) (numeric : bool) (max_workers : nat) (params : P)
  : rand (world KM) (list KM * list KM) :=
  fun w =>
    let w := mkdir w in
    match kernel_files w !! name with
    | Some kernels => Return (kernels, w)
    | None =>
        train_Xs ← mapM (fun k => load k true numeric) (seq 0 n_datasets);
        test_Xs ← mapM (fun k => load k false numeric) (seq 0 n_datasets);
        let w := submitted (length train_Xs + length (zip test_Xs train_Xs)) w in
        train_Ks ← mapM (fun train_X => kernel train_X None params) train_Xs;
        test_Ks ← mapM (fun '(test_X, train_X) =>
                          kernel test_X (Some train_X) params)
                       (zip test_Xs train_Xs);
        let kernels := (train_Ks, test_Ks) in
        Return (kernels, dump name kernels w)
    end.
End KernelCache.

(** ** Kernel composer *)

Section KernelComposer.
Context {KM : Type}.

(** [train, test = columns]. *)
Definition unpack_pair {B} (columns : list B) : outcome (B * B) :=
  match columns with
  | [train; test] => Return (train, test)
  | _ => Raise ValueError
  end.

Definition transform_kernels (kernels : list (list KM * list KM))
    (transform : nat -> list KM -> KM) : outcome (list KM * list KM) :=
  '(train, test) ← unpack_pair (zip_star (map (fun s => [s.1; s.2]) kernels));
  Return (map (fun '(i, ks) => transform i ks) (enumerate (zip_star train)),
          map (fun '(i, ks) => transform i ks) (enumerate (zip_star test))).
End KernelComposer.

(** ** The evaluator as the specification words it *)

(** The arithmetic of the specification is the one of the real numbers,
    written with the functions of the standard library; [nan] stands for a
    score that is not a number. *)


(** Sum of a list of real numbers. *)
Definition total (rs : list R) : R := foldr Rplus 0%R rs.





Section EvaluatorSpec.
Context {rng A clf : Type}.
Variable permutation : nat -> rng -> list nat * rng.
Variable fit : clf -> list (list A) -> list bool -> clf.
Variable predict : clf -> list (list A) -> list bool.





End EvaluatorSpec.

(** ** Predicates used in the statements *)

(** A float that is a number of the interval [0,1]. *)
Definition in_unit (a : npfloat) : Prop :=
  match a with
  | fin x => (0 <= x <= 1)%R
  | nan => False
  end.

(** A float that is a non-negative number. *)
Definition non_negative (a : npfloat) : Prop :=
  match a with
  | fin x => (0 <= x)%R
  | nan => False
  end.

(** [K] has [N] rows of at least [N] entries. *)
Definition square {A} (K : list (list A)) : Prop :=
  Forall (fun row => length K <= length row) K.

(** A fold whose indices are rows of [K], whose train block is not empty and
    whose validation block has at most [m] indices. *)
Definition fold_ok {A} (K : list (list A)) (m : nat) (fold : list nat * list nat)
  : Prop :=
  Forall (fun i => i < length K) fold.1
  /\ Forall (fun i => i < length K) fold.2
  /\ 0 < length fold.1
  /\ length fold.2 <= m.

(** [i] is the first index of [l] that holds a maximum of [l], in the
    order of the floats and with [nan] above every number: the element at
    [i] is [nan] or no element is above it, and every element before it is
    a number strictly below it. *)
Definition first_maximum {F} `{Float F} (l : list F) (i : nat) : Prop :=
  exists s,
    l !! i = Some s
    /\ (forall j s', l !! j = Some s' -> fisnan s = true \/ fle s' s = true)
    /\ (forall j s', j < i -> l !! j = Some s' ->
                     fisnan s' = false
                     /\ (fisnan s = true \/ fle s s' = false)).

(** [r] is what some call of [evaluate] on the classifier [c] returned. *)
Definition evaluated {rng A clf F} `{Float F}
    (permutation : nat -> rng -> list nat * rng)
    (fit : clf -> list (list A) -> list bool -> clf)
    (predict : clf -> list (list A) -> list bool)
    (K : list (list A)) (Y : list bool) (folds repeats : nat)
    (c : clf) (r : evaluation) : Prop :=
  exists g g', evaluate permutation fit predict c K Y folds repeats g = Return (r, g').

(** The index sets of the validation blocks of [splits]. *)
Definition validation_sets (splits : list (list nat * list nat)) : list (gset nat) :=
  map (fun fold => list_to_set fold.2) splits.

(** ** Concrete instances *)

Module Demo.

(** A random state that counts the draws; even draws give the identity
    permutation, odd draws the reversed one. *)
Definition permutation (n : nat) (g : nat) : list nat * nat :=
  (if Nat.even g then seq 0 n else rev (seq 0 n), S g).

(** A classifier that predicts one fixed label for every row. *)
Definition fit (c : bool) (K : list (list R)) (Y : list bool) : bool := c.
Definition predict (c : bool) (K : list (list R)) : list bool :=
  map (fun _ => c) K.
(** Configurations are numbers; an even one predicts [True]. *)
Definition model (p : nat) : bool := Nat.even p.

Definition zeros (n : nat) : list (list R) := replicate n (replicate n 0%R).

(** Element-wise sum of two matrices, and the transform that sums its
    kernels. *)
Definition mat_add (a b : list (list R)) : list (list R) :=
  zip_with (zip_with Rplus) a b.

Definition sum_transform (i : nat) (ks : list (list (list R))) : list (list R) :=
  match ks with
  | [] => []
  | k :: ks' => fold_left mat_add ks' k
  end.

(** Feature files holding one number per data set, and a kernel that
    multiplies what it is given. *)
Definition load (k : nat) (train numeric : bool) : outcome nat :=
  Return (if train then k + 1 else k + 4).

Definition kernel (x : nat) (y : option nat) (params : nat) : outcome nat :=
  Return (params * x * default x y).

Definition empty_world : world nat := World false ∅ 0.

End Demo.

Abbreviation demo_evaluate := (evaluate Demo.permutation Demo.fit Demo.predict).
Abbreviation demo_grid_results :=
  (grid_results Demo.permutation Demo.fit Demo.predict Demo.model).
Abbreviation demo_grid_search :=
  (grid_search Demo.permutation Demo.fit Demo.predict Demo.model).

(** The scores of the constant classifier on labels that are all [True]:
    every score is 1 when it predicts [True] and 0 when it predicts
    [False]. *)
Abbreviation all_right := (Evaluation (fin 1) (fin 0) (fin 1) (fin 0)).
Abbreviation all_wrong := (Evaluation (fin 0) (fin 0) (fin 0) (fin 0)).

(** ** The other functions of [utils.py] *)

#[export] Instance outcome_fmap : FMap outcome := fun A B f m =>
  match m with
  | Return a => Return (f a)
  | Raise e => Raise e
  end.

(** *** Errors of the upper layers and keyword arguments *)

Module Kw.

(** The exceptions of the layer that builds keyword dictionaries, and the
    ones that come up from the layers below. *)
Inductive error : Set :=
  | TypeError
  | KeyError
  | Propagated (e : exn).

Inductive result (A : Type) : Type :=
  | Ok (a : A)
  | Err (e : error).
Arguments Ok {A} a.
Arguments Err {A} e.

Definition run (S A : Type) : Type := S -> result (A * S).

#[global] Instance run_ret {S} : MRet (run S) := fun A a s => Ok (a, s).
#[global] Instance run_bind {S} : MBind (run S) := fun A B f m s =>
  match m s with
  | Ok (a, s') => f a s'
  | Err e => Err e
  end.

Definition of_outcome {S A} (m : outcome A) : run S A :=
  fun s =>
    match m with
    | Return a => Ok (a, s)
    | Raise e => Err (Propagated e)
    end.

Definition of_rand {S A} (m : rand S A) : run S A :=
  fun s =>
    match m s with
    | Return x => Ok x
    | Raise e => Err (Propagated e)
    end.

Definition fail {S A} (e : error) : run S A := fun _ => Err e.

(** An outcome of the layers below, without state. *)
Definition lift {A} (m : outcome A) : result A :=
  match m with
  | Return a => Ok a
  | Raise e => Err (Propagated e)
  end.

(** The keywords [C=C, **params]: a keyword given twice is a [TypeError]. *)
Definition with_C {S V} (C : V) (params : gmap string V)
  : run S (gmap string V) :=
  match params !! "C" with
  | Some _ => fail TypeError
  | None => mret (<["C" := C]> params)
  end.

(** [p[key]]. *)
Definition getitem {S V} (p : gmap string V) (key : string) : run S V :=
  match p !! key with
  | Some v => mret v
  | None => fail KeyError
  end.

End Kw.

(** *** [shuffle] *)

Section Shuffle.
Context {rng A : Type}.
(** [np.random.shuffle] applied to [np.arange(n)]: the order it leaves. *)
Variable shuffled_arange : nat -> rng -> list nat * rng.

Definition shuffle (arrays : list (list A)) : rand rng (list (list A)) :=
  first <~ lift (py_index arrays 0);
  indices <~ draw (shuffled_arange (length first));
  lift (mapM (fun a => fancy_index a indices) arrays).
End Shuffle.

(** *** [load] *)

(** What [np.loadtxt] gives for one column of a file: the array of its
    rows, or a zero-dimensional array when the file has a single data
    row. *)
Inductive column (A : Type) : Type :=
  | Scalar (a : A)
  | Column (l : list A).
Arguments Scalar {A} a.
Arguments Column {A} l.

(** What [load] returns: the array of an embedding file as [np.loadtxt]
    gives it, the raw sequences, the sequences encoded (the floats 0.0 to
    3.0, kept as naturals), or the labels. *)
Inductive loaded (E : Type) : Type :=
  | Embedded (data : E)
  | Sequences (data : column string)
  | Encoded (rows : list (list nat))
  | Labels (data : column bool).
Arguments Embedded {E} data.
Arguments Sequences {E} data.
Arguments Encoded {E} rows.
Arguments Labels {E} data.

Definition file_name (X train : bool) (k : nat) (embed : bool) : string :=
  "data/" +:+ (if X then "X" else "Y") +:+ (if train then "tr" else "te")
          +:+ pretty k +:+ (if embed then "_mat100" else "") +:+ ".csv".

Definition letters : list ascii := ["A"; "T"; "C"; "G"]%char.

(** [array[data == l] = i]. *)
Definition assign_where (data : list (list ascii)) (l : ascii) (i : nat)
    (array : list (list nat)) : list (list nat) :=
  zip_with (zip_with (fun ch old => if decide (ch = l) then i else old))
           data array.

(** [np.array] of rows: the rows must have one length (numpy 1.24 and later
    refuse ragged rows). *)
Definition np_array_2d {A} (rows : list (list A)) : outcome (list (list A)) :=
  match rows with
  | [] => Return []
  | row :: _ =>
      if forallb (fun r => length r =? length row) rows then Return rows
      else Raise ValueError
  end.

(** The branch [if X and not embed and numeric] of [load]. *)
Definition encode (data : list string) : outcome (list (list nat)) :=
  data ← np_array_2d (map String.list_ascii_of_string data);
  let array := map (map (fun _ => 0)) data in
  Return (fold_left (fun array '(i, l) => assign_where data l i array)
                    (enumerate letters) array).

Section Load.
(** The array of floats of an embedding file, of any shape. *)
Context {E : Type}.
(** [np.loadtxt(name, dtype, skiprows, usecols, delimiter)] for the three
    dtypes that [load] asks for; with [usecols=1] it reads one column. *)
Variable loadtxt_float :
  string -> nat -> option nat -> string -> outcome E.
Variable loadtxt_str :
  string -> nat -> option nat -> string -> outcome (column string).
Variable loadtxt_bool :
  string -> nat -> option nat -> string -> outcome (column bool).

(** [[list(s) for s in data]] iterates over [data], which a
    zero-dimensional array does not allow. *)
Definition load (X : bool) (k : nat) (train embed numeric : bool)
  : Kw.result (loaded E) :=
  let name := file_name X train k embed in
  if embed then
    match loadtxt_float name 0 None " " with
    | Return data => Kw.Ok (Embedded data)
    | Raise e => Kw.Err (Kw.Propagated e)
    end
  else if X then
    match loadtxt_str name 1 (Some 1) "," with
    | Return data =>
        if numeric then
          match data with
          | Scalar _ => Kw.Err Kw.TypeError
          | Column data => Kw.lift (Encoded <$> encode data)
          end
        else Kw.Ok (Sequences data)
    | Raise e => Kw.Err (Kw.Propagated e)
    end
  else
    match loadtxt_bool name 1 (Some 1) "," with
    | Return data => Kw.Ok (Labels data)
    | Raise e => Kw.Err (Kw.Propagated e)
    end.
End Load.

(** *** [final_train] *)

Section FinalTrain.
Context {A clf P : Type}.
Variable fit : clf -> list (list A) -> list bool -> clf.
Variable predict : clf -> list (list A) -> list bool.
Variable model : P -> clf.

Definition final_train (p : P) (K_train : list (list A)) (Y_train : list bool)
    (K_test : list (list A)) : list bool :=
  let m := model p in
  let m := fit m K_train Y_train in
  predict m K_test.
End FinalTrain.

(** *** [save_predictions] *)

(** The directory [predictions] and the text files in it, line by line.
    The files are kept by the name given to the call, and writing them is
    taken to succeed: what is stated about a file is stated for the calls
    that return, and about the file of that call only. *)
Record outputs : Type := Outputs {
  predictions_dir : bool;
  prediction_files : gmap string (list string)
}.

(** [np.concatenate(arrays)]. *)
Definition concatenate {A} (arrays : list (list A)) : outcome (list A) :=
  match arrays with
  | [] => Raise ValueError
  | _ => Return (concat arrays)
  end.

(** A row [Id, Bound] written with [fmt='%d'] and [delimiter=',']. *)
Definition csv_line (row : nat * bool) : string :=
  pretty row.1 +:+ "," +:+ (if row.2 then "1" else "0").

Definition save_predictions (predictions : list (list bool)) (file : string)
  : rand outputs unit :=
  fun o =>
    let o := if predictions_dir o then o
             else Outputs true (prediction_files o) in
    predictions ← concatenate predictions;
    let table := zip (seq 0 (length predictions)) predictions in
    let lines := "Id,Bound" :: map csv_line table in
    Return (tt, Outputs (predictions_dir o)
                        (<[file +:+ ".csv" := lines]> (prediction_files o))).

(** *** [global_evaluate] *)

Section GlobalEvaluate.
Context {rng A clf V F : Type} `{Float F}.
Variable permutation : nat -> rng -> list nat * rng.
Variable fit : clf -> list (list A) -> list bool -> clf.
Variable predict : clf -> list (list A) -> list bool.
(** The classifier built from its keywords. *)
Variable classifier : gmap string V -> clf.

Definition global_evaluate (Ks : list (list (list A))) (Ys : list (list bool))
    (Cs : list V) (folds repeats : nat) (params : gmap string V)
  : Kw.run rng (list evaluation) :=
  mapM (fun '(K, (Y, C)) =>
          keywords ← Kw.with_C C params;
          Kw.of_rand (evaluate permutation fit predict (classifier keywords)
                               K Y folds repeats))
       (zip Ks (zip Ys Cs)).
End GlobalEvaluate.

(** *** [svm_kernels] *)

(** A line of the printed report: the four percentages of a data set with
    its [C], or the four percentages of the total. *)
Inductive report (F V : Type) : Type :=
  | DatasetLine (percentages : evaluation (F := F)) (C : V)
  | TotalLine (percentages : evaluation (F := F)).
Arguments DatasetLine {F V}.
Arguments TotalLine {F V}.

Section Scores.
Context {F : Type} `{Float F}.

(** Component-wise operations on the four scores, as on numpy arrays. *)
Definition evaluation_add (a b : evaluation) : evaluation :=
  Evaluation (fadd (valid_scores_mean a) (valid_scores_mean b))
             (fadd (valid_scores_std a) (valid_scores_std b))
             (fadd (train_scores_mean a) (train_scores_mean b))
             (fadd (train_scores_std a) (train_scores_std b)).

(** [c * a] for an int [c]. *)
Definition evaluation_scale (c : nat) (a : evaluation) : evaluation :=
  Evaluation (fmul (of_count c) (valid_scores_mean a))
             (fmul (of_count c) (valid_scores_std a))
             (fmul (of_count c) (train_scores_mean a))
             (fmul (of_count c) (train_scores_std a)).

(** [a / n] for an int [n]. *)
Definition evaluation_div (a : evaluation) (n : nat) : evaluation :=
  Evaluation (fdiv_nat (valid_scores_mean a) n)
             (fdiv_nat (valid_scores_std a) n)
             (fdiv_nat (train_scores_mean a) n)
             (fdiv_nat (train_scores_std a) n).

(** [np.zeros(4)]. *)
Definition evaluation_zeros : evaluation :=
  Evaluation (of_count 0) (of_count 0) (of_count 0) (of_count 0).
End Scores.

Section SvmKernels.
Context {rng A clf V F : Type} `{Float F}.
Variable permutation : nat -> rng -> list nat * rng.
Variable fit : clf -> list (list A) -> list bool -> clf.
Variable predict : clf -> list (list A) -> list bool.
(** The model built from the keywords [p]. *)
Variable model : gmap string V -> clf.
(** The labels of the data sets, loaded when the module is imported. *)
Variable train_Ys : list (list bool).
(** The grid searches run in worker processes: [worker_rng i] is the random
    state of the worker that runs task [i] when it starts it, which the
    source does not determine. The random state of the caller is not
    used. *)
Variable worker_rng : nat -> rng.

(** What [svm_kernels] writes: the prediction files and the printed
    report. *)
Definition console : Type := outputs * list (report F V).

Definition print (line : report F V) : Kw.run console unit :=
  fun s => Kw.Ok (tt, (s.1, s.2 ++ [line])).

Definition on_outputs {B} (m : rand outputs B) : Kw.run console B :=
  fun s =>
    match m s.1 with
    | Return (b, o) => Kw.Ok (b, (o, s.2))
    | Raise e => Kw.Err (Kw.Propagated e)
    end.

(** The loop that adds up, prints and collects the performances. *)
Fixpoint report_loop (res : list (gmap string V * evaluation))
    (total_perf : evaluation) (full_results : list evaluation)
  : Kw.run console (evaluation * list evaluation) :=
  match res with
  | [] => mret (total_perf, full_results)
  | (p, performance) :: res' =>
      let total_perf := evaluation_add total_perf performance in
      let percentages := evaluation_scale 100 performance in
      C ← Kw.getitem p "C";
      _ ← print (DatasetLine percentages C);
      report_loop res' total_perf (full_results ++ [performance])
  end.

Definition svm_kernels
    (kernels : list (list (list A)) * list (list (list A)))
    (Cs : list V) (prediction_file : option string) (repeats : nat)
    (params : gmap string V) : Kw.run console (list evaluation) :=
  let '(train_Ks, test_Ks) := kernels in
  params ← mapM (fun C => Kw.with_C C params) Cs;
  res ← Kw.of_outcome
          (mapM (fun '(i, (K, Y)) =>
                   fst <$> grid_search permutation fit predict model params
                                       K Y 5 repeats false (worker_rng i))
                (enumerate (zip train_Ks train_Ys)));
  r ← report_loop res evaluation_zeros [];
  let '(total_perf, full_results) := r in
  _ ← match prediction_file with
      | Some file =>
          let predictions :=
            map (fun '(K, (Y, (K_test, (p, _)))) =>
                   final_train fit predict model p K Y K_test)
                (zip train_Ks (zip train_Ys (zip test_Ks res))) in
          on_outputs (save_predictions predictions file)
      | None => mret tt
      end;
  let total_percentages :=
    evaluation_div (evaluation_scale 100 total_perf) 3 in
  _ ← print (TotalLine total_percentages);
  mret full_results.
End SvmKernels.

(** *** Concrete instances for the other functions *)

Module DemoRun.

(** A model built from keywords: an even [C] predicts [True]. *)
Definition keyword_model (p : gmap string nat) : bool :=
  match p !! "C" with
  | Some c => Nat.even c
  | None => false
  end.

(** One data set of twenty [True] labels. *)
Definition train_Ys : list (list bool) := [replicate 20 true].

(** Every worker starts from the random state 0. *)
Definition worker_rng (i : nat) : nat := 0.

(** A classifier without state that predicts [True] for every row. *)
Definition fit_nothing (c : unit) (K : list (list R)) (Y : list bool) : unit := c.
Definition predict_true (c : unit) (K : list (list R)) : list bool :=
  replicate (length K) true.

(** A data directory with two feature files: one of two sequences, one of
    a single sequence. *)
Definition loadtxt_float (name : string) (skiprows : nat) (usecols : option nat)
    (delimiter : string) : outcome (list (list R)) := Raise OSError.
Definition loadtxt_str (name : string) (skiprows : nat) (usecols : option nat)
    (delimiter : string) : outcome (column string) :=
  if decide (name = "data/Xtr0.csv") then Return (Column ["ATCG"; "GGNA"])
  else if decide (name = "data/Xtr1.csv") then Return (Scalar "ATCG")
  else Raise OSError.
Definition loadtxt_bool (name : string) (skiprows : nat) (usecols : option nat)
    (delimiter : string) : outcome (column bool) := Raise OSError.

End DemoRun.

(** *** Predicates on text *)

Definition digit (c : ascii) : Prop :=
  c ∈ ["0"; "1"; "2"; "3"; "4"; "5"; "6"; "7"; "8"; "9"]%char.

Fixpoint all_digits (s : string) : Prop :=
  match s with
  | EmptyString => True
  | String c s' => digit c /\ all_digits s'
  end.

(** The code of a letter once the loop of [encode] is over. *)
Definition letter_code (c : ascii) : nat :=
  if decide (c = "G"%char) then 3
  else if decide (c = "C"%char) then 2
  else if decide (c = "T"%char) then 1
  else 0.

(** A text with every character other than T, C and G replaced by A. *)
Definition unmatched_to_A (s : string) : string :=
  String.string_of_list_ascii
    (map (fun c => if decide (c ∈ ["T"; "C"; "G"]%char) then c else "A"%char)
         (String.list_ascii_of_string s)).

(** * Properties *)

(** ** The monads *)

Lemma rbind_return {rng A B} (m : rand rng A) (f : A -> rand rng B) g a g' :
  m g = Return (a, g') -> rbind m f g = f a g'.
Proof. intros H. unfold rbind. by rewrite H. Qed.

Lemma rbind_raise {rng A B} (m : rand rng A) (f : A -> rand rng B) g e :
  m g = Raise e -> rbind m f g = Raise e.
Proof. intros H. unfold rbind. by rewrite H. Qed.

Lemma rbind_inv {rng A B} (m : rand rng A) (f : A -> rand rng B) g b g' :
  rbind m f g = Return (b, g') ->
  exists a g1, m g = Return (a, g1) /\ f a g1 = Return (b, g').
Proof.
  unfold rbind. destruct (m g) as [[a g1]|e]; [|done]. intros H. by exists a, g1.
Qed.

Lemma lift_inv {rng A} (m : outcome A) (g : rng) a g' :
  lift m g = Return (a, g') -> m = Return a /\ g' = g.
Proof. destruct m; simpl; [|done]. intros [= -> ->]. done. Qed.

Lemma bind_inv {A B} (m : outcome A) (f : A -> outcome B) b :
  m ≫= f = Return b -> exists a, m = Return a /\ f a = Return b.
Proof. destruct m as [a|e]; simpl; [|done]. intros H. by exists a. Qed.

(** ** Fold partitioner *)

Lemma append_loop_map {A B} (f : A -> B) (l : list A) (acc : list B) :
  fold_left (fun out i => out ++ [f i]) l acc = acc ++ map f l.
Proof.
  revert acc. induction l as [|x l IH]; intros acc; simpl.
  - by rewrite app_nil_r.
  - rewrite IH. by rewrite <- app_assoc.
Qed.

#[local] Arguments Nat.modulo : simpl never.
#[local] Arguments Nat.div : simpl never.

Section FoldPartitionerFacts.
Context {rng : Type}.
Variable permutation : nat -> rng -> list nat * rng.

(** The partitioner on a non-zero fold count. *)
Lemma k_folds_indices_unfold n k subsample g :
  k <> 0 ->
  k_folds_indices permutation n k subsample g =
    if default n subsample `mod` k =? 0 then
      Return (map (fold_pair (take (default n subsample) (permutation n g).1)
                             (default n subsample / k)) (seq 0 k),
              (permutation n g).2)
    else Raise AssertionError.
Proof.
  intros Hk. unfold k_folds_indices.
  destruct k as [|k]; [done|]. unfold rbind, draw, rret. simpl.
  destruct (_ =? 0); simpl; [|done].
  destruct (permutation n g) as [perm g']. simpl.
  by rewrite append_loop_map.
Qed.

Lemma k_folds_indices_zero n subsample g :
  k_folds_indices permutation n 0 subsample g = Raise ZeroDivisionError.
Proof. done. Qed.

Lemma k_folds_indices_returns n k subsample g :
  py_mod (default n subsample) k = Return 0 ->
  k_folds_indices permutation n k subsample g =
    Return (map (fold_pair (take (default n subsample) (permutation n g).1)
                           (default n subsample / k)) (seq 0 k),
            (permutation n g).2).
Proof.
  intros Hmod. destruct k as [|k]; [done|].
  rewrite k_folds_indices_unfold by done.
  injection Hmod as ->. done.
Qed.

Lemma k_folds_indices_inv n k subsample g splits g' :
  k_folds_indices permutation n k subsample g = Return (splits, g') ->
  py_mod (default n subsample) k = Return 0.
Proof.
  destruct k as [|k]; [done|].
  rewrite k_folds_indices_unfold by done. simpl.
  destruct (_ =? 0) eqn:E; [|done].
  apply Nat.eqb_eq in E. by rewrite E.
Qed.

Lemma k_folds_indices_raises n k subsample g r :
  py_mod (default n subsample) k = Return r -> r <> 0 ->
  k_folds_indices permutation n k subsample g = Raise AssertionError.
Proof.
  intros Hmod Hr. destruct k as [|k]; [done|].
  rewrite k_folds_indices_unfold by done.
  injection Hmod as ->. by apply Nat.eqb_neq in Hr as ->.
Qed.
End FoldPartitionerFacts.

(** *** Blocks of a list *)

Section Blocks.
Context {A : Type}.
Implicit Types l : list A.

Lemma take_slice l a b :
  a <= b -> take a l ++ py_slice a b l = take b l.
Proof.
  intros Hab. unfold py_slice.
  assert (take a l = take a (take b l)) as ->.
  { rewrite take_take. f_equal. lia. }
  apply take_drop.
Qed.

Lemma take_slice_drop l a b :
  a <= b -> take a l ++ py_slice a b l ++ drop b l = l.
Proof.
  intros Hab. rewrite app_assoc, take_slice by done. apply take_drop.
Qed.

Lemma py_slice_0 l b : py_slice 0 b l = take b l.
Proof. done. Qed.

Lemma length_py_slice l a b :
  a <= b -> b <= length l -> length (py_slice a b l) = b - a.
Proof.
  intros Hab Hb. unfold py_slice. rewrite length_drop, length_take. lia.
Qed.
End Blocks.

Section BlockSets.
Implicit Types l : list nat.

Lemma NoDup_take_drop_disjoint l a b x :
  NoDup l -> a <= b -> x ∈ take a l -> x ∈ drop b l -> False.
Proof.
  intros Hnd Hab Hx1 Hx2.
  rewrite <- (take_drop b l) in Hnd.
  apply NoDup_app in Hnd as (_ & Hdis & _).
  apply (Hdis x); [|done].
  replace a with (a `min` b) in Hx1 by lia.
  rewrite <- take_take in Hx1.
  by apply (subseteq_take a).
Qed.

Lemma py_slice_subseteq_take l a b x : x ∈ py_slice a b l -> x ∈ take b l.
Proof. unfold py_slice. apply subseteq_drop. Qed.

Lemma py_slice_subseteq_drop l a b x : x ∈ py_slice a b l -> x ∈ drop a l.
Proof.
  unfold py_slice. rewrite skipn_firstn_comm. apply subseteq_take.
Qed.

(** The blocks before [k] cover the first [k * m] elements. *)
Lemma blocks_union l m k :
  ⋃ (map (fun i => list_to_set (py_slice (i * m) ((i + 1) * m) l)) (seq 0 k))
    =@{gset nat} list_to_set (take (k * m) l).
Proof.
  induction k as [|k IH].
  - done.
  - rewrite seq_S, map_app, union_list_app_L, IH. simpl.
    replace (m + k * m) with ((k + 1) * m) by lia.
    rewrite <- (take_slice l (k * m) ((k + 1) * m)) by lia.
    rewrite list_to_set_app_L. set_solver.
Qed.

(** A block and the rest of the list. *)
Lemma block_complement l a b :
  NoDup l -> a <= b ->
  list_to_set (py_slice 0 a l ++ drop b l)
    =@{gset nat} list_to_set l ∖ list_to_set (py_slice a b l).
Proof.
  intros Hnd Hab. rewrite py_slice_0.
  rewrite <- (take_slice_drop l a b) at 3 by done.
  rewrite !list_to_set_app_L.
  assert (forall x, x ∈ take a l -> x ∈ py_slice a b l -> False) as H1.
  { intros x Hx1 Hx2. apply py_slice_subseteq_drop in Hx2.
    by eapply (NoDup_take_drop_disjoint l a a). }
  assert (forall x, x ∈ py_slice a b l -> x ∈ drop b l -> False) as H2.
  { intros x Hx1 Hx2. apply py_slice_subseteq_take in Hx1.
    by eapply (NoDup_take_drop_disjoint l b b). }
  apply set_eq. intros x.
  rewrite elem_of_difference, !elem_of_union, !elem_of_list_to_set.
  naive_solver.
Qed.

Lemma blocks_disjoint l m i j :
  NoDup l -> i < j ->
  list_to_set (py_slice (i * m) ((i + 1) * m) l)
    ##@{gset nat} list_to_set (py_slice (j * m) ((j + 1) * m) l).
Proof.
  intros Hnd Hij. apply elem_of_disjoint. intros x.
  rewrite !elem_of_list_to_set. intros Hx1 Hx2.
  apply py_slice_subseteq_take in Hx1. apply py_slice_subseteq_drop in Hx2.
  eapply (NoDup_take_drop_disjoint l ((i + 1) * m) (j * m)); [done| |done..].
  nia.
Qed.
End BlockSets.

(** *** The demonstration random state draws permutations *)

Lemma demo_permutation_spec n g : (Demo.permutation n g).1 ≡ₚ seq 0 n.
Proof.
  unfold Demo.permutation. simpl. destruct (Nat.even g); [done|].
  symmetry. apply Permutation_rev.
Qed.

(** *** The partition *)

Section Partition.
Context {rng : Type}.
Variable permutation : nat -> rng -> list nat * rng.
Hypothesis permutation_spec : forall n g, (permutation n g).1 ≡ₚ seq 0 n.

Lemma permutation_NoDup n g : NoDup (permutation n g).1.
Proof. rewrite permutation_spec. apply NoDup_seq. Qed.

Lemma permutation_length n g : length (permutation n g).1 = n.
Proof. rewrite permutation_spec. apply length_seq. Qed.

Lemma permutation_bound n g x : x ∈ (permutation n g).1 -> x < n.
Proof. rewrite permutation_spec, elem_of_seq. lia. Qed.

Lemma sampled_NoDup n s g : NoDup (take s (permutation n g).1).
Proof.
  eapply sublist_NoDup; [apply permutation_NoDup|apply sublist_take].
Qed.

(** C2. When [subsample % k == 0] holds and [subsample <= n], the call
    returns [k] pairs; their validation sets are pairwise disjoint, the
    union of the validation sets is the set of the first [subsample]
    elements of the drawn permutation, and each train set is the complement
    of its validation set in that set.  Every validation block has
    [subsample // k] elements. *)
Theorem k_folds_indices_partition n k subsample g :
  default n subsample <= n ->
  py_mod (default n subsample) k = Return 0 ->
  let sampled : list nat := take (default n subsample) (permutation n g).1 in
  exists splits,
    k_folds_indices permutation n k subsample g
      = Return (splits, (permutation n g).2)
    /\ length splits = k
    /\ (forall i j fi fj,
          splits !! i = Some fi -> splits !! j = Some fj -> i <> j ->
          list_to_set fi.2 ##@{gset nat} list_to_set fj.2)
    /\ ⋃ (validation_sets splits) = list_to_set sampled
    /\ (forall i f,
          splits !! i = Some f ->
          list_to_set f.1 =@{gset nat} list_to_set sampled ∖ list_to_set f.2)
    /\ (forall i f,
          splits !! i = Some f -> length f.2 = default n subsample / k).
Proof.
  intros Hle Hmod sampled.
  rewrite (k_folds_indices_returns _ _ _ _ _ Hmod). fold sampled.
  set (s := default n subsample) in *. set (m := s / k).
  destruct k as [|k']; [done|]. set (k := S k') in *.
  injection Hmod as Hmod. clearbody k.
  assert (k * m = s) as Hkm.
  { subst m. symmetry. apply Nat.Div0.div_exact. done. }
  assert (length sampled = s) as Hlen.
  { subst sampled. rewrite length_take, permutation_length. lia. }
  assert (NoDup sampled) as Hnd by apply sampled_NoDup.
  assert (forall i f, map (fold_pair sampled m) (seq 0 k) !! i = Some f ->
                      i < k /\ f = fold_pair sampled m i) as Hlook.
  { intros i f Hi. rewrite list_lookup_fmap in Hi.
    destruct (seq 0 k !! i) as [i'|] eqn:E; [|done].
    apply lookup_seq in E as [-> ?]. simpl in Hi. by injection Hi as <-. }
  eexists. split; [done|]. split; [by rewrite length_map, length_seq|].
  split; [|split; [|split]].
  - intros i j fi fj Hi Hj Hij.
    apply Hlook in Hi as [Hi ->]. apply Hlook in Hj as [Hj ->]. simpl.
    destruct (decide (i < j)).
    + by apply blocks_disjoint.
    + symmetry. apply blocks_disjoint; [done|lia].
  - unfold validation_sets. rewrite map_map.
    etrans; [apply (blocks_union sampled m k)|].
    rewrite Hkm. f_equal. apply take_ge. lia.
  - intros i f Hi. apply Hlook in Hi as [Hi ->]. simpl.
    apply block_complement; [done|lia].
  - intros i f Hi. apply Hlook in Hi as [Hi ->]. simpl.
    rewrite length_py_slice; [lia|lia|]. rewrite Hlen. nia.
Qed.
End Partition.

(** Witness of C2: ten indices in five folds. *)
Lemma k_folds_indices_partition_witness :
  exists splits,
    k_folds_indices Demo.permutation 10 5 None 1 = Return (splits, 2)
    /\ length splits = 5
    /\ (forall i j fi fj,
          splits !! i = Some fi -> splits !! j = Some fj -> i <> j ->
          list_to_set fi.2 ##@{gset nat} list_to_set fj.2)
    /\ ⋃ (validation_sets splits)
         = list_to_set (take 10 (Demo.permutation 10 1).1)
    /\ (forall i f,
          splits !! i = Some f ->
          list_to_set f.1 =@{gset nat}
            list_to_set (take 10 (Demo.permutation 10 1).1) ∖ list_to_set f.2)
    /\ (forall i f, splits !! i = Some f -> length f.2 = 10 / 5).
Proof.
  apply (k_folds_indices_partition Demo.permutation demo_permutation_spec
           10 5 None 1); [simpl; lia|reflexivity].
Defined.

(** C3. When [subsample % k] evaluates to a non-zero number, the call raises
    [AssertionError], whatever the random state and the permutation drawn
    from it would have been: no fold pair is built. *)
Theorem k_folds_indices_assertion {rng} (permutation : nat -> rng -> list nat * rng)
    n k subsample r g :
  py_mod (default n subsample) k = Return r -> r <> 0 ->
  k_folds_indices permutation n k subsample g = Raise AssertionError.
Proof. apply k_folds_indices_raises. Qed.

(** Witness of C3: ten indices cannot be cut in three folds. *)
Lemma k_folds_indices_assertion_witness :
  k_folds_indices Demo.permutation 10 3 (Some 10) 0 = Raise AssertionError.
Proof.
  apply (k_folds_indices_assertion Demo.permutation 10 3 (Some 10) 1 0);
    [reflexivity|lia].
Defined.

(** ** numpy arithmetic *)

(** Unfolds the exact arithmetic down to the real numbers. *)
Ltac exact_arith :=
  cbv [of_count fadd fsub fmul fsqr fsqrt fdiv_nat flt fless fle fisnan
       np_sum exact_float exact_add exact_sub exact_mul exact_sqrt
       exact_div_nat exact_less exact_le exact_isnan].
Tactic Notation "exact_arith" "in" hyp(H) :=
  cbv [of_count fadd fsub fmul fsqr fsqrt fdiv_nat flt fless fle fisnan
       np_sum exact_float exact_add exact_sub exact_mul exact_sqrt
       exact_div_nat exact_less exact_le exact_isnan] in H.

Lemma of_count_0 : of_count 0 = fin 0.
Proof. done. Qed.

Lemma fadd_comm a b : fadd a b = fadd b a.
Proof. destruct a, b; simpl; try done. f_equal. lra. Qed.

Lemma fadd_assoc a b c : fadd a (fadd b c) = fadd (fadd a b) c.
Proof. destruct a, b, c; simpl; try done. f_equal. lra. Qed.

Lemma fadd_0_l a : fadd (fin 0) a = a.
Proof. destruct a; simpl; try done. f_equal. lra. Qed.

(** Accumulating from the left is the sum. *)
Lemma accumulate_np_sum xs acc :
  fold_left fadd xs acc = fadd acc (np_sum xs).
Proof.
  revert acc. induction xs as [|x xs IH]; intros acc; simpl.
  - destruct acc; simpl; try done. f_equal. lra.
  - rewrite IH. by rewrite fadd_assoc.
Qed.

(** The sums and quotients of the code are the ones of the real numbers. *)








(** ** The evaluator computes what the specification words *)

Section EvaluatorRefinement.
Context {rng A clf : Type}.
Variable permutation : nat -> rng -> list nat * rng.
Variable fit : clf -> list (list A) -> list bool -> clf.
Variable predict : clf -> list (list A) -> list bool.
(** The classifier predicts one label per row. *)
Hypothesis predict_length : forall c M, length (predict c M) = length M.







End EvaluatorRefinement.

(** ** Scores in the unit interval *)

Lemma unit_quotient (x y : R) :
  (0 <= x <= y)%R -> (0 < y)%R -> (0 <= x / y <= 1)%R.
Proof.
  intros [H0 H1] Hy.
  assert (0 < / y)%R by (by apply Rinv_0_lt_compat).
  assert (y * / y = 1)%R by (apply Rinv_r; lra).
  unfold Rdiv. split; nra.
Qed.

Lemma count_true_le b : count_true b <= length b.
Proof. unfold count_true. apply length_filter. Qed.

Lemma count_quotient_in_unit c n :
  c <= n -> 0 < n -> in_unit (fdiv_nat (of_count c) n).
Proof.
  intros Hc Hn. destruct n as [|n]; [lia|]. exact_arith; cbn [in_unit].
  apply unit_quotient.
  - split; [apply pos_INR|by apply le_INR].
  - apply lt_0_INR. lia.
Qed.

Lemma mean_bool_in_unit b : 0 < length b -> in_unit (mean_bool b).
Proof. intros H. apply count_quotient_in_unit; [apply count_true_le|done]. Qed.

(** The sum of numbers of the unit interval. *)
Lemma np_sum_unit xs :
  Forall in_unit xs ->
  exists s, np_sum xs = fin s /\ (0 <= s <= INR (length xs))%R.
Proof.
  induction 1 as [|x xs Hx _ (s & Hs & Hb)].
  - exists 0%R. simpl. split; [done|lra].
  - destruct x as [|x]; [done|]. exists (x + s)%R.
    change (np_sum (fin x :: xs)) with (fadd (fin x) (np_sum xs)).
    rewrite Hs. split; [done|].
    cbn [in_unit] in Hx. rewrite length_cons, S_INR. lra.
Qed.

Lemma np_mean_in_unit xs :
  0 < length xs -> Forall in_unit xs -> in_unit (np_mean xs).
Proof.
  intros Hlen Hxs. destruct (np_sum_unit xs Hxs) as (s & Hs & Hb).
  unfold np_mean. rewrite Hs.
  destruct (length xs) as [|n] eqn:E; [lia|]. exact_arith; cbn [in_unit].
  apply unit_quotient; [done|]. apply lt_0_INR. lia.
Qed.

Lemma squared_deviation_in_unit x mu :
  in_unit x -> in_unit mu -> in_unit (fsqr (fsub x mu)).
Proof.
  destruct x as [|x], mu as [|mu]; try done. exact_arith. cbn [in_unit]. intros [? ?] [? ?].
  set (d := (x - mu)%R). assert (-1 <= d <= 1)%R as [? ?] by (subst d; lra).
  split; [nra|]. assert (0 <= (1 - d) * (1 + d))%R by (apply Rmult_le_pos; lra).
  lra.
Qed.

Lemma np_std_in_unit xs :
  0 < length xs -> Forall in_unit xs -> in_unit (np_std 0 xs).
Proof.
  intros Hlen Hxs. unfold np_std, np_var. rewrite Nat.sub_0_r.
  pose proof (np_mean_in_unit xs Hlen Hxs) as Hmu.
  set (devs := map _ xs).
  replace (length xs) with (length devs) by (subst devs; apply length_map).
  change (fdiv_nat (np_sum devs) (length devs)) with (np_mean devs).
  assert (in_unit (np_mean devs)) as Hv.
  { apply np_mean_in_unit.
    - subst devs. by rewrite length_map.
    - subst devs. apply Forall_map. eapply Forall_impl; [done|].
      intros x Hx. by apply squared_deviation_in_unit. }
  destruct (np_mean devs) as [|v]; [done|]. cbn in *. split.
  - apply sqrt_pos.
  - rewrite <- sqrt_1. apply sqrt_le_1_alt. lra.
Qed.

Lemma in_unit_non_negative a : in_unit a -> non_negative a.
Proof. destruct a; [done|]. cbn. lra. Qed.

(** ** Indexing inside the bounds *)

Lemma mapM_returns {A B} (f : A -> outcome B) (l : list A) :
  Forall (fun x => exists y, f x = Return y) l ->
  exists ys, mapM f l = Return ys /\ length ys = length l.
Proof.
  induction 1 as [|x l [y Hy] _ (ys & Hys & Hlen)].
  - by exists [].
  - exists (y :: ys). cbn [mapM]. rewrite Hy. cbn [mbind outcome_bind].
    rewrite Hys. simpl. by rewrite Hlen.
Qed.

Lemma py_index_returns {A} (l : list A) i :
  i < length l -> exists x, py_index l i = Return x.
Proof.
  intros Hi. unfold py_index.
  destruct (lookup_lt_is_Some_2 l i Hi) as [x ->]. by exists x.
Qed.

Lemma fancy_index_returns {A} (Y : list A) inds :
  Forall (fun i => i < length Y) inds ->
  exists ys, fancy_index Y inds = Return ys /\ length ys = length inds.
Proof.
  intros H. apply mapM_returns. eapply Forall_impl; [done|].
  intros i Hi. by apply py_index_returns.
Qed.

Lemma ix_returns {A} (K : list (list A)) rows cols :
  square K ->
  Forall (fun i => i < length K) rows ->
  Forall (fun i => i < length K) cols ->
  exists M, ix_ K rows cols = Return M /\ length M = length rows.
Proof.
  intros Hsq Hrows Hcols. apply mapM_returns.
  eapply Forall_impl; [done|]. intros r Hr. simpl in Hr.
  unfold py_index. destruct (lookup_lt_is_Some_2 K r Hr) as [row Hrow].
  rewrite Hrow. cbn [mbind outcome_bind].
  destruct (fancy_index_returns row cols) as (ys & -> & _); [|by exists ys].
  eapply Forall_impl; [done|]. intros c Hc. simpl in Hc.
  unfold square in Hsq. rewrite Forall_forall in Hsq.
  assert (row ∈ K) as Hin by (by eapply list_elem_of_lookup_2).
  specialize (Hsq row Hin). simpl in Hsq. lia.
Qed.

Lemma np_equal_returns a b :
  length a = length b ->
  exists h, np_equal a b = Return h /\ length h = length a.
Proof.
  intros H. unfold np_equal. rewrite H, Nat.eqb_refl.
  eexists. split; [done|]. rewrite length_zip_with. lia.
Qed.

(** ** One call of the evaluator on a valid input *)

Section EvaluatorBounds.
Context {rng A clf : Type}.
Variable permutation : nat -> rng -> list nat * rng.
Variable fit : clf -> list (list A) -> list bool -> clf.
Variable predict : clf -> list (list A) -> list bool.
Hypothesis permutation_spec : forall n g, (permutation n g).1 ≡ₚ seq 0 n.
(** The classifier predicts one label per row. *)
Hypothesis predict_length : forall c M, length (predict c M) = length M.

Variable K : list (list A).
Variable Y : list bool.
Hypothesis K_square : square K.
Hypothesis Y_length : length Y = length K.

Lemma fold_body_bounds m c vs t fold :
  fold_ok K m fold ->
  exists c' vs' t',
    fold_body fit predict K Y (c, vs, fin t) fold = Return (c', vs', fin t')
    /\ vs <= vs' <= vs + m
    /\ (t <= t' <= t + 1)%R.
Proof.
  destruct fold as [tr va]. intros (Htr & Hva & Hne & Hm). cbn [fst snd] in *.
  unfold fold_body.
  destruct (ix_returns K tr tr K_square Htr Htr) as (Ktt & -> & Hktt).
  cbn [mbind outcome_bind].
  destruct (fancy_index_returns Y tr) as (Yt & -> & Hyt).
  { by rewrite Y_length. }
  cbn [mbind outcome_bind].
  destruct (ix_returns K va tr K_square Hva Htr) as (Kvt & -> & Hkvt).
  cbn [mbind outcome_bind].
  destruct (fancy_index_returns Y va) as (Yv & -> & Hyv).
  { by rewrite Y_length. }
  cbn [mbind outcome_bind].
  destruct (np_equal_returns (predict (fit c Ktt Yt) Kvt) Yv)
    as (hv & -> & Hhv).
  { rewrite predict_length. lia. }
  cbn [mbind outcome_bind].
  destruct (np_equal_returns (predict (fit c Ktt Yt) Ktt) Yt)
    as (ht & -> & Hht).
  { rewrite predict_length. lia. }
  cbn [mbind outcome_bind].
  rewrite predict_length in Hhv, Hht.
  pose proof (count_true_le hv). 
  assert (in_unit (mean_bool ht)) as Hacc by (apply mean_bool_in_unit; lia).
  destruct (mean_bool ht) as [|acc]; [done|]. cbn [in_unit] in Hacc.
  eexists _, _, _. exact_arith. split; [done|]. split; [lia|lra].
Qed.

Lemma folds_loop_bounds m splits c vs t :
  Forall (fold_ok K m) splits ->
  exists c' vs' t',
    for_each_pure splits (fold_body fit predict K Y) (c, vs, fin t)
      = Return (c', vs', fin t')
    /\ vs' <= vs + m * length splits
    /\ (t <= t' <= t + INR (length splits))%R.
Proof.
  intros Hsplits. revert c vs t.
  induction Hsplits as [|fold splits Hfold _ IH]; intros c vs t.
  - exists c, vs, t. simpl. split; [done|]. split; [lia|lra].
  - destruct (fold_body_bounds m c vs t fold Hfold)
      as (c1 & vs1 & t1 & Hbody & Hvs1 & Ht1).
    destruct (IH c1 vs1 t1) as (c2 & vs2 & t2 & Hloop & Hvs2 & Ht2).
    exists c2, vs2, t2. cbn [for_each_pure]. rewrite Hbody.
    cbn [mbind outcome_bind]. rewrite Hloop. split; [done|].
    rewrite length_cons, S_INR. split; [nia|lra].
Qed.

(** The folds drawn for [N = len(K)] rows in at least two folds. *)
Lemma drawn_folds_ok folds g :
  2 <= folds -> 0 < length K -> length K `mod` folds = 0 ->
  exists splits,
    k_folds_indices permutation (length K) folds None g
      = Return (splits, (permutation (length K) g).2)
    /\ length splits = folds
    /\ Forall (fold_ok K (length K / folds)) splits.
Proof.
  intros Hfolds HN Hmod. set (N := length K) in *. set (m := N / folds).
  assert (py_mod N folds = Return 0) as Hpy.
  { destruct folds; [lia|]. simpl. by rewrite Hmod. }
  rewrite (k_folds_indices_returns permutation N folds None g Hpy).
  cbn [default]. set (sampled := take N (permutation N g).1).
  assert (folds * m = N) as Hkm.
  { subst m. symmetry. by apply Nat.Div0.div_exact. }
  assert (length sampled = N) as Hlen.
  { subst sampled. rewrite length_take, permutation_length by done. lia. }
  assert (forall x, x ∈ sampled -> x < N) as Hbound.
  { intros x Hx. apply (permutation_bound permutation permutation_spec N g).
    by apply (subseteq_take N). }
  eexists. split; [done|]. split; [by rewrite length_map, length_seq|].
  apply Forall_map, Forall_forall. intros i Hi.
  apply elem_of_seq in Hi. unfold fold_ok, fold_pair. cbn [fst snd].
  assert (i * m <= (i + 1) * m) by lia.
  assert ((i + 1) * m <= N) by nia.
  assert (0 < m) by nia. assert (m < N) by nia.
  repeat split.
  - apply Forall_forall. intros x Hx. apply Hbound.
    apply elem_of_app in Hx as [Hx|Hx].
    + by apply py_slice_subseteq_take, (subseteq_take ((i * m))) in Hx.
    + by apply (subseteq_drop ((i + 1) * m)) in Hx.
  - apply Forall_forall. intros x Hx. apply Hbound.
    by apply py_slice_subseteq_take, (subseteq_take ((i + 1) * m)) in Hx.
  - rewrite length_app, length_py_slice, length_drop by lia. nia.
  - rewrite length_py_slice by lia. nia.
Qed.

Lemma fdiv_in_unit t n :
  (0 <= t <= INR n)%R -> 0 < n -> in_unit (fdiv_nat (fin t) n).
Proof.
  intros Ht Hn. destruct n as [|n]; [lia|]. exact_arith; cbn [in_unit].
  apply unit_quotient; [done|]. apply lt_0_INR. lia.
Qed.

Section Repeats.
Variable folds : nat.
Hypothesis folds_two : 2 <= folds.
Hypothesis K_rows : 0 < length K.
Hypothesis folds_divide : length K `mod` folds = 0.

Lemma repeat_body_bounds c vss tss i g :
  exists c' v t,
    repeat_body permutation fit predict K Y (length K) folds
                (c, vss, tss) i g
      = Return ((c', vss ++ [v], tss ++ [t]), (permutation (length K) g).2)
    /\ in_unit v /\ in_unit t.
Proof.
  destruct (drawn_folds_ok folds g folds_two K_rows folds_divide)
    as (splits & Hdraw & Hlen & Hok).
  destruct (folds_loop_bounds _ splits c 0 0%R Hok)
    as (c' & vs' & t' & Hloop & Hvs & Ht).
  exists c', (fdiv_nat (of_count vs') (length K)), (fdiv_nat (fin t') folds).
  split; [|split].
  - unfold repeat_body, rbind. rewrite Hdraw. unfold lift.
    by rewrite of_count_0, Hloop.
  - apply count_quotient_in_unit; [|done].
    rewrite Hlen in Hvs.
    assert (folds * (length K / folds) = length K) as Hkm.
    { symmetry. by apply Nat.Div0.div_exact. }
    lia.
  - apply fdiv_in_unit; [|lia]. rewrite Hlen in Ht. lra.
Qed.

Lemma repeats_loop_bounds a repeats c vss tss g :
  Forall in_unit vss -> Forall in_unit tss ->
  exists c' vss' tss' g',
    for_each (seq a repeats)
             (repeat_body permutation fit predict K Y (length K) folds)
             (c, vss, tss) g
      = Return ((c', vss', tss'), g')
    /\ Forall in_unit vss' /\ Forall in_unit tss'
    /\ length vss' = length vss + repeats
    /\ length tss' = length tss + repeats.
Proof.
  revert a c vss tss g.
  induction repeats as [|repeats IH]; intros a c vss tss g Hvss Htss.
  - exists c, vss, tss, g. cbn. repeat split; try done; lia.
  - destruct (repeat_body_bounds c vss tss a g)
      as (c1 & v & t & Hbody & Hv & Ht).
    destruct (IH (S a) c1 (vss ++ [v]) (tss ++ [t])
                 (permutation (length K) g).2)
      as (c2 & vss2 & tss2 & g2 & Hloop & Hvss2 & Htss2 & Hl1 & Hl2).
    { apply Forall_app. by split; [|apply Forall_singleton]. }
    { apply Forall_app. by split; [|apply Forall_singleton]. }
    exists c2, vss2, tss2, g2. cbn [seq for_each]. unfold rbind at 1.
    rewrite Hbody, Hloop. rewrite length_app in Hl1, Hl2. simpl in Hl1, Hl2.
    repeat split; try done; lia.
Qed.

(** C5, amended. On a valid input with at least two folds and at least
    one row, [evaluate] returns, its four components are numbers of
    [0,1], and both standard deviations are non-negative. *)
Theorem evaluate_unit_interval classifier repeats g :
  1 <= repeats ->
  exists r g',
    evaluate permutation fit predict classifier K Y folds repeats g
      = Return (r, g')
    /\ in_unit (valid_scores_mean r) /\ in_unit (valid_scores_std r)
    /\ in_unit (train_scores_mean r) /\ in_unit (train_scores_std r)
    /\ non_negative (valid_scores_std r)
    /\ non_negative (train_scores_std r).
Proof.
  intros Hrep.
  destruct (repeats_loop_bounds 0 repeats classifier [] [] g)
    as (c' & vss & tss & g' & Hloop & Hvss & Htss & Hl1 & Hl2);
    [done..|].
  simpl in Hl1, Hl2.
  eexists _, g'. unfold evaluate, rbind. rewrite Hloop. unfold rret.
  split; [done|]. cbn [valid_scores_mean valid_scores_std
                       train_scores_mean train_scores_std].
  assert (in_unit (np_std 0 vss)) by (apply np_std_in_unit; [lia|done]).
  assert (in_unit (np_std 0 tss)) by (apply np_std_in_unit; [lia|done]).
  repeat split; try done.
  - apply np_mean_in_unit; [lia|done].
  - apply np_mean_in_unit; [lia|done].
  - by apply in_unit_non_negative.
  - by apply in_unit_non_negative.
Qed.
End Repeats.
End EvaluatorBounds.

(** ** Concrete runs *)

(** Unfolds a closed run down to its real-number arithmetic. *)
Ltac np_run :=
  cbv -[Rplus Rminus Rmult Rdiv Rinv Ropp INR IZR sqrt Rlt_dec].

(** Decides the comparisons of closed real-number expressions. *)
Ltac decide_reals :=
  repeat match goal with
         | |- context [bool_decide ?P] =>
             first [ rewrite (bool_decide_eq_true_2 P) by (cbn [INR]; lra)
                   | rewrite (bool_decide_eq_false_2 P) by (cbn [INR]; lra) ]
         end.

(** Runs the selection of the grid search on closed exact scores. *)
Ltac np_select :=
  unfold selected_index, selection_scores, np_argmax;
  cbn [app map valid_scores_mean valid_scores_std train_scores_mean];
  exact_arith; decide_reals;
  cbn [mask_index map valid_scores_mean valid_scores_std argmax_scan];
  unfold beats; exact_arith; decide_reals; cbn [negb].

(** Closes an equation between closed real-number expressions. *)
Ltac np_real :=
  rewrite ?INR_IZR_INZ;
  repeat match goal with
         | |- context [Z.of_nat ?n] =>
             let z := eval vm_compute in (Z.of_nat n) in
             change (Z.of_nat n) with z
         end;
  first [lra | etrans; [|exact sqrt_0]; f_equal; lra].

Lemma demo_evaluate_5 (c : bool) g :
  g < 4 ->
  evaluate Demo.permutation Demo.fit Demo.predict c (Demo.zeros 20)
           (replicate 20 true) 5 1 g =
  Return (Evaluation (fin (if c then 1 else 0)) (fin 0)
                     (fin (if c then 1 else 0)) (fin 0), S g).
Proof.
  intros Hg.
  do 4 (destruct g as [|g]; [destruct c; np_run; repeat f_equal; np_real|]).
  lia.
Qed.

Lemma demo_evaluate_20 (c : bool) g :
  g < 4 ->
  evaluate Demo.permutation Demo.fit Demo.predict c (Demo.zeros 20)
           (replicate 20 true) 20 1 g =
  Return (Evaluation (fin (if c then 1 else 0)) (fin 0)
                     (fin (if c then 1 else 0)) (fin 0), S g).
Proof.
  intros Hg.
  do 4 (destruct g as [|g]; [destruct c; np_run; repeat f_equal; np_real|]).
  lia.
Qed.

(** ** The scan of [argmax] *)

Section ArgmaxScan.
Context {F : Type} {float : Float F} {order : FloatOrder F}.

Lemma fle_number_l (x y : F) : fle x y = true -> fisnan x = false.
Proof.
  intros Hle. destruct (fisnan x) eqn:E; [|done].
  by rewrite (fle_nan_l x y E) in Hle.
Qed.

Lemma fle_refl (x : F) : fisnan x = false -> fle x x = true.
Proof. intros Hx. by destruct (fle_total x x Hx Hx). Qed.

Lemma argmax_scan_first_maximum xs pre best_i best :
  pre !! best_i = Some best ->
  (forall j s', pre !! j = Some s' -> fisnan best = true \/ fle s' best = true) ->
  (forall j s', j < best_i -> pre !! j = Some s' ->
                fisnan s' = false /\ (fisnan best = true \/ fle best s' = false)) ->
  first_maximum (pre ++ xs) (argmax_scan best_i best (length pre) xs).
Proof.
  revert pre best_i best.
  induction xs as [|x xs IH]; intros pre best_i best Hbest Hmax Hfirst.
  - rewrite app_nil_r. by exists best.
  - cbn [argmax_scan]. rewrite (cons_middle x pre xs), app_assoc.
    replace (S (length pre)) with (length (pre ++ [x]))
      by (rewrite length_app; simpl; lia).
    destruct (beats x best) eqn:Hx; unfold beats in Hx;
      destruct (fisnan best) eqn:Hnb; try done.
    + apply negb_true_iff in Hx.
      assert (fisnan x = false -> fle best x = true) as Hbx.
      { intros Hnx. by destruct (fle_total best x Hnb Hnx) as [?|?];
          [|congruence]. }
      replace (length pre) with (length pre + 0) at 1 by lia.
      apply IH.
      * rewrite lookup_app_r, Nat.add_0_r, Nat.sub_diag by lia. done.
      * intros j s' Hj. destruct (fisnan x) eqn:Hnx; [by left|right].
        apply lookup_snoc_Some in Hj as [[_ Hj]|[_ <-]].
        -- destruct (Hmax j s' Hj) as [?|Hle]; [congruence|].
           eapply fle_trans; [exact Hle|]. by apply Hbx.
        -- by apply fle_refl.
      * intros j s' Hlt Hj. rewrite Nat.add_0_r in Hlt.
        rewrite lookup_app_l in Hj by done.
        destruct (Hmax j s' Hj) as [?|Hle]; [congruence|].
        split; [by eapply fle_number_l|].
        destruct (fisnan x) eqn:Hnx; [by left|right].
        destruct (fle x s') eqn:Hxs; [|done].
        by rewrite (fle_trans x s' best Hxs Hle) in Hx.
    + apply IH.
      * apply lookup_app_l_Some. done.
      * intros j s' Hj. by left.
      * intros j s' Hlt Hj. rewrite Hnb. apply (Hfirst j); [done|].
        rewrite lookup_app_l in Hj; [done|].
        apply lookup_lt_Some in Hbest. lia.
    + apply negb_false_iff in Hx. apply IH.
      * apply lookup_app_l_Some. done.
      * intros j s' Hj. rewrite Hnb.
        apply lookup_snoc_Some in Hj as [[_ Hj]|[_ <-]].
        -- by eapply Hmax.
        -- by right.
      * intros j s' Hlt Hj. rewrite Hnb. apply (Hfirst j); [done|].
        rewrite lookup_app_l in Hj; [done|].
        apply lookup_lt_Some in Hbest. lia.
Qed.

Lemma np_argmax_first_maximum (l : list F) i :
  np_argmax l = Return i -> first_maximum l i.
Proof.
  destruct l as [|x l]; [done|]. intros [= <-].
  apply (argmax_scan_first_maximum l [x] 0 x).
  - done.
  - intros [|j] s'; [|done]. intros [= <-].
    destruct (fisnan x) eqn:E; [by left|right]. by apply fle_refl.
  - intros j s' Hj. lia.
Qed.
End ArgmaxScan.

(** The exact floats are ordered as the real numbers are. *)
#[export] Instance exact_order : FloatOrder npfloat.
Proof.
  split.
  - by intros [|x] [|y].
  - by intros [|x] [|y].
  - intros [|x] [|y] Hx Hy; try done. exact_arith.
    destruct (Rle_dec x y); [left|right]; apply bool_decide_eq_true_2; lra.
  - intros [|x] [|y] [|z]; exact_arith; try done.
    rewrite !bool_decide_eq_true. lra.
Qed.

(** ** Grid search *)

Section GridSearchFacts.
Context {rng A clf P F : Type} {float : Float F}.
Variable permutation : nat -> rng -> list nat * rng.
Variable fit : clf -> list (list A) -> list bool -> clf.
Variable predict : clf -> list (list A) -> list bool.
Variable model : P -> clf.

Abbreviation evaluate' := (evaluate permutation fit predict).
Abbreviation grid_results' := (grid_results permutation fit predict model).
Abbreviation grid_search' := (grid_search permutation fit predict model).

(** The results of the loop are the evaluations of the configurations, in
    the order of [params]. *)
Lemma grid_loop_results params K Y folds repeats acc g results g1 :
  for_each params
    (fun results p =>
       r <~ evaluate' (model p) K Y folds repeats; rret (results ++ [r]))
    acc g = Return (results, g1) ->
  exists rs,
    results = acc ++ rs
    /\ Forall2 (fun p r => evaluated permutation fit predict K Y folds repeats
                                    (model p) r) params rs.
Proof.
  revert acc g. induction params as [|p params IH]; intros acc g.
  - intros [= <- <-]. exists []. by rewrite app_nil_r.
  - cbn [for_each]. intros H.
    apply rbind_inv in H as (acc' & g0 & Hbody & Hrest).
    apply rbind_inv in Hbody as (r & g0' & Heval & Hret).
    injection Hret as <- <-.
    apply IH in Hrest as (rs & -> & Hrs).
    exists (r :: rs). rewrite <- app_assoc. split; [done|].
    constructor; [|done]. by exists g, g0'.
Qed.

Lemma grid_results_evaluated params K Y folds repeats g results g1 :
  grid_results' params K Y folds repeats g = Return (results, g1) ->
  Forall2 (fun p r => evaluated permutation fit predict K Y folds repeats
                                (model p) r) params results.
Proof.
  intros H. apply grid_loop_results in H as (rs & -> & Hrs). done.
Qed.

(** What a returning call went through. *)
Lemma grid_search_inv params K Y folds repeats no_perfect g p final g' :
  grid_search' params K Y folds repeats no_perfect g = Return ((p, final), g') ->
  exists results g1 i,
    grid_results' params K Y folds repeats g = Return (results, g1)
    /\ selected_index no_perfect results = Return i
    /\ params !! i = Some p
    /\ evaluate' (model p) K Y 20 repeats g1 = Return (final, g').
Proof.
  unfold grid_search. intros H.
  apply rbind_inv in H as (results & g1 & Hres & H).
  apply rbind_inv in H as (i & g2 & Hi & H).
  apply lift_inv in Hi as [Hi ->].
  apply rbind_inv in H as (p' & g3 & Hp & H).
  apply lift_inv in Hp as [Hp ->].
  apply rbind_inv in H as (final' & g4 & Hfinal & H).
  injection H as <- <- <-.
  exists results, g1, i. repeat split; try done.
  unfold py_index in Hp. destruct (params !! i); by simplify_eq.
Qed.

(** A call whose selection phase picked [p]. *)
Lemma grid_search_selected params K Y folds repeats no_perfect g results g1 i p :
  grid_results' params K Y folds repeats g = Return (results, g1) ->
  selected_index no_perfect results = Return i ->
  params !! i = Some p ->
  grid_search' params K Y folds repeats no_perfect g =
    (final <~ evaluate' (model p) K Y 20 repeats; rret (p, final)) g1.
Proof.
  intros Hres Hi Hp. unfold grid_search.
  rewrite (rbind_return _ _ _ _ _ Hres).
  unfold rbind at 1. rewrite Hi. cbn [lift].
  unfold rbind at 1. unfold py_index. rewrite Hp. done.
Qed.
End GridSearchFacts.

(** ** The fold count must divide the number of rows *)

Section EvaluatorAssertion.
Context {rng A clf F : Type} {float : Float F}.
Variable permutation : nat -> rng -> list nat * rng.
Variable fit : clf -> list (list A) -> list bool -> clf.
Variable predict : clf -> list (list A) -> list bool.

Lemma evaluate_raises classifier K Y folds repeats g r :
  1 <= repeats ->
  py_mod (length K) folds = Return r -> r <> 0 ->
  evaluate permutation fit predict classifier K Y folds repeats g
    = Raise AssertionError.
Proof.
  intros Hrep Hmod Hr. destruct repeats as [|repeats]; [lia|].
  unfold evaluate. apply rbind_raise. cbn [seq for_each]. apply rbind_raise.
  unfold repeat_body. apply rbind_raise.
  by eapply k_folds_indices_raises.
Qed.

Lemma evaluate_returns_divides classifier K Y folds repeats g x :
  1 <= repeats ->
  evaluate permutation fit predict classifier K Y folds repeats g = Return x ->
  py_mod (length K) folds = Return 0.
Proof.
  intros Hrep H. destruct repeats as [|repeats]; [lia|]. destruct x as [r g'].
  unfold evaluate in H. apply rbind_inv in H as (acc & g1 & H & _).
  cbn [seq for_each] in H. apply rbind_inv in H as (acc1 & g2 & H & _).
  unfold repeat_body in H. apply rbind_inv in H as (splits & g3 & H & _).
  by apply k_folds_indices_inv in H.
Qed.

(** Without a repeat nothing is drawn and every score is [nan]. *)
Lemma evaluate_no_repeat classifier K Y folds g :
  evaluate permutation fit predict classifier K Y folds 0 g
    = Return (Evaluation nan nan nan nan, g).
Proof. done. Qed.
End EvaluatorAssertion.

Lemma py_mod_zero a b : py_mod a b = Return 0 <-> b <> 0 /\ a `mod` b = 0.
Proof.
  destruct b as [|b]; simpl; [naive_solver|].
  split; [intros [= ->]; done|]. intros [_ ->]. done.
Qed.

Lemma py_mod_nonzero a b :
  b <> 0 -> a `mod` b <> 0 -> exists r, py_mod a b = Return r /\ r <> 0.
Proof. destruct b as [|b]; [done|]. intros _ H. by eexists. Qed.

Section GridSearchClaims.
Context {rng A clf P F : Type} {float : Float F} {order : FloatOrder F}.
Variable permutation : nat -> rng -> list nat * rng.
Variable fit : clf -> list (list A) -> list bool -> clf.
Variable predict : clf -> list (list A) -> list bool.
Variable model : P -> clf.

Abbreviation evaluate' := (evaluate permutation fit predict).
Abbreviation grid_results' := (grid_results permutation fit predict model).
Abbreviation grid_search' := (grid_search permutation fit predict model).

(** C6. With [no_perfect=False], the configuration returned stands in
    [params] at the first index that holds a maximum of the selection
    scores [valid_mean - valid_std] of the evaluated configurations: no
    score is above the selected one, and every score before it is strictly
    below it, so that of several configurations with the maximal score the
    earliest is returned. The scores are compared as the floats they are:
    the statement holds for every float arithmetic that orders its numbers
    as IEEE 754 does, whatever it rounds, a score that is [nan] counting
    as the maximum. *)
Theorem grid_search_stable_argmax params K Y folds repeats g p final g' :
  grid_search' params K Y folds repeats false g = Return ((p, final), g') ->
  exists results i,
    Forall2 (fun p r => evaluated permutation fit predict K Y folds repeats
                                  (model p) r) params results
    /\ params !! i = Some p
    /\ first_maximum
         (map (fun r => fsub (valid_scores_mean r) (valid_scores_std r))
              results) i.
Proof.
  intros H. apply grid_search_inv in H as (results & g1 & i & Hres & Hi & Hp & _).
  exists results, i. split; [by eapply grid_results_evaluated|]. split; [done|].
  apply np_argmax_first_maximum. unfold selected_index in Hi.
  by destruct results.
Qed.

(** C7. Once the selection phase has picked [p], leaving the random state
    [g1], the call is the evaluation of a new classifier [model p] with
    exactly 20 folds and the [repeats] of the call, drawn from [g1]; its
    result is the second component and [p] the first.  Every returning call
    is of this form, whatever [folds] was. *)
Theorem grid_search_final_evaluation params K Y folds repeats no_perfect g :
  (forall results g1 i p,
     grid_results' params K Y folds repeats g = Return (results, g1) ->
     selected_index no_perfect results = Return i ->
     params !! i = Some p ->
     grid_search' params K Y folds repeats no_perfect g =
       (final <~ evaluate' (model p) K Y 20 repeats; rret (p, final)) g1)
  /\ (forall p final g',
        grid_search' params K Y folds repeats no_perfect g
          = Return ((p, final), g') ->
        exists results g1 i,
          grid_results' params K Y folds repeats g = Return (results, g1)
          /\ selected_index no_perfect results = Return i
          /\ params !! i = Some p
          /\ evaluate' (model p) K Y 20 repeats g1 = Return (final, g')).
Proof.
  split.
  - intros results g1 i p. apply grid_search_selected.
  - intros p final g'. apply grid_search_inv.
Qed.

(** C10, amended. With at least one repeat: a call returns only if the
    selection fold count and 20 both divide [len(K)]; and when [len(K)] is
    not a multiple of 20, a call whose selection phase completes raises the
    [AssertionError] of the fold partitioner in the final evaluation. *)
Theorem grid_search_needs_multiple_of_20 params K Y folds repeats no_perfect g :
  1 <= repeats ->
  (forall x,
     grid_search' params K Y folds repeats no_perfect g = Return x ->
     folds <> 0 /\ length K `mod` folds = 0 /\ length K `mod` 20 = 0)
  /\ (length K `mod` 20 <> 0 ->
      forall results g1 i p,
        grid_results' params K Y folds repeats g = Return (results, g1) ->
        selected_index no_perfect results = Return i ->
        params !! i = Some p ->
        grid_search' params K Y folds repeats no_perfect g
          = Raise AssertionError).
Proof.
  intros Hrep. split.
  - intros [[p final] g'] H.
    apply grid_search_inv in H as (results & g1 & i & Hres & Hi & Hp & Hfinal).
    apply evaluate_returns_divides in Hfinal; [|done].
    apply py_mod_zero in Hfinal as [_ H20].
    apply grid_results_evaluated in Hres.
    destruct Hres as [|p0 r0 params' results' (g0 & g0' & Heval) _]; [done|].
    apply evaluate_returns_divides in Heval; [|done].
    apply py_mod_zero in Heval as [? ?]. done.
  - intros H20 results g1 i p Hres Hi Hp.
    rewrite (grid_search_selected _ _ _ _ _ _ _ _ _ _ _ _ _ _ _ Hres Hi Hp).
    apply rbind_raise.
    destruct (py_mod_nonzero (length K) 20) as (r & Hr & Hne); [done..|].
    by eapply evaluate_raises.
Qed.
End GridSearchClaims.

(** ** Runs of the grid search on the demonstration data *)

Lemma demo_results_perfect_first :
  demo_grid_results [2; 1] (Demo.zeros 20) (replicate 20 true) 5 1 0
    = Return ([all_right; all_wrong], 2).
Proof.
  unfold grid_results. cbn [for_each]. unfold rbind.
  change (Demo.model 2) with true. rewrite (demo_evaluate_5 true 0) by lia.
  unfold rret. cbn [app].
  change (Demo.model 1) with false. by rewrite (demo_evaluate_5 false 1) by lia.
Qed.

Lemma demo_selected_perfect_first :
  selected_index true [all_right; all_wrong] = Return 0.
Proof.
  np_select. done.
Qed.

Lemma demo_search_perfect_first :
  demo_grid_search [2; 1] (Demo.zeros 20) (replicate 20 true) 5 1 true 0
    = Return ((2, all_right), 3).
Proof.
  rewrite (grid_search_selected _ _ _ _ _ _ _ _ _ _ _ _ _ 0 2
             demo_results_perfect_first demo_selected_perfect_first eq_refl).
  unfold rbind. change (Demo.model 2) with true.
  by rewrite (demo_evaluate_20 true 2) by lia.
Qed.

Lemma demo_results_tie :
  demo_grid_results [1; 2; 4] (Demo.zeros 20) (replicate 20 true) 5 1 0
    = Return ([all_wrong; all_right; all_right], 3).
Proof.
  unfold grid_results. cbn [for_each]. unfold rbind.
  change (Demo.model 1) with false. rewrite (demo_evaluate_5 false 0) by lia.
  unfold rret. cbn [app].
  change (Demo.model 2) with true. rewrite (demo_evaluate_5 true 1) by lia.
  cbn [app].
  change (Demo.model 4) with true. by rewrite (demo_evaluate_5 true 2) by lia.
Qed.

Lemma demo_selected_tie :
  selected_index false [all_wrong; all_right; all_right] = Return 1.
Proof.
  np_select. done.
Qed.

Lemma demo_search_tie :
  demo_grid_search [1; 2; 4] (Demo.zeros 20) (replicate 20 true) 5 1 false 0
    = Return ((2, all_right), 4).
Proof.
  rewrite (grid_search_selected _ _ _ _ _ _ _ _ _ _ _ _ _ 1 2
             demo_results_tie demo_selected_tie eq_refl).
  unfold rbind. change (Demo.model 2) with true.
  by rewrite (demo_evaluate_20 true 3) by lia.
Qed.

Lemma demo_predict_length (c : bool) (M : list (list R)) :
  length (Demo.predict c M) = length M.
Proof. apply length_map. Qed.

Lemma demo_zeros_square n : square (Demo.zeros n).
Proof.
  unfold square, Demo.zeros. apply Forall_forall. intros row Hrow.
  apply elem_of_replicate in Hrow as [-> _]. by rewrite !length_replicate.
Qed.


(** C1, on the code. Of the two configurations [2; 1], the first has train
    accuracy exactly 1 and the second a train accuracy below 1; with
    [no_perfect=True] the grid search returns the first: the index found in
    the filtered scores is used on the unfiltered [params]. *)
Theorem grid_search_no_perfect_returns_perfect :
  exists perfect other final g',
    demo_grid_results [2; 1] (Demo.zeros 20) (replicate 20 true) 5 1 0
      = Return ([perfect; other], 2)
    /\ train_scores_mean perfect = fin 1
    /\ flt (train_scores_mean other) 1 = true
    /\ demo_grid_search [2; 1] (Demo.zeros 20) (replicate 20 true) 5 1 true 0
         = Return ((2, final), g').
Proof.
  exists all_right, all_wrong, all_right, 3.
  split; [apply demo_results_perfect_first|]. split; [done|].
  split; [|apply demo_search_perfect_first].
  exact_arith; cbn [train_scores_mean INR]. apply bool_decide_eq_true_2. lra.
Qed.

(** Counterexample to C5 as stated: a 2 x 2 kernel, two labels, one fold (a
    divisor of 2), one repeat. The train block of the single fold is empty,
    so the train accuracy is the mean of an empty array. *)
Lemma evaluate_single_fold_nan :
  square (Demo.zeros 2)
  /\ length [true; true] = length (Demo.zeros 2)
  /\ length (Demo.zeros 2) `mod` 1 = 0
  /\ 1 <= 1
  /\ exists r g',
       demo_evaluate true (Demo.zeros 2) [true; true] 1 1 0 = Return (r, g')
       /\ ~ in_unit (train_scores_mean r)
       /\ ~ in_unit (train_scores_std r).
Proof.
  split; [apply demo_zeros_square|]. do 3 (split; [done|]).
  eexists _, _. split; [np_run; reflexivity|]. cbn. tauto.
Qed.

(** Witness of C5, amended: a 2 x 2 kernel in two folds. *)
Lemma evaluate_unit_interval_witness :
  exists r g',
    demo_evaluate true (Demo.zeros 2) [true; true] 2 1 0 = Return (r, g')
    /\ in_unit (valid_scores_mean r) /\ in_unit (valid_scores_std r)
    /\ in_unit (train_scores_mean r) /\ in_unit (train_scores_std r)
    /\ non_negative (valid_scores_std r)
    /\ non_negative (train_scores_std r).
Proof.
  apply (evaluate_unit_interval Demo.permutation Demo.fit Demo.predict
           demo_permutation_spec demo_predict_length
           (Demo.zeros 2) [true; true] (demo_zeros_square 2) eq_refl 2).
  - lia.
  - simpl. lia.
  - reflexivity.
  - lia.
Defined.

(** Witness of C6: with the exact floats, configurations 2 and 4 tie for
    the best score; the earlier one is returned. *)
Lemma grid_search_stable_argmax_witness :
  exists results i,
    Forall2 (fun p r => evaluated Demo.permutation Demo.fit Demo.predict
                                  (Demo.zeros 20) (replicate 20 true) 5 1
                                  (Demo.model p) r) [1; 2; 4] results
    /\ [1; 2; 4] !! i = Some 2
    /\ first_maximum
         (map (fun r : evaluation (F := npfloat) =>
                 fsub (valid_scores_mean r) (valid_scores_std r))
              results) i.
Proof.
  apply (grid_search_stable_argmax Demo.permutation Demo.fit Demo.predict
           Demo.model [1; 2; 4] (Demo.zeros 20) (replicate 20 true) 5 1 0
           2 all_right 4).
  apply demo_search_tie.
Defined.

(** Witness of C7: after a selection with 5 folds, the call is the
    evaluation of configuration 2 with 20 folds. *)
Lemma grid_search_final_evaluation_witness :
  demo_grid_search [1; 2; 4] (Demo.zeros 20) (replicate 20 true) 5 1 false 0
    = (final <~ demo_evaluate (Demo.model 2) (Demo.zeros 20)
                              (replicate 20 true) 20 1;
       rret (2, final)) 3.
Proof.
  apply (proj1 (grid_search_final_evaluation Demo.permutation Demo.fit
                  Demo.predict Demo.model [1; 2; 4] (Demo.zeros 20)
                  (replicate 20 true) 5 1 false 0)
               [all_wrong; all_right; all_right] 3 1 2).
  - apply demo_results_tie.
  - apply demo_selected_tie.
  - reflexivity.
Defined.

(** Counterexample to C10 as stated: a 1 x 1 kernel and no repeat. No
    permutation is ever drawn, and the call returns. *)
Lemma grid_search_no_repeat_returns :
  length (Demo.zeros 1) `mod` 20 <> 0
  /\ demo_grid_search [2] (Demo.zeros 1) [true] 5 0 false 0
       = Return ((2, Evaluation nan nan nan nan), 0).
Proof. split; [done|reflexivity]. Qed.

Lemma demo_results_ten :
  demo_grid_results [2] (Demo.zeros 10) (replicate 10 true) 5 1 0
    = Return ([all_right], 1).
Proof.
  unfold grid_results. cbn [for_each]. unfold rbind.
  assert (demo_evaluate (Demo.model 2) (Demo.zeros 10) (replicate 10 true) 5 1 0
          = Return (all_right, 1)) as ->; [|done].
  np_run. repeat f_equal; np_real.
Qed.

(** Witness of C10, amended: ten rows, selection in five folds. *)
Lemma grid_search_needs_multiple_of_20_witness :
  demo_grid_search [2] (Demo.zeros 10) (replicate 10 true) 5 1 false 0
    = Raise AssertionError.
Proof.
  apply (proj2 (grid_search_needs_multiple_of_20 Demo.permutation Demo.fit
                  Demo.predict Demo.model [2] (Demo.zeros 10)
                  (replicate 10 true) 5 1 false 0 (le_n 1)))
    with (results := [all_right]) (g1 := 1) (i := 0) (p := 2).
  - done.
  - apply demo_results_ten.
  - reflexivity.
  - reflexivity.
Defined.

(** ** Kernel cache *)

Section KernelCacheFacts.
Context {X KM P : Type}.
Implicit Types w : world KM.

Lemma mkdir_kernel_files w : kernel_files (mkdir w) = kernel_files w.
Proof. unfold mkdir. by destruct (kernels_dir w). Qed.

Lemma mkdir_kernel_calls w : kernel_calls (mkdir w) = kernel_calls w.
Proof. unfold mkdir. by destruct (kernels_dir w). Qed.

Lemma mkdir_kernels_dir w : kernels_dir (mkdir w) = true.
Proof. unfold mkdir. by destruct (kernels_dir w) eqn:E. Qed.

Lemma mkdir_done w : kernels_dir w = true -> mkdir w = w.
Proof. unfold mkdir. by intros ->. Qed.

Lemma precomputed_kernels_hit (load : nat -> bool -> bool -> outcome X)
    (kernel : X -> option X -> P -> outcome KM) name numeric max_workers
    params w stored :
  kernel_files w !! name = Some stored ->
  precomputed_kernels load kernel name numeric max_workers params w
    = Return (stored, mkdir w).
Proof.
  intros H. unfold precomputed_kernels. by rewrite mkdir_kernel_files, H.
Qed.

(** After a returning call the directory exists and the file holds what
    the call returned. *)
Lemma precomputed_kernels_stored (load : nat -> bool -> bool -> outcome X)
    (kernel : X -> option X -> P -> outcome KM) name numeric max_workers
    params w r w1 :
  precomputed_kernels load kernel name numeric max_workers params w
    = Return (r, w1) ->
  kernels_dir w1 = true /\ kernel_files w1 !! name = Some r.
Proof.
  unfold precomputed_kernels. rewrite mkdir_kernel_files.
  destruct (kernel_files w !! name) as [stored|] eqn:Hname.
  - intros [= <- <-]. by rewrite mkdir_kernels_dir, mkdir_kernel_files.
  - intros H.
    apply bind_inv in H as (train_Xs & _ & H).
    apply bind_inv in H as (test_Xs & _ & H).
    apply bind_inv in H as (train_Ks & _ & H).
    apply bind_inv in H as (test_Ks & _ & H).
    injection H as <- <-. cbn. split; [apply mkdir_kernels_dir|].
    apply lookup_insert_eq.
Qed.

(** C8. When the file of [name] exists, the call returns its content,
    whatever the kernel function, and records no kernel computation; so a
    second call with the same name returns what the first returned and
    leaves the world, the count of kernel computations included, as the
    first call left it. *)
Theorem precomputed_kernels_cached (load : nat -> bool -> bool -> outcome X)
    (kernel : X -> option X -> P -> outcome KM) name numeric max_workers
    params w :
  (forall stored,
     kernel_files w !! name = Some stored ->
     precomputed_kernels load kernel name numeric max_workers params w
       = Return (stored, mkdir w)
     /\ kernel_calls (mkdir w) = kernel_calls w
     /\ kernel_files (mkdir w) = kernel_files w)
  /\ (forall r w1,
        precomputed_kernels load kernel name numeric max_workers params w
          = Return (r, w1) ->
        forall load' (kernel' : X -> option X -> P -> outcome KM)
               numeric' max_workers' params',
          precomputed_kernels load' kernel' name numeric' max_workers' params' w1
            = Return (r, w1)).
Proof.
  split.
  - intros stored H. split; [by apply precomputed_kernels_hit|].
    by rewrite mkdir_kernel_calls, mkdir_kernel_files.
  - intros r w1 H load' kernel' numeric' max_workers' params'.
    apply precomputed_kernels_stored in H as [Hdir Hfile].
    rewrite (precomputed_kernels_hit _ _ _ _ _ _ _ _ Hfile).
    by rewrite mkdir_done.
Qed.
End KernelCacheFacts.

(** The first call on an empty world computes six kernels and writes the
    file. *)
Lemma demo_first_call :
  precomputed_kernels Demo.load Demo.kernel "poly" true 6 2 Demo.empty_world
    = Return (([2; 8; 18], [8; 20; 36]),
              World true {["poly" := ([2; 8; 18], [8; 20; 36])]} 6).
Proof. reflexivity. Qed.

(** Witness of C8: a second call, with another kernel function, returns the
    stored pair and computes nothing. *)
Lemma precomputed_kernels_cached_witness :
  precomputed_kernels Demo.load (fun _ _ _ => Raise OSError) "poly" false 1 5
      (World true {["poly" := ([2; 8; 18], [8; 20; 36])]} 6)
    = Return (([2; 8; 18], [8; 20; 36]),
              World true {["poly" := ([2; 8; 18], [8; 20; 36])]} 6).
Proof.
  apply (proj2 (precomputed_kernels_cached Demo.load Demo.kernel "poly" true 6 2
                  Demo.empty_world) _ _ demo_first_call).
Defined.

(** ** Kernel composer *)

Section KernelComposerFacts.
Context {KM : Type}.
Implicit Types kernels : list (list KM * list KM).

(** The columns of the sources: all train lists, then all test lists. *)
Lemma zip_star_sources kernels s :
  zip_star (map (fun s => [s.1; s.2]) (s :: kernels))
    = [map fst (s :: kernels); map snd (s :: kernels)].
Proof.
  revert s. induction kernels as [|s' kernels IH]; intros s; [done|].
  change (zip_star (map (fun s => [s.1; s.2]) (s :: s' :: kernels)))
    with (zip_with cons [s.1; s.2]
            (zip_star (map (fun s => [s.1; s.2]) (s' :: kernels)))).
  by rewrite IH.
Qed.

(** Column [i] of [zip_star] holds the [i]-th element of every list, and
    exists when every list has one. *)
Lemma zip_star_lookup {B} (l : list B) (ls : list (list B)) i :
  zip_star (l :: ls) !! i = mapM (fun l => l !! i) (l :: ls).
Proof.
  revert l. induction ls as [|l' ls IH]; intros l.
  - cbn. rewrite list_lookup_fmap. by destruct (l !! i).
  - change (zip_star (l :: l' :: ls))
      with (zip_with cons l (zip_star (l' :: ls))).
    rewrite lookup_zip_with, IH. done.
Qed.

Lemma transformed_lookup (transform : nat -> list KM -> KM)
    (columns : list (list KM)) i :
  map (fun '(i, ks) => transform i ks) (enumerate columns) !! i
    = transform i <$> columns !! i.
Proof.
  unfold enumerate. rewrite list_lookup_fmap, list_lookup_imap.
  by destruct (columns !! i).
Qed.

Lemma transform_kernels_returns s kernels (transform : nat -> list KM -> KM) :
  exists trains tests,
    transform_kernels (s :: kernels) transform = Return (trains, tests)
    /\ (forall i,
          trains !! i
            = transform i <$> mapM (fun src => src.1 !! i) (s :: kernels))
    /\ (forall i,
          tests !! i
            = transform i <$> mapM (fun src => src.2 !! i) (s :: kernels)).
Proof.
  eexists _, _. unfold transform_kernels. rewrite zip_star_sources.
  cbn [unpack_pair mbind outcome_bind]. split; [done|].
  split; intros i; rewrite transformed_lookup.
  - rewrite map_cons, zip_star_lookup, <- map_cons. f_equal.
    generalize (s :: kernels). intros l. induction l as [|x l IH]; [done|].
    cbn. by rewrite IH.
  - rewrite map_cons, zip_star_lookup, <- map_cons. f_equal.
    generalize (s :: kernels). intros l. induction l as [|x l IH]; [done|].
    cbn. by rewrite IH.
Qed.
End KernelComposerFacts.

(** Counterexample to C9 as stated: with no source there is nothing to
    unpack into [train, test]. *)
Lemma transform_kernels_no_source :
  transform_kernels [] Demo.sum_transform = Raise ValueError.
Proof. reflexivity. Qed.

(** C9, amended. For a non-empty list of sources the call returns; at every
    data set index [i] held by all sources, the train result is [transform]
    applied to [i] and the [i]-th train kernels of the sources in order, and
    the test result is [transform] applied to [i] and their [i]-th test
    kernels; there is no result at other indices.  In particular two sources
    of one data set each, combined by the element-wise sum, give the sum of
    the two train kernels and the sum of the two test kernels. *)
Theorem transform_kernels_each_index :
  (forall KM (s : list KM * list KM) kernels (transform : nat -> list KM -> KM),
   exists trains tests,
     transform_kernels (s :: kernels) transform = Return (trains, tests)
     /\ (forall i,
           trains !! i
             = transform i <$> mapM (fun src => src.1 !! i) (s :: kernels))
     /\ (forall i,
           tests !! i
             = transform i <$> mapM (fun src => src.2 !! i) (s :: kernels)))
  /\ (forall a b c d : list (list R),
        transform_kernels [([a], [c]); ([b], [d])] Demo.sum_transform
          = Return ([Demo.mat_add a b], [Demo.mat_add c d])).
Proof.
  split.
  - intros KM s kernels transform. apply transform_kernels_returns.
  - reflexivity.
Qed.

(** * Further properties of the code *)

(** ** Fold partitioner: outcomes, bounds and coverage *)

Section PartitionMore.
Context {rng : Type}.
Variable permutation : nat -> rng -> list nat * rng.

(** X1. Both checks of the partitioner come before the draw of the
    permutation and depend on [k] and the subsample only: it raises
    [ZeroDivisionError] exactly when [k] is 0, and [AssertionError] exactly
    when [k] is not 0 and does not divide the subsample. A call that
    returns had a [k] that is not 0 and divides the subsample; it gives [k]
    pairs and leaves the random state of one draw of a permutation of [n]. *)
Theorem k_folds_indices_outcomes n k subsample g :
  (k_folds_indices permutation n k subsample g = Raise ZeroDivisionError
     <-> k = 0)
  /\ (k_folds_indices permutation n k subsample g = Raise AssertionError
        <-> k <> 0 /\ default n subsample `mod` k <> 0)
  /\ (forall splits g',
        k_folds_indices permutation n k subsample g = Return (splits, g') ->
        k <> 0 /\ default n subsample `mod` k = 0
        /\ length splits = k /\ g' = (permutation n g).2).
Proof.
  destruct k as [|k].
  { rewrite k_folds_indices_zero. split; [done|]. split; [naive_solver|].
    done. }
  rewrite k_folds_indices_unfold by done.
  destruct (default n subsample `mod` S k =? 0) eqn:E.
  - apply Nat.eqb_eq in E. split; [done|]. split; [naive_solver|].
    intros splits g' [= <- <-].
    repeat split; try done. cbn [length]. by rewrite length_map, length_seq.
  - apply Nat.eqb_neq in E. split; [done|]. split; [done|]. done.
Qed.

Hypothesis permutation_spec : forall n g, (permutation n g).1 ≡ₚ seq 0 n.

(** X2. In every fold returned, the train indices followed by the validation
    indices are a rearrangement of the sampled indices: each sampled index
    is used exactly once per fold, for training or for validation. The
    sampled indices are distinct and below [n], so they are valid positions
    of any array of length [n]. This holds for every subsample that [k]
    divides, also one larger than [n]. *)
Theorem k_folds_indices_each_fold n k subsample g :
  py_mod (default n subsample) k = Return 0 ->
  let sampled : list nat := take (default n subsample) (permutation n g).1 in
  exists splits,
    k_folds_indices permutation n k subsample g
      = Return (splits, (permutation n g).2)
    /\ NoDup sampled
    /\ Forall (fun x => x < n) sampled
    /\ Forall (fun fold => fold.1 ++ fold.2 ≡ₚ sampled) splits.
Proof.
  intros Hmod sampled.
  rewrite (k_folds_indices_returns _ _ _ _ _ Hmod). fold sampled.
  eexists. split; [done|]. split; [apply sampled_NoDup, permutation_spec|].
  split.
  - apply Forall_forall. intros x Hx.
    apply (permutation_bound permutation permutation_spec n g).
    by apply (subseteq_take (default n subsample)).
  - apply Forall_map, Forall_forall. intros i _. unfold fold_pair. cbn [fst snd].
    rewrite py_slice_0.
    rewrite <- (take_slice_drop sampled (i * default n subsample `div` k)
                  ((i + 1) * default n subsample `div` k)) at 4 by lia.
    rewrite <- app_assoc. apply Permutation_app_head, Permutation_app_comm.
Qed.

(** X3. When the subsample is at least [n] (the default is [n] itself), every
    index below [n] is in the validation block of exactly one fold. *)
Theorem k_folds_indices_validated_once n k subsample g x :
  py_mod (default n subsample) k = Return 0 ->
  n <= default n subsample ->
  x < n ->
  exists splits i fold,
    k_folds_indices permutation n k subsample g
      = Return (splits, (permutation n g).2)
    /\ splits !! i = Some fold
    /\ x ∈ fold.2
    /\ (forall j fold', splits !! j = Some fold' -> x ∈ fold'.2 -> j = i).
Proof.
  intros Hmod Hn Hx.
  rewrite (k_folds_indices_returns _ _ _ _ _ Hmod).
  set (s := default n subsample) in *. set (m := s / k).
  set (sampled := take s (permutation n g).1).
  apply py_mod_zero in Hmod as [Hk Hmod].
  assert (k * m = s) as Hkm.
  { subst m. symmetry. by apply Nat.Div0.div_exact. }
  assert (NoDup sampled) as Hnd by apply sampled_NoDup, permutation_spec.
  assert (x ∈ sampled) as Hin.
  { subst sampled. rewrite take_ge.
    - rewrite permutation_spec. apply elem_of_seq. lia.
    - rewrite permutation_length by done. lia. }
  assert (forall i f, map (fold_pair sampled m) (seq 0 k) !! i = Some f ->
                      i < k /\ f = fold_pair sampled m i) as Hlook.
  { intros i f Hi. rewrite list_lookup_fmap in Hi.
    destruct (seq 0 k !! i) as [i'|] eqn:E; [|done].
    apply lookup_seq in E as [-> ?]. simpl in Hi. by injection Hi as <-. }
  assert (x ∈ ⋃ (map (fun i => list_to_set
                         (py_slice (i * m) ((i + 1) * m) sampled)) (seq 0 k)
                   : list (gset nat))) as Hunion.
  { rewrite blocks_union, Hkm, elem_of_list_to_set.
    rewrite take_ge; [done|]. subst sampled. rewrite length_take. lia. }
  apply elem_of_union_list in Hunion as (X & HX & HxX).
  apply list_elem_of_fmap in HX as (i & -> & Hi).
  apply elem_of_seq in Hi. apply elem_of_list_to_set in HxX.
  exists (map (fold_pair sampled m) (seq 0 k)), i, (fold_pair sampled m i).
  split; [done|]. split.
  { rewrite list_lookup_fmap, lookup_seq_lt by lia. done. }
  split; [done|].
  intros j fold' Hj Hxj. apply Hlook in Hj as [Hj ->]. cbn [fold_pair snd] in Hxj.
  destruct (decide (j = i)) as [|Hne]; [done|]. exfalso.
  assert (i < j \/ j < i) as [Hlt|Hlt] by lia.
  - pose proof (blocks_disjoint sampled m i j Hnd Hlt) as Hdis.
    apply (elem_of_disjoint) in Hdis. apply (Hdis x); by apply elem_of_list_to_set.
  - pose proof (blocks_disjoint sampled m j i Hnd Hlt) as Hdis.
    apply (elem_of_disjoint) in Hdis. apply (Hdis x); by apply elem_of_list_to_set.
Qed.
End PartitionMore.

(** ** Evaluator: random state and a single repeat *)

Lemma np_std_single v : np_std 0 [fin v] = fin 0.
Proof.
  cbv -[Rplus Rminus Rmult Rdiv Rinv Ropp INR IZR sqrt].
  f_equal. etrans; [|exact sqrt_0]. f_equal. simpl. field.
Qed.

Lemma np_mean_single v : np_mean [fin v] = fin v.
Proof.
  cbv -[Rplus Rminus Rmult Rdiv Rinv Ropp INR IZR sqrt].
  f_equal. simpl. field.
Qed.

Section EvaluatorMore.
Context {rng A clf : Type}.
Variable permutation : nat -> rng -> list nat * rng.
Variable fit : clf -> list (list A) -> list bool -> clf.
Variable predict : clf -> list (list A) -> list bool.
Hypothesis permutation_spec : forall n g, (permutation n g).1 ≡ₚ seq 0 n.
Hypothesis predict_length : forall c M, length (predict c M) = length M.
Variable K : list (list A).
Variable Y : list bool.
Hypothesis K_square : square K.
Hypothesis Y_length : length Y = length K.
Variable folds : nat.
Hypothesis folds_two : 2 <= folds.
Hypothesis K_rows : 0 < length K.
Hypothesis folds_divide : length K `mod` folds = 0.

Lemma repeats_loop_state a repeats c vss tss g :
  exists c' vss' tss',
    for_each (seq a repeats)
             (repeat_body permutation fit predict K Y (length K) folds)
             (c, vss, tss) g
      = Return ((c', vss', tss'),
                Nat.iter repeats (fun g => (permutation (length K) g).2) g)
    /\ length vss' = length vss + repeats
    /\ length tss' = length tss + repeats.
Proof.
  revert a c vss tss g.
  induction repeats as [|repeats IH]; intros a c vss tss g.
  - exists c, vss, tss. cbn. repeat split; try done; lia.
  - destruct (repeat_body_bounds permutation fit predict permutation_spec
                predict_length K Y K_square Y_length folds folds_two K_rows
                folds_divide c vss tss a g)
      as (c1 & v & t & Hbody & _ & _).
    destruct (IH (S a) c1 (vss ++ [v]) (tss ++ [t])
                 (permutation (length K) g).2)
      as (c2 & vss2 & tss2 & Hloop & Hl1 & Hl2).
    exists c2, vss2, tss2. cbn [seq for_each]. unfold rbind at 1.
    rewrite Hbody, Hloop, Nat.iter_succ_r.
    rewrite length_app in Hl1, Hl2. simpl in Hl1, Hl2.
    repeat split; try done; lia.
Qed.

(** X4. On a valid input, [evaluate] draws exactly [repeats] permutations
    of [range(len(K))] from the random state and nothing else: the state it
    leaves is the one reached by [repeats] successive draws. *)
Theorem evaluate_random_state classifier repeats g :
  exists r,
    evaluate permutation fit predict classifier K Y folds repeats g
      = Return (r, Nat.iter repeats (fun g => (permutation (length K) g).2) g).
Proof.
  destruct (repeats_loop_state 0 repeats classifier [] [] g)
    as (c' & vss & tss & Hloop & _).
  eexists. unfold evaluate, rbind. by rewrite Hloop.
Qed.

(** X5. With a single repeat (the default) both standard deviations are
    exactly 0 on a valid input, so the selection score
    [valid_mean - valid_std] of the grid search is the validation mean
    itself. *)
Theorem evaluate_single_repeat classifier g :
  exists r g',
    evaluate permutation fit predict classifier K Y folds 1 g = Return (r, g')
    /\ valid_scores_std r = fin 0
    /\ train_scores_std r = fin 0
    /\ in_unit (valid_scores_mean r)
    /\ fsub (valid_scores_mean r) (valid_scores_std r) = valid_scores_mean r.
Proof.
  destruct (repeat_body_bounds permutation fit predict permutation_spec
              predict_length K Y K_square Y_length folds folds_two K_rows
              folds_divide classifier [] [] 0 g)
    as (c1 & v & t & Hbody & Hv & Ht).
  destruct v as [|v]; [done|]. destruct t as [|t]; [done|].
  eexists _, _. unfold evaluate. cbn [seq for_each]. unfold rbind.
  rewrite Hbody. unfold rret. cbn [app]. split; [done|].
  cbn [valid_scores_mean valid_scores_std train_scores_mean train_scores_std].
  rewrite !np_std_single, np_mean_single.
  split; [done|]. split; [done|]. split; [done|]. exact_arith. f_equal. lra.
Qed.
End EvaluatorMore.

(** ** Evaluator: a classifier that always predicts the same label *)

Lemma fancy_index_nth {A} (d : A) (Y : list A) inds :
  Forall (fun i => i < length Y) inds ->
  fancy_index Y inds = Return (map (fun i => nth i Y d) inds).
Proof.
  induction 1 as [|i inds Hi _ IH]; [done|].
  unfold fancy_index in *. cbn [mapM map].
  destruct (lookup_lt_is_Some_2 Y i Hi) as [y Hy].
  assert (py_index Y i = Return y) as -> by (unfold py_index; by rewrite Hy).
  cbn [mbind outcome_bind]. rewrite IH. cbn. do 2 f_equal.
  symmetry. by apply nth_lookup_Some.
Qed.

Lemma nth_seq_all {A} (d : A) (Y : list A) :
  map (fun i => nth i Y d) (seq 0 (length Y)) = Y.
Proof.
  apply list_eq. intros i. rewrite list_lookup_fmap.
  destruct (decide (i < length Y)) as [Hi|Hi].
  - rewrite lookup_seq_lt by done. simpl.
    destruct (lookup_lt_is_Some_2 Y i Hi) as [y Hy]. rewrite Hy.
    f_equal. by apply nth_lookup_Some.
  - rewrite lookup_seq_ge by lia. symmetry. apply lookup_ge_None. lia.
Qed.

Lemma blocks_concat {A} (l : list A) m k :
  concat (map (fun i => py_slice (i * m) ((i + 1) * m) l) (seq 0 k))
    = take (k * m) l.
Proof.
  induction k as [|k IH]; [done|].
  rewrite seq_S, map_app, concat_app, IH. simpl. rewrite app_nil_r.
  replace (m + k * m) with ((k + 1) * m) by lia.
  apply take_slice. lia.
Qed.

Lemma np_equal_same_length a b :
  length a = length b -> np_equal a b = Return (zip_with eqb a b).
Proof. intros H. unfold np_equal. by rewrite H, Nat.eqb_refl. Qed.

Lemma count_true_app a b : count_true (a ++ b) = count_true a + count_true b.
Proof. unfold count_true. by rewrite filter_app, length_app. Qed.

Lemma np_sum_replicate n v : np_sum (replicate n (fin v)) = fin (INR n * v).
Proof.
  induction n as [|n IH].
  - exact_arith. cbn [replicate exact_sum foldr INR]. f_equal. lra.
  - change (np_sum (replicate (S n) (fin v)))
      with (fadd (fin v) (np_sum (replicate n (fin v)))).
    rewrite IH, S_INR. exact_arith. f_equal. lra.
Qed.

Lemma np_mean_replicate n v : 0 < n -> np_mean (replicate n (fin v)) = fin v.
Proof.
  intros Hn. unfold np_mean. rewrite np_sum_replicate, length_replicate.
  destruct n as [|n]; [lia|]. exact_arith. f_equal.
  field. apply not_0_INR. lia.
Qed.

Lemma np_std_replicate n v : 0 < n -> np_std 0 (replicate n (fin v)) = fin 0.
Proof.
  intros Hn. unfold np_std, np_var. rewrite np_mean_replicate by done.
  change (map ?f (replicate n (fin v))) with (f <$> replicate n (fin v)).
  rewrite fmap_replicate. exact_arith.
  rewrite np_sum_replicate, length_replicate, Nat.sub_0_r.
  destruct n as [|n]; [lia|]. exact_arith. f_equal.
  etrans; [|exact sqrt_0]. f_equal. field. apply not_0_INR. lia.
Qed.

Section ConstantClassifier.
Context {rng A clf : Type}.
Variable permutation : nat -> rng -> list nat * rng.
Variable fit : clf -> list (list A) -> list bool -> clf.
Variable predict : clf -> list (list A) -> list bool.
Hypothesis permutation_spec : forall n g, (permutation n g).1 ≡ₚ seq 0 n.
(** The label predicted for every row. *)
Variable label : bool.
Hypothesis predict_constant :
  forall c M, predict c M = replicate (length M) label.
Variable K : list (list A).
Variable Y : list bool.
Hypothesis K_square : square K.
Hypothesis Y_length : length Y = length K.

(** Number of the labels at [inds] that equal the predicted label, and the
    accuracy of the prediction on them. *)
Abbreviation agreeing inds :=
  (count_true (map (eqb label) (map (fun i => nth i Y false) inds))).
Abbreviation accuracy inds :=
  (mean_bool (map (eqb label) (map (fun i => nth i Y false) inds))).

Lemma fold_body_constant c vs ts fold :
  Forall (fun i => i < length K) (fold.1 ++ fold.2) ->
  exists c',
    fold_body fit predict K Y (c, vs, ts) fold
      = Return (c', vs + agreeing fold.2, fadd ts (accuracy fold.1)).
Proof.
  destruct fold as [tr va]. cbn [fst snd]. intros Hin.
  apply Forall_app in Hin as [Htr Hva]. unfold fold_body.
  destruct (ix_returns K tr tr K_square Htr Htr) as (Ktt & -> & Hktt).
  cbn [mbind outcome_bind].
  rewrite (fancy_index_nth false Y tr) by (by rewrite Y_length).
  cbn [mbind outcome_bind].
  destruct (ix_returns K va tr K_square Hva Htr) as (Kvt & -> & Hkvt).
  cbn [mbind outcome_bind].
  rewrite (fancy_index_nth false Y va) by (by rewrite Y_length).
  cbn [mbind outcome_bind]. rewrite !predict_constant.
  rewrite !np_equal_same_length
    by (rewrite length_replicate, ?length_map; congruence).
  cbn [mbind outcome_bind].
  rewrite !zip_with_replicate_l by (rewrite length_map; lia).
  by eexists.
Qed.

Lemma folds_loop_constant splits c vs ts :
  Forall (fun fold => Forall (fun i => i < length K) (fold.1 ++ fold.2)) splits ->
  exists c',
    for_each_pure splits (fold_body fit predict K Y) (c, vs, ts)
      = Return (c', vs + agreeing (concat (map snd splits)),
                fold_left fadd (map (fun fold => accuracy fold.1) splits) ts).
Proof.
  intros Hsplits. revert c vs ts.
  induction Hsplits as [|fold splits Hfold _ IH]; intros c vs ts.
  - exists c. cbn. by rewrite Nat.add_0_r.
  - destruct (fold_body_constant c vs ts fold Hfold) as (c1 & Hbody).
    destruct (IH c1 (vs + agreeing fold.2) (fadd ts (accuracy fold.1)))
      as (c2 & Hloop).
    exists c2. cbn [for_each_pure]. rewrite Hbody.
    cbn [mbind outcome_bind]. rewrite Hloop. do 3 f_equal.
    cbn [map concat]. rewrite !map_app, count_true_app. lia.
Qed.

Variable folds : nat.
Hypothesis folds_two : 2 <= folds.
Hypothesis K_rows : 0 < length K.
Hypothesis folds_divide : length K `mod` folds = 0.
(** Every label is [y]. *)
Variable y : bool.
Hypothesis Y_uniform : Forall (fun l => l = y) Y.

(** The score of the constant prediction on the uniform labels. *)
Abbreviation score := (if eqb label y then 1%R else 0%R).

Lemma count_true_replicate n b :
  count_true (replicate n b) = if b then n else 0.
Proof.
  unfold count_true. induction n as [|n IH]; [by destruct b|].
  cbn [replicate]. rewrite filter_cons. destruct b; case_decide; try done.
  cbn [length]. by rewrite IH.
Qed.

Lemma uniform_hits inds :
  Forall (fun i => i < length K) inds ->
  map (eqb label) (map (fun i => nth i Y false) inds)
    = replicate (length inds) (eqb label y).
Proof.
  induction 1 as [|i inds Hi _ IH]; [done|].
  cbn [map length replicate]. rewrite IH. f_equal. f_equal.
  rewrite nth_lookup. rewrite <- Y_length in Hi.
  destruct (lookup_lt_is_Some_2 Y i Hi) as [l Hl]. rewrite Hl.
  by apply (proj1 (Forall_lookup _ Y) Y_uniform i l).
Qed.

Lemma uniform_agreeing g :
  fdiv_nat (of_count (agreeing (permutation (length K) g).1)) (length K)
    = fin score.
Proof.
  rewrite uniform_hits.
  2:{ apply Forall_forall. intros x.
      apply (permutation_bound permutation permutation_spec). }
  rewrite count_true_replicate, permutation_length by done.
  destruct (length K) as [|N] eqn:E; [lia|]. exact_arith.
  f_equal. destruct (eqb label y).
  - field. apply not_0_INR. lia.
  - cbn [INR]. unfold Rdiv. apply Rmult_0_l.
Qed.

Lemma uniform_accuracy inds :
  0 < length inds -> Forall (fun i => i < length K) inds ->
  accuracy inds = fin score.
Proof.
  intros Hne Hin. rewrite uniform_hits by done. unfold mean_bool.
  rewrite count_true_replicate, length_replicate.
  destruct (length inds) as [|n]; [lia|]. exact_arith.
  f_equal. destruct (eqb label y).
  - field. apply not_0_INR. lia.
  - cbn [INR]. unfold Rdiv. apply Rmult_0_l.
Qed.

Lemma repeat_body_constant c vss tss i g :
  exists c',
    repeat_body permutation fit predict K Y (length K) folds (c, vss, tss) i g
      = Return ((c', vss ++ [fin score], tss ++ [fin score]),
                (permutation (length K) g).2).
Proof.
  destruct (drawn_folds_ok permutation permutation_spec K Y Y_length folds g)
    as (splits & Hsplits & Hlen & Hok); [done..|].
  assert (Forall (fun fold => Forall (fun i => i < length K) (fold.1 ++ fold.2))
                 splits) as Hin.
  { eapply Forall_impl; [exact Hok|]. intros fold (Htr & Hva & _).
    by apply Forall_app. }
  destruct (folds_loop_constant splits c 0 (fin 0) Hin) as (c' & Hloop).
  assert (concat (map snd splits) = (permutation (length K) g).1) as Hcat.
  { assert (py_mod (length K) folds = Return 0) as Hpy
      by (apply py_mod_zero; split; [lia|done]).
    rewrite (k_folds_indices_returns permutation _ folds None g Hpy) in Hsplits.
    injection Hsplits as <-. cbn [default]. rewrite map_map.
    etrans; [apply (blocks_concat _ (length K / folds) folds)|].
    replace (folds * (length K / folds)) with (length K)
      by (by apply Nat.Div0.div_exact).
    rewrite take_take, Nat.min_id.
    apply take_ge. by rewrite permutation_length. }
  assert (map (fun fold => accuracy fold.1) splits
          = replicate folds (fin score)) as Hacc.
  { symmetry. apply replicate_as_Forall. split; [by rewrite length_map|].
    apply Forall_map. eapply Forall_impl; [exact Hok|].
    intros fold (Htr & _ & Hne & _). cbn beta. symmetry.
    by apply uniform_accuracy. }
  exists c'. unfold repeat_body, rbind. rewrite Hsplits.
  unfold lift. rewrite of_count_0, Hloop. unfold rret. cbn [Nat.add].
  rewrite Hcat, uniform_agreeing.
  rewrite Hacc, accumulate_np_sum, fadd_0_l, np_sum_replicate.
  do 5 f_equal.
  destruct folds as [|k]; [lia|]. exact_arith. f_equal.
  field. apply not_0_INR. lia.
Qed.

Lemma repeats_loop_constant a repeats c vss tss g :
  exists c' g',
    for_each (seq a repeats)
             (repeat_body permutation fit predict K Y (length K) folds)
             (c, vss, tss) g
      = Return ((c', vss ++ replicate repeats (fin score),
                 tss ++ replicate repeats (fin score)), g').
Proof.
  revert a c vss tss g.
  induction repeats as [|repeats IH]; intros a c vss tss g.
  - exists c, g. cbn. by rewrite !app_nil_r.
  - destruct (repeat_body_constant c vss tss a g) as (c1 & Hbody).
    edestruct (IH (S a) c1) as (c2 & g2 & Hloop).
    exists c2, g2. cbn [seq for_each]. unfold rbind at 1.
    rewrite Hbody, Hloop. by rewrite <- !app_assoc.
Qed.

(** X6. A classifier that predicts the same label for every row, evaluated
    on labels that are all equal, scores exactly 1 with standard deviation
    0, for validation and for training, when its label is the one of the
    data, and exactly 0 with standard deviation 0 when it is the other one:
    whatever the permutations drawn, the number of folds (at least 2) and
    the number of repeats (at least 1). *)
Theorem evaluate_constant_classifier classifier repeats g :
  1 <= repeats ->
  exists g',
    evaluate permutation fit predict classifier K Y folds repeats g
      = Return (Evaluation (fin (if eqb label y then 1 else 0)) (fin 0)
                           (fin (if eqb label y then 1 else 0)) (fin 0), g').
Proof.
  intros Hrep.
  destruct (repeats_loop_constant 0 repeats classifier [] [] g)
    as (c' & g' & Hloop).
  exists g'. unfold evaluate, rbind. rewrite Hloop. unfold rret.
  cbn [app]. by rewrite !np_mean_replicate, !np_std_replicate by lia.
Qed.
End ConstantClassifier.

(** ** Evaluator: labels of another length than the kernel *)

Lemma fancy_index_cases {A} (Y : list A) inds :
  (exists ys, fancy_index Y inds = Return ys
              /\ Forall (fun i => i < length Y) inds)
  \/ fancy_index Y inds = Raise IndexError.
Proof.
  induction inds as [|i inds IH].
  - left. by exists [].
  - unfold fancy_index in *. cbn [mapM].
    destruct (Y !! i) as [y|] eqn:Hy.
    + assert (py_index Y i = Return y) as ->
        by (unfold py_index; by rewrite Hy).
      cbn [mbind outcome_bind].
      destruct IH as [(ys & -> & Hall)| ->]; [|by right].
      left. exists (y :: ys). split; [done|]. constructor; [|done].
      by eapply lookup_lt_Some.
    + assert (py_index Y i = Raise IndexError) as ->
        by (unfold py_index; by rewrite Hy).
      by right.
Qed.

Lemma for_each_ext {rng A S} (l : list A) (body1 body2 : S -> A -> rand rng S)
    acc g :
  (forall acc x g, body1 acc x g = body2 acc x g) ->
  for_each l body1 acc g = for_each l body2 acc g.
Proof.
  intros Hext. revert acc g. induction l as [|x l IH]; intros acc g; [done|].
  cbn [for_each]. unfold rbind. rewrite Hext.
  destruct (body2 acc x g) as [[acc' g']|]; [|done]. apply IH.
Qed.

Section LabelLength.
Context {rng A clf F : Type} {float : Float F}.
Variable permutation : nat -> rng -> list nat * rng.
Variable fit : clf -> list (list A) -> list bool -> clf.
Variable predict : clf -> list (list A) -> list bool.
Hypothesis permutation_spec : forall n g, (permutation n g).1 ≡ₚ seq 0 n.
Variable K : list (list A).

Lemma drawn_folds_in_range n k subsample g splits g' :
  k_folds_indices permutation n k subsample g = Return (splits, g') ->
  Forall (fun fold => Forall (fun i => i < n) (fold.1 ++ fold.2)) splits.
Proof.
  intros H. pose proof (k_folds_indices_inv _ _ _ _ _ _ _ H) as Hmod.
  rewrite (k_folds_indices_returns _ _ _ _ _ Hmod) in H.
  injection H as <- _. apply Forall_map, Forall_forall. intros j _.
  unfold fold_pair. cbn [fst snd]. apply Forall_forall. intros x Hx.
  apply (permutation_bound permutation permutation_spec n g).
  apply (subseteq_take (default n subsample)).
  rewrite !elem_of_app in Hx. destruct Hx as [[Hx|Hx]|Hx].
  - by apply py_slice_subseteq_take, subseteq_take in Hx.
  - by apply subseteq_drop in Hx.
  - by apply py_slice_subseteq_take, subseteq_take in Hx.
Qed.

Lemma fancy_index_app_l (Y extra : list bool) inds :
  Forall (fun i => i < length Y) inds ->
  fancy_index (Y ++ extra) inds = fancy_index Y inds.
Proof.
  intros H. rewrite (fancy_index_nth false Y inds H).
  rewrite (fancy_index_nth false (Y ++ extra) inds).
  - f_equal. apply map_ext_Forall. eapply Forall_impl; [done|].
    intros i Hi. simpl. by apply app_nth1.
  - eapply Forall_impl; [done|]. intros i Hi. simpl in *.
    rewrite length_app. lia.
Qed.

Lemma fold_body_app_l (Y extra : list bool) acc fold :
  length K <= length Y ->
  Forall (fun i => i < length K) (fold.1 ++ fold.2) ->
  fold_body fit predict K (Y ++ extra) acc fold
    = fold_body fit predict K Y acc fold.
Proof.
  intros Hlen Hin. destruct acc as [[c vs] ts], fold as [tr va].
  apply Forall_app in Hin as [Htr Hva]. cbn [fst snd] in *.
  unfold fold_body.
  rewrite !(fancy_index_app_l Y extra tr), (fancy_index_app_l Y extra va);
    [done|eapply Forall_impl; [done|]; simpl; lia..].
Qed.

Lemma folds_loop_app_l (Y extra : list bool) splits acc :
  length K <= length Y ->
  Forall (fun fold => Forall (fun i => i < length K) (fold.1 ++ fold.2)) splits ->
  for_each_pure splits (fold_body fit predict K (Y ++ extra)) acc
    = for_each_pure splits (fold_body fit predict K Y) acc.
Proof.
  intros Hlen Hsplits. revert acc.
  induction Hsplits as [|fold splits Hfold _ IH]; intros acc; [done|].
  cbn [for_each_pure]. rewrite fold_body_app_l by done.
  destruct (fold_body fit predict K Y acc fold); [|done].
  cbn [mbind outcome_bind]. apply IH.
Qed.

(** X7. Labels beyond the rows of the kernel are never read: appending
    labels to a label array that is at least as long as the kernel changes
    nothing in the outcome of [evaluate], exceptions and random state
    included. *)
Theorem evaluate_ignores_extra_labels classifier (Y extra : list bool)
    folds repeats g :
  length K <= length Y ->
  evaluate permutation fit predict classifier K (Y ++ extra) folds repeats g
    = evaluate permutation fit predict classifier K Y folds repeats g.
Proof.
  intros Hlen. unfold evaluate, rbind.
  rewrite (for_each_ext _ _
             (repeat_body permutation fit predict K Y (length K) folds));
    [done|].
  intros [[c vss] tss] i g0. unfold repeat_body, rbind.
  destruct (k_folds_indices permutation (length K) folds None g0)
    as [[splits g1]|] eqn:Hsplits; [|done].
  apply drawn_folds_in_range in Hsplits.
  unfold lift. by rewrite folds_loop_app_l.
Qed.

(** X8. Labels shorter than the kernel are detected: on a square kernel,
    with a fold count that divides its size and at least one repeat,
    [evaluate] raises [IndexError]. *)
Theorem evaluate_short_labels classifier (Y : list bool) folds repeats g :
  square K ->
  length Y < length K ->
  folds <> 0 -> length K `mod` folds = 0 ->
  1 <= repeats ->
  evaluate permutation fit predict classifier K Y folds repeats g
    = Raise IndexError.
Proof.
  intros Hsq Hshort Hfolds Hmod Hrep.
  destruct repeats as [|repeats]; [lia|].
  unfold evaluate. apply rbind_raise. cbn [seq for_each]. apply rbind_raise.
  unfold repeat_body.
  assert (py_mod (length K) folds = Return 0) as Hpy by (by apply py_mod_zero).
  rewrite (rbind_return _ _ _ _ _
             (k_folds_indices_returns permutation _ _ None g Hpy)).
  apply rbind_raise. cbn [default]. set (N := length K) in *.
  set (sampled := take N (permutation N g).1). set (m := N / folds).
  destruct folds as [|k]; [done|]. cbn [seq map for_each_pure].
  assert (fold_body fit predict K Y (classifier, 0, of_count 0)
            (fold_pair sampled m 0) = Raise IndexError) as ->; [|done].
  assert (sampled = (permutation N g).1) as Hall.
  { subst sampled. apply take_ge. by rewrite permutation_length. }
  assert (forall x, x ∈ sampled -> x < N) as Hbound.
  { intros x Hx. rewrite Hall in Hx.
    by apply (permutation_bound permutation permutation_spec N g). }
  unfold fold_pair. rewrite py_slice_0. cbn [Nat.mul].
  rewrite take_0, app_nil_l.
  replace ((0 + 1) * m) with m by lia.
  change (py_slice 0 m sampled) with (take m sampled).
  unfold fold_body.
  destruct (ix_returns K (drop m sampled) (drop m sampled) Hsq)
    as (Ktt & -> & _).
  1,2: apply Forall_forall; intros x Hx; by apply Hbound, (subseteq_drop m).
  cbn [mbind outcome_bind].
  destruct (fancy_index_cases Y (drop m sampled)) as [(Yt & -> & Htr)| ->];
    [|done].
  cbn [mbind outcome_bind].
  destruct (ix_returns K (take m sampled) (drop m sampled) Hsq)
    as (Kvt & -> & _).
  { apply Forall_forall; intros x Hx; by apply Hbound, (subseteq_take m). }
  { apply Forall_forall; intros x Hx; by apply Hbound, (subseteq_drop m). }
  cbn [mbind outcome_bind].
  destruct (fancy_index_cases Y (take m sampled)) as [(Yv & -> & Hva)| ->];
    [|done].
  exfalso.
  assert (length Y ∈ sampled) as Hin.
  { rewrite Hall, permutation_spec. apply elem_of_seq. lia. }
  rewrite <- (take_drop m sampled) in Hin. apply elem_of_app in Hin.
  rewrite Forall_forall in Htr, Hva.
  destruct Hin as [Hin|Hin]; [apply Hva in Hin|apply Htr in Hin]; simpl in Hin; lia.
Qed.
End LabelLength.

(** ** Grid search: no candidate, and perfect configurations at the end *)

Lemma mask_index_none {A} (xs : list A) (f : A -> bool) :
  Forall (fun x => f x = false) xs -> mask_index xs (map f xs) = [].
Proof.
  induction 1 as [|x xs Hx _ IH]; [done|]. cbn [map mask_index]. by rewrite Hx.
Qed.

Lemma mask_index_prefix {A} (good bad : list A) (f : A -> bool) :
  Forall (fun x => f x = true) good ->
  Forall (fun x => f x = false) bad ->
  mask_index (good ++ bad) (map f (good ++ bad)) = good.
Proof.
  intros Hgood Hbad. induction Hgood as [|x good Hx _ IH].
  - by apply mask_index_none.
  - cbn [app map mask_index]. rewrite Hx. by f_equal.
Qed.

Lemma first_maximum_lt {F} {float : Float F} (l : list F) i :
  first_maximum l i -> i < length l.
Proof. intros (s & Hs & _). by eapply lookup_lt_Some. Qed.

Section GridSearchMore.
Context {rng A clf P F : Type} {float : Float F} {order : FloatOrder F}.
Variable permutation : nat -> rng -> list nat * rng.
Variable fit : clf -> list (list A) -> list bool -> clf.
Variable predict : clf -> list (list A) -> list bool.
Variable model : P -> clf.

Abbreviation grid_results_ := (grid_results permutation fit predict model).
Abbreviation grid_search_ := (grid_search permutation fit predict model).

(** X9. When no candidate is left the grid search raises: [IndexError] on an
    empty [params], and [ValueError] when [no_perfect] is set and no
    evaluated configuration has a train mean below 1; there is no
    fall-back to the full list. *)
Theorem grid_search_no_candidate params K Y folds repeats g :
  (params = [] ->
   forall no_perfect,
     grid_search_ params K Y folds repeats no_perfect g = Raise IndexError)
  /\ (forall results g1,
        params <> [] ->
        grid_results_ params K Y folds repeats g = Return (results, g1) ->
        Forall (fun r => flt (train_scores_mean r) 1 = false) results ->
        grid_search_ params K Y folds repeats true g = Raise ValueError).
Proof.
  split.
  - by intros ->.
  - intros results g1 Hne Hres Hperfect. unfold grid_search.
    rewrite (rbind_return _ _ _ _ _ Hres). apply rbind_raise.
    pose proof (grid_results_evaluated _ _ _ _ _ _ _ _ _ _ _ _ Hres) as Hev.
    destruct Hev as [|p r ps rs _ _]; [done|].
    unfold selected_index. by rewrite mask_index_none.
Qed.

(** X10. When every configuration whose train mean is not below 1 comes
    after all the others in [params], [no_perfect=True] returns what it
    documents: the configuration returned has a train mean below 1 and
    stands at the first maximum of the scores [valid_mean - valid_std] of
    the configurations with a train mean below 1. The scores are compared
    as the floats they are, in every float arithmetic that orders its
    numbers as IEEE 754 does. *)
Theorem grid_search_perfect_last params K Y folds repeats g good bad g1
    p final g' :
  grid_results_ params K Y folds repeats g = Return (good ++ bad, g1) ->
  Forall (fun r => flt (train_scores_mean r) 1 = true) good ->
  Forall (fun r => flt (train_scores_mean r) 1 = false) bad ->
  grid_search_ params K Y folds repeats true g = Return ((p, final), g') ->
  exists i r,
    params !! i = Some p
    /\ good !! i = Some r
    /\ evaluated permutation fit predict K Y folds repeats (model p) r
    /\ flt (train_scores_mean r) 1 = true
    /\ first_maximum
         (map (fun r => fsub (valid_scores_mean r) (valid_scores_std r)) good)
         i.
Proof.
  intros Hres Hgood Hbad H.
  apply grid_search_inv in H as (results & g1' & i & Hres' & Hi & Hp & _).
  rewrite Hres in Hres'. injection Hres' as <- <-.
  unfold selected_index in Hi.
  destruct (good ++ bad) as [|r0 rest] eqn:E; [done|]. rewrite <- E in Hi.
  rewrite mask_index_prefix in Hi by done.
  apply np_argmax_first_maximum in Hi. unfold selection_scores in Hi.
  pose proof (first_maximum_lt _ _ Hi) as Hlt.
  rewrite length_map in Hlt.
  destruct (lookup_lt_is_Some_2 good i Hlt) as [r Hr].
  exists i, r. split; [done|]. split; [done|]. split; [|split; [|done]].
  - apply grid_results_evaluated in Hres. rewrite <- E in Hres.
    eapply Forall2_lookup_lr in Hres; [done..|].
    by apply lookup_app_l_Some.
  - rewrite Forall_forall in Hgood. apply Hgood.
    by eapply list_elem_of_lookup_2.
Qed.
End GridSearchMore.

(** ** Kernel cache: a miss, and the other files *)

Section KernelCacheMore.
Context {X KM P : Type}.
Implicit Types w : world KM.



End KernelCacheMore.

(** ** Kernel composer: how many data sets come out *)

(** X13. The composer silently truncates to the shortest source: for a
    non-empty list of sources, an index has a train result exactly when
    every source has a train kernel at that index, and likewise for the test
    results, which may therefore differ in number from the train results. *)
Theorem transform_kernels_lengths {KM} (s : list KM * list KM) kernels
    (transform : nat -> list KM -> KM) :
  exists trains tests,
    transform_kernels (s :: kernels) transform = Return (trains, tests)
    /\ (forall i, i < length trains
                  <-> forall src, src ∈ s :: kernels -> i < length src.1)
    /\ (forall i, i < length tests
                  <-> forall src, src ∈ s :: kernels -> i < length src.2).
Proof.
  destruct (transform_kernels_returns s kernels transform)
    as (trains & tests & Heq & Htrain & Htest).
  exists trains, tests. split; [done|].
  split; intros i; rewrite <- lookup_lt_is_Some.
  - rewrite Htrain, fmap_is_Some, mapM_is_Some, Forall_forall.
    apply forall_proper. intros src. by rewrite <- lookup_lt_is_Some.
  - rewrite Htest, fmap_is_Some, mapM_is_Some, Forall_forall.
    apply forall_proper. intros src. by rewrite <- lookup_lt_is_Some.
Qed.

(** ** Shuffle *)

Lemma fancy_index_permutation {A} (a : list A) inds :
  inds ≡ₚ seq 0 (length a) ->
  exists ys,
    fancy_index a inds = Return ys
    /\ ys ≡ₚ a
    /\ Forall2 (fun i x => a !! i = Some x) inds ys.
Proof.
  intros Hperm. destruct a as [|d a'] eqn:Ea.
  { apply Permutation_nil_r in Hperm as ->. by exists []. }
  rewrite <- Ea in *. clear Ea a'.
  assert (Forall (fun i => i < length a) inds) as Hin.
  { apply Forall_forall. intros i Hi. rewrite Hperm in Hi.
    apply elem_of_seq in Hi. lia. }
  exists (map (fun i => nth i a d) inds).
  split; [by apply fancy_index_nth|]. split.
  - rewrite Hperm. by rewrite nth_seq_all.
  - apply Forall2_fmap_r, Forall_Forall2_diag.
    eapply Forall_impl; [done|]. intros i Hi. simpl in *.
    by destruct (nth_lookup_or_length a i d) as [?|?]; [|lia].
Qed.

Lemma mapM_raises {A B} (f : A -> outcome B) (l : list A) e x :
  Forall (fun x => f x = Raise e \/ exists y, f x = Return y) l ->
  x ∈ l -> f x = Raise e ->
  mapM f l = Raise e.
Proof.
  intros Hall Hx Hfx. induction Hall as [|z l Hz _ IH]; [by inversion Hx|].
  cbn [mapM]. destruct Hz as [Hz|[y Hz]]; rewrite Hz; [done|].
  cbn [mbind outcome_bind].
  apply elem_of_cons in Hx as [->|Hx]; [congruence|]. by rewrite IH.
Qed.

Section ShuffleFacts.
Context {rng A : Type}.
Variable shuffled_arange : nat -> rng -> list nat * rng.
Hypothesis shuffled_arange_spec :
  forall n g, (shuffled_arange n g).1 ≡ₚ seq 0 n.

(** X14. Arrays of one length are all rearranged by the same order of
    indices, a permutation of their positions drawn once: every output is a
    rearrangement of its array, and position [i] of every output holds the
    element its array had at the [i]-th index drawn, so rows that belonged
    together still do. *)
Theorem shuffle_rearranges (first : list A) arrays g :
  Forall (fun a => length a = length first) arrays ->
  let indices := (shuffled_arange (length first) g).1 in
  exists outs,
    shuffle shuffled_arange (first :: arrays) g
      = Return (outs, (shuffled_arange (length first) g).2)
    /\ indices ≡ₚ seq 0 (length first)
    /\ Forall2 (fun a out =>
                  out ≡ₚ a /\ Forall2 (fun i x => a !! i = Some x) indices out)
               (first :: arrays) outs.
Proof.
  intros Hlen indices. unfold shuffle, rbind, draw. cbn [lift py_index lookup].
  change ((first :: arrays) !! 0) with (Some first). cbn.
  destruct (shuffled_arange (length first) g) as [inds g'] eqn:E.
  assert (inds ≡ₚ seq 0 (length first)) as Hperm.
  { pose proof (shuffled_arange_spec (length first) g) as H. by rewrite E in H. }
  subst indices. cbn [fst snd].
  assert (exists outs,
            mapM (fun a => fancy_index a inds) (first :: arrays) = Return outs
            /\ Forall2 (fun a out =>
                          out ≡ₚ a
                          /\ Forall2 (fun i x => a !! i = Some x) inds out)
                       (first :: arrays) outs) as (outs & Hm & Houts).
  { assert (Forall (fun a => length a = length first) (first :: arrays)) as Hall
      by (by constructor).
    induction Hall as [|a rest Ha _ IH]; [by exists []|].
    destruct IH as (outs & Hm & Houts).
    destruct (fancy_index_permutation a inds) as (ys & Hys & Hp & Hl).
    { by rewrite Ha. }
    exists (ys :: outs). cbn [mapM]. rewrite Hys. cbn [mbind outcome_bind].
    rewrite Hm. split; [done|]. by constructor. }
  cbn [mapM] in Hm. rewrite Hm. by exists outs.
Qed.

(** X15. Without any array [shuffle] raises [IndexError], and so it does
    when an array is shorter than the first one. *)
Theorem shuffle_index_error (first a : list A) arrays g :
  shuffle shuffled_arange (@nil (list A)) g = Raise IndexError
  /\ (a ∈ arrays -> length a < length first ->
      shuffle shuffled_arange (first :: arrays) g = Raise IndexError).
Proof.
  split; [done|]. intros Ha Hshort.
  unfold shuffle, rbind, draw. cbn.
  destruct (shuffled_arange (length first) g) as [inds g'] eqn:E.
  assert (inds ≡ₚ seq 0 (length first)) as Hperm.
  { pose proof (shuffled_arange_spec (length first) g) as H. by rewrite E in H. }
  assert (mapM (fun a => fancy_index a inds) (first :: arrays)
          = Raise IndexError) as Hm; [|cbn [mapM] in Hm; by rewrite Hm].
  apply (mapM_raises _ _ _ a).
  - apply Forall_forall. intros b _.
    destruct (fancy_index_cases b inds) as [(ys & -> & _)| ->]; eauto.
  - by right.
  - destruct (fancy_index_cases a inds) as [(ys & _ & Hall)|]; [|done].
    exfalso. rewrite Forall_forall in Hall.
    assert (length a ∈ inds) as Hin.
    { rewrite Hperm. apply elem_of_seq. lia. }
    apply Hall in Hin. lia.
Qed.
End ShuffleFacts.

(** ** Decimal numbers in names and lines *)

Lemma pretty_N_char_digit x : digit (pretty_N_char x).
Proof.
  unfold digit, pretty_N_char.
  repeat case_match; by apply (bool_decide_unpack _).
Qed.

Lemma pretty_N_go_digits x s : all_digits s -> all_digits (pretty_N_go x s).
Proof.
  revert s. induction (N.lt_wf_0 x) as [x _ IH]; intros s Hs.
  assert (x = 0 \/ 0 < x)%N as [->|?] by lia.
  - by rewrite pretty_N_go_0.
  - rewrite pretty_N_go_step by done. apply IH.
    + by apply N.div_lt.
    + split; [apply pretty_N_char_digit|done].
Qed.

Lemma pretty_nat_digits (n : nat) : all_digits (pretty n).
Proof.
  unfold pretty, pretty_nat, pretty, pretty_N. case_decide.
  - split; [|done]. by apply (bool_decide_unpack _).
  - by apply pretty_N_go_digits.
Qed.

(** Two texts that start with digits and go on with something else agree
    on the digits and on the rest. *)
Lemma digits_prefix_inj s1 s2 c1 c2 t1 t2 :
  all_digits s1 -> all_digits s2 -> ~ digit c1 -> ~ digit c2 ->
  s1 +:+ String c1 t1 = s2 +:+ String c2 t2 ->
  s1 = s2 /\ c1 = c2 /\ t1 = t2.
Proof.
  revert s2. induction s1 as [|d1 s1 IH]; intros [|d2 s2] H1 H2 Hc1 Hc2 Heq;
    simpl in *.
  - by injection Heq as -> ->.
  - injection Heq as -> _. by destruct H2.
  - injection Heq as -> _. by destruct H1.
  - injection Heq as -> Heq. destruct H1 as [_ H1], H2 as [_ H2].
    destruct (IH s2 H1 H2 Hc1 Hc2 Heq) as (-> & -> & ->). done.
Qed.

(** X16. The data file names are distinct for distinct requests: the name
    determines whether features or labels are read, the train or test part,
    the data set number and whether the embedding is read. *)
Theorem file_name_inj X X' train train' k k' embed embed' :
  file_name X train k embed = file_name X' train' k' embed' ->
  X = X' /\ train = train' /\ k = k' /\ embed = embed'.
Proof.
  unfold file_name. intros H.
  assert (~ digit "_"%char) as Hu by (by apply (bool_decide_unpack _)).
  assert (~ digit "."%char) as Hd by (by apply (bool_decide_unpack _)).
  pose proof (pretty_nat_digits k) as Hk. pose proof (pretty_nat_digits k') as Hk'.
  destruct X, X', train, train', embed, embed'; simpl in H;
    try discriminate H; injection H as H;
    apply digits_prefix_inj in H as (H & Hc & _); try done;
    apply (inj pretty) in H; done.
Qed.

(** ** Prediction files *)

Lemma csv_line_inj : Inj (=) (=) csv_line.
Proof.
  intros [i b] [i' b'] H. unfold csv_line in H. cbn [fst snd] in H.
  assert (~ digit ","%char) as Hc by (by apply (bool_decide_unpack _)).
  change ("," +:+ ?s) with (String "," s) in H.
  apply digits_prefix_inj in H as (Hi & _ & Hb);
    [|apply pretty_nat_digits..|done|done].
  apply (inj pretty) in Hi as ->. by destruct b, b'.
Qed.

Lemma concat_lookup_offset {A} (l : list (list A)) d arr j b :
  l !! d = Some arr -> arr !! j = Some b ->
  concat l !! (length (concat (take d l)) + j) = Some b.
Proof.
  intros Hd Hj.
  assert (concat l = concat (take d l) ++ arr ++ concat (drop (S d) l)) as ->.
  { rewrite <- (take_drop_middle l d arr Hd) at 1.
    by rewrite concat_app, concat_cons. }
  rewrite lookup_app_r by lia.
  rewrite Nat.add_comm, Nat.add_sub. by apply lookup_app_l_Some.
Qed.

Lemma enumerated_lookup {A} (l : list A) i b :
  l !! i = Some b -> zip (seq 0 (length l)) l !! i = Some (i, b).
Proof.
  intros Hi. apply lookup_zip_Some. split; [|done].
  apply lookup_seq. split; [done|]. by eapply lookup_lt_Some.
Qed.

(** The lines that [save_predictions] writes. *)
Lemma save_predictions_returns predictions file o :
  predictions <> [] ->
  save_predictions predictions file o
    = Return (tt, Outputs true
                    (<[file +:+ ".csv" :=
                         "Id,Bound"
                           :: map csv_line
                                (zip (seq 0 (length (concat predictions)))
                                     (concat predictions))]>
                       (prediction_files o))).
Proof.
  intros Hne. unfold save_predictions, concatenate.
  destruct predictions as [|arr rest]; [done|]. cbn [mbind outcome_bind].
  by destruct o as [[|] files].
Qed.

(** X17. After a call that returns, the file named by [file] starts with
    the header [Id,Bound]; then comes one line per prediction, in the order
    of the data sets and, within a data set, of its predictions. The
    identifiers run on across the data sets: the prediction at position [j]
    of data set [d] is written with the identifier [j] plus the number of
    predictions of the data sets before [d]. *)
Theorem save_predictions_layout predictions file o o' :
  save_predictions predictions file o = Return (tt, o') ->
  exists lines,
    prediction_files o' !! (file +:+ ".csv") = Some lines
    /\ lines !! 0 = Some "Id,Bound"
    /\ length lines = 1 + length (concat predictions)
    /\ (forall d arr j b,
          predictions !! d = Some arr -> arr !! j = Some b ->
          let id := length (concat (take d predictions)) + j in
          lines !! (1 + id) = Some (csv_line (id, b))).
Proof.
  intros H. assert (predictions <> []) as Hne by (by intros ->).
  rewrite save_predictions_returns in H by done. injection H as <-.
  eexists. cbn [prediction_files]. split; [apply lookup_insert_eq|].
  split; [done|]. split.
  - cbn [length]. rewrite length_map, length_zip, length_seq. lia.
  - intros d arr j b Hd Hj. cbn zeta.
    set (id := length (concat (take d predictions)) + j).
    change (("Id,Bound" :: ?l) !! (1 + id)) with (l !! id).
    rewrite list_lookup_fmap.
    by rewrite (enumerated_lookup _ id b (concat_lookup_offset _ _ _ _ _ Hd Hj)).
Qed.

(** X18. The file determines the predictions: two calls that write the
    same lines were given the same predictions, data set after data set
    concatenated. *)
Theorem save_predictions_inj predictions1 predictions2 file1 file2 o1 o2
    o1' o2' lines :
  save_predictions predictions1 file1 o1 = Return (tt, o1') ->
  save_predictions predictions2 file2 o2 = Return (tt, o2') ->
  prediction_files o1' !! (file1 +:+ ".csv") = Some lines ->
  prediction_files o2' !! (file2 +:+ ".csv") = Some lines ->
  concat predictions1 = concat predictions2.
Proof.
  intros H1 H2 Hl1 Hl2.
  destruct predictions1 as [|a1 r1]; [done|].
  destruct predictions2 as [|a2 r2]; [done|].
  rewrite save_predictions_returns in H1, H2 by done.
  injection H1 as <-. injection H2 as <-. cbn [prediction_files] in Hl1, Hl2.
  rewrite lookup_insert_eq in Hl1, Hl2. rewrite <- Hl2 in Hl1.
  injection Hl1 as Hl. pose proof csv_line_inj as Hinj.
  apply (inj (fmap csv_line)) in Hl.
  apply (f_equal (fmap snd)) in Hl.
  by rewrite !snd_zip in Hl by (rewrite length_seq; lia).
Qed.

(** X19. [save_predictions] raises [ValueError] on an empty list of
    predictions, whatever the file; a call that returns was given at least
    one array of predictions, and it has created the directory and written
    the file it names. *)
Theorem save_predictions_one_file predictions file o :
  (predictions = [] ->
   save_predictions predictions file o = Raise ValueError)
  /\ (forall o',
        save_predictions predictions file o = Return (tt, o') ->
        predictions <> []
        /\ predictions_dir o' = true
        /\ is_Some (prediction_files o' !! (file +:+ ".csv"))).
Proof.
  split; [by intros ->|].
  intros o' H. destruct predictions as [|arr rest]; [done|].
  rewrite save_predictions_returns in H by done. injection H as <-.
  cbn [predictions_dir prediction_files]. split; [done|]. split; [done|].
  rewrite lookup_insert_eq. by eexists.
Qed.

(** ** Encoding of the sequences *)

Lemma assign_where_map (data : list (list ascii)) l i (h : ascii -> nat) :
  assign_where data l i (map (map h) data)
    = map (map (fun ch => if decide (ch = l) then i else h ch)) data.
Proof.
  unfold assign_where. induction data as [|row data IH]; [done|].
  cbn [map zip_with]. rewrite IH. f_equal.
  clear IH. induction row as [|ch row IH]; [done|].
  cbn [map zip_with]. by rewrite IH.
Qed.

Lemma np_array_2d_cases {A} (rows : list (list A)) :
  np_array_2d rows = Return rows \/ np_array_2d rows = Raise ValueError.
Proof.
  unfold np_array_2d. destruct rows as [|row rows]; [by left|].
  destruct (forallb _ _); [by left|by right].
Qed.

Lemma encode_closed_form data :
  encode data =
    rows ← np_array_2d (map String.list_ascii_of_string data);
    Return (map (map letter_code) rows).
Proof.
  unfold encode.
  destruct (np_array_2d_cases (map String.list_ascii_of_string data))
    as [-> | ->]; [|done].
  cbn [mbind outcome_bind]. f_equal.
  change (enumerate letters)
    with [(0, "A"%char); (1, "T"%char); (2, "C"%char); (3, "G"%char)].
  cbn [fold_left]. rewrite !assign_where_map. apply map_ext. intros row. apply map_ext.
  intros ch. unfold letter_code. cbn. by repeat case_decide.
Qed.

Lemma letter_code_range c : letter_code c <= 3.
Proof. unfold letter_code. repeat case_decide; lia. Qed.

Lemma letter_code_inj c c' :
  c ∈ letters -> c' ∈ letters -> letter_code c = letter_code c' -> c = c'.
Proof.
  unfold letters. rewrite !elem_of_cons, !elem_of_nil.
  intros [->|[->|[->|[->|[]]]]] [->|[->|[->|[->|[]]]]]; by cbv.
Qed.

Lemma length_list_ascii s :
  length (String.list_ascii_of_string s) = String.length s.
Proof. induction s as [|c s IH]; [done|]. simpl. by rewrite IH. Qed.

Lemma np_array_2d_rectangular (data : list string) :
  (forall s s', s ∈ data -> s' ∈ data -> String.length s = String.length s') ->
  np_array_2d (map String.list_ascii_of_string data)
    = Return (map String.list_ascii_of_string data).
Proof.
  intros Hrect. unfold np_array_2d. destruct data as [|s0 data]; [done|].
  cbn [map]. rewrite (proj2 (forallb_forall _ _)); [done|].
  intros r Hr. apply Nat.eqb_eq.
  apply list_elem_of_In in Hr.
  change (String.list_ascii_of_string s0 :: map String.list_ascii_of_string data)
    with (String.list_ascii_of_string <$> s0 :: data) in Hr.
  apply list_elem_of_fmap in Hr as (s & -> & Hs).
  rewrite !length_list_ascii. apply Hrect; [done|]. by left.
Qed.

Lemma encode_rectangular data :
  (forall s s', s ∈ data -> s' ∈ data -> String.length s = String.length s') ->
  exists rows,
    encode data = Return rows
    /\ Forall2 (fun s row =>
                  row = map letter_code (String.list_ascii_of_string s))
               data rows
    /\ Forall (Forall (fun code => code <= 3)) rows.
Proof.
  intros Hrect. rewrite encode_closed_form, np_array_2d_rectangular by done.
  eexists. split; [done|]. split.
  - rewrite map_map. apply Forall2_fmap_r, Forall_Forall2_diag.
    by apply Forall_forall.
  - apply Forall_map, Forall_map, Forall_forall. intros row _. simpl.
    apply Forall_map, Forall_forall. intros c _. apply letter_code_range.
Qed.

(** X21. On sequences written with A, T, C and G only, the encoding loses
    nothing: two lists of such sequences with the same encoding are the
    same list. *)
Theorem encode_inj data1 data2 rows :
  Forall (fun s => Forall (fun c => c ∈ letters)
                          (String.list_ascii_of_string s)) data1 ->
  Forall (fun s => Forall (fun c => c ∈ letters)
                          (String.list_ascii_of_string s)) data2 ->
  encode data1 = Return rows ->
  encode data2 = Return rows ->
  data1 = data2.
Proof.
  intros H1 H2 E1 E2. rewrite encode_closed_form in E1, E2.
  destruct (np_array_2d_cases (map String.list_ascii_of_string data1))
    as [R1|R1]; rewrite R1 in E1; [|done].
  destruct (np_array_2d_cases (map String.list_ascii_of_string data2))
    as [R2|R2]; rewrite R2 in E2; [|done].
  cbn [mbind outcome_bind] in E1, E2. injection E1 as <-. injection E2 as E.
  clear R1 R2. revert data2 H2 E.
  induction H1 as [|s1 data1 Hs1 _ IH]; intros [|s2 data2] H2 E; try done.
  apply Forall_cons in H2 as [Hs2 H2]. cbn [map] in E. injection E as Erow E.
  f_equal; [|by apply IH].
  rewrite <- (String.string_of_list_ascii_of_string s1),
          <- (String.string_of_list_ascii_of_string s2). f_equal.
  revert Hs2 Erow. generalize (String.list_ascii_of_string s2).
  induction Hs1 as [|c1 l1 Hc1 _ IHl]; intros [|c2 l2] Hl2 Erow; try done.
  apply Forall_cons in Hl2 as [Hc2 Hl2]. cbn [map] in Erow.
  injection Erow as Ec El.
  f_equal; [by apply letter_code_inj|by apply IHl].
Qed.

(** X22. Every character other than T, C and G is encoded like A,
    silently: replacing those characters by A changes nothing in the
    outcome of the encoding. *)
Theorem encode_unmatched data :
  encode (map unmatched_to_A data) = encode data.
Proof.
  rewrite !encode_closed_form, map_map.
  assert (forall s, length (String.list_ascii_of_string (unmatched_to_A s))
                    = length (String.list_ascii_of_string s)) as Hlen.
  { intros s. unfold unmatched_to_A.
    by rewrite String.list_ascii_of_string_of_list_ascii, length_map. }
  assert (forall s, map letter_code (String.list_ascii_of_string (unmatched_to_A s))
                    = map letter_code (String.list_ascii_of_string s)) as Hcode.
  { intros s. unfold unmatched_to_A.
    rewrite String.list_ascii_of_string_of_list_ascii, map_map.
    apply map_ext. intros c. case_decide as Hc; [done|].
    unfold letter_code. rewrite !elem_of_cons, elem_of_nil in Hc.
    repeat case_decide; naive_solver. }
  unfold np_array_2d. destruct data as [|s0 data]; [done|]. cbn [map].
  rewrite Hlen.
  assert (forallb (fun r => length r =? length (String.list_ascii_of_string s0))
            (String.list_ascii_of_string (unmatched_to_A s0)
               :: map (fun x => String.list_ascii_of_string (unmatched_to_A x))
                    data)
          = forallb (fun r => length r =? length (String.list_ascii_of_string s0))
              (String.list_ascii_of_string s0
                 :: map String.list_ascii_of_string data)) as ->.
  { cbn [forallb]. rewrite Hlen. f_equal.
    induction data as [|s data IH]; [done|]. cbn [map forallb].
    by rewrite Hlen, IH. }
  destruct (forallb _ _); [|done]. cbn [mbind outcome_bind map]. f_equal.
  rewrite Hcode. f_equal. rewrite !map_map. apply map_ext. intros s. apply Hcode.
Qed.

Section LoadFacts.
Context {E : Type}.
Variable loadtxt_float :
  string -> nat -> option nat -> string -> outcome E.
Variable loadtxt_str :
  string -> nat -> option nat -> string -> outcome (column string).
Variable loadtxt_bool :
  string -> nat -> option nat -> string -> outcome (column bool).

(** X20. Loading the features of a data set with [numeric=True]: when
    [np.loadtxt] gives an array of sequences of one length, the result
    keeps the shape, one row per sequence and one entry per character, the
    entry being 1 for T, 2 for C, 3 for G and 0 for every other character,
    so no entry exceeds 3; when it gives a zero-dimensional array, as for a
    file with a single sequence, [load] raises [TypeError]. *)
Theorem load_encodes k train :
  (forall data,
     loadtxt_str (file_name true train k false) 1 (Some 1) ","
       = Return (Column data) ->
     (forall s s', s ∈ data -> s' ∈ data ->
                   String.length s = String.length s') ->
     exists rows,
       load loadtxt_float loadtxt_str loadtxt_bool true k train false true
         = Kw.Ok (Encoded rows)
       /\ Forall2 (fun s row =>
                     row = map letter_code (String.list_ascii_of_string s))
                  data rows
       /\ Forall (Forall (fun code => code <= 3)) rows)
  /\ (forall s,
        loadtxt_str (file_name true train k false) 1 (Some 1) ","
          = Return (Scalar s) ->
        load loadtxt_float loadtxt_str loadtxt_bool true k train false true
          = Kw.Err Kw.TypeError).
Proof.
  split.
  - intros data Hread Hrect.
    destruct (encode_rectangular data Hrect) as (rows & Henc & Hrows & Hrange).
    exists rows. unfold load. rewrite Hread. by rewrite Henc.
  - intros s Hread. unfold load. by rewrite Hread.
Qed.
End LoadFacts.

(** ** Keyword dictionaries and the calls built on them *)

(** The states that a [mapM] goes through, one after the other. *)
Lemma run_mapM_states {St A B} (f : A -> Kw.run St B) l s ys s' :
  mapM f l s = Kw.Ok (ys, s') ->
  exists states,
    length ys = length l
    /\ last (s :: states) = Some s'
    /\ forall i x y,
         l !! i = Some x -> ys !! i = Some y ->
         exists si si',
           (s :: states) !! i = Some si
           /\ (s :: states) !! S i = Some si'
           /\ f x si = Kw.Ok (y, si').
Proof.
  revert s ys s'. induction l as [|x l IH]; intros s ys s'.
  - intros [= <- <-]. exists []. by repeat split.
  - cbn [mapM]. unfold mbind at 1, Kw.run_bind at 1.
    destruct (f x s) as [[y s1]|] eqn:Hfx; [|done].
    unfold mbind at 1, Kw.run_bind at 1.
    destruct (mapM f l s1) as [[ys' s2]|] eqn:Hrest; [|done].
    intros [= <- <-]. apply IH in Hrest as (states & Hlen & Hlast & Hall).
    exists (s1 :: states). split; [cbn [length]; by rewrite Hlen|].
    split; [done|]. intros [|i] x' y'.
    + intros [= <-] [= <-]. by exists s, s1.
    + cbn [lookup list_lookup]. intros Hx Hy.
      destruct (Hall i x' y' Hx Hy) as (si & si' & Hsi & Hsi' & Hf).
      by exists si, si'.
Qed.

Lemma outcome_mapM_inv {A B} (f : A -> outcome B) l ys :
  mapM f l = Return ys -> Forall2 (fun x y => f x = Return y) l ys.
Proof.
  revert ys. induction l as [|x l IH]; intros ys.
  - intros [= <-]. constructor.
  - cbn [mapM]. destruct (f x) as [y|] eqn:Hfx; [|done].
    cbn [mbind outcome_bind]. destruct (mapM f l) as [k|]; [|done].
    intros [= <-]. constructor; [done|by apply IH].
Qed.

Lemma with_C_inv {S V} (C : V) (params : gmap string V) (s s' : S) keywords :
  Kw.with_C C params s = Kw.Ok (keywords, s') ->
  params !! "C" = None /\ keywords = <["C" := C]> params /\ s' = s.
Proof.
  unfold Kw.with_C. destruct (params !! "C"); [done|]. by intros [= <- <-].
Qed.

(** The list [[dict(C=C, **params) for C in Cs]]. *)
Lemma configurations_inv {S V} (Cs : list V) (params : gmap string V) (s s' : S)
    configs :
  mapM (fun C => Kw.with_C C params) Cs s = Kw.Ok (configs, s') ->
  configs = map (fun C => <["C" := C]> params) Cs
  /\ s' = s
  /\ (Cs = [] \/ params !! "C" = None).
Proof.
  revert configs s'. induction Cs as [|C Cs IH]; intros configs s'.
  - intros [= <- <-]. split; [done|]. split; [done|]. by left.
  - cbn [mapM]. unfold mbind at 1, Kw.run_bind at 1.
    destruct (Kw.with_C C params s) as [[kw s1]|] eqn:HC; [|done].
    apply with_C_inv in HC as (Hnone & -> & ->).
    unfold mbind at 1, Kw.run_bind at 1.
    destruct (mapM (M := Kw.run S) _ Cs s) as [[k s2]|] eqn:Hl; [|done].
    destruct (IH k s2 eq_refl) as (-> & -> & _).
    intros [= <- <-]. split; [done|]. split; [done|]. by right.
Qed.

Lemma configurations_clash {S V} (C : V) Cs (params : gmap string V) (s : S) :
  is_Some (params !! "C") ->
  mapM (fun C => Kw.with_C C params) (C :: Cs) s = Kw.Err Kw.TypeError.
Proof.
  intros [v Hv]. cbn [mapM]. unfold mbind at 1, Kw.run_bind at 1.
  unfold Kw.with_C. by rewrite Hv.
Qed.

Section GlobalEvaluateFacts.
Context {rng A clf V F : Type} {float : Float F}.
Variable permutation : nat -> rng -> list nat * rng.
Variable fit : clf -> list (list A) -> list bool -> clf.
Variable predict : clf -> list (list A) -> list bool.
Variable classifier : gmap string V -> clf.

(** X23. [global_evaluate] pairs the kernels, the labels and the values of
    [C] position by position, down to the shortest of the three lists, and
    evaluates them one after the other on one random state: a call that
    returns has no keyword [C] among [params] (unless there is nothing to
    evaluate), gives one row per triple, and went through a chain of random
    states that starts with the state of the call and ends with the state
    it leaves, the row at position [i] being what [evaluate] returned, for
    the classifier built with the [C] of position [i], from the state
    number [i] of the chain, leaving the state number [i + 1]. With a
    keyword [C] among [params] and something to evaluate it raises
    [TypeError] before any evaluation. *)
Theorem global_evaluate_rows Ks Ys Cs folds repeats params g :
  (forall rows g',
     global_evaluate permutation fit predict classifier Ks Ys Cs folds repeats
                     params g = Kw.Ok (rows, g') ->
     exists states,
       length rows = length (zip Ks (zip Ys Cs))
       /\ states !! 0 = Some g
       /\ last states = Some g'
       /\ forall i x r,
            zip Ks (zip Ys Cs) !! i = Some x -> rows !! i = Some r ->
            params !! "C" = None
            /\ exists gi gi',
                 states !! i = Some gi
                 /\ states !! S i = Some gi'
                 /\ evaluate permutation fit predict
                             (classifier (<["C" := x.2.2]> params))
                             x.1 x.2.1 folds repeats gi
                      = Return (r, gi'))
  /\ (is_Some (params !! "C") -> zip Ks (zip Ys Cs) <> [] ->
      global_evaluate permutation fit predict classifier Ks Ys Cs folds repeats
                      params g = Kw.Err Kw.TypeError).
Proof.
  split.
  - intros rows g' H. unfold global_evaluate in H.
    apply run_mapM_states in H as (states & Hlen & Hlast & Hall).
    exists (g :: states). split; [done|]. split; [done|]. split; [done|].
    intros i [K [Y C]] r Hx Hr. cbn [fst snd].
    destruct (Hall i _ r Hx Hr) as (gi & gi' & Hgi & Hgi' & Hf).
    unfold mbind, Kw.run_bind in Hf.
    destruct (Kw.with_C C params gi) as [[kw s0']|] eqn:HC; [|done].
    apply with_C_inv in HC as (Hnone & -> & ->). split; [done|].
    unfold Kw.of_rand in Hf.
    destruct (evaluate _ _ _ _ _ _ _ _ gi) as [[r' s1']|] eqn:Hev; [|done].
    injection Hf as -> ->. by exists gi, gi'.
  - intros [v Hv] Hne. unfold global_evaluate.
    destruct (zip Ks (zip Ys Cs)) as [|[K [Y C]] rest]; [done|].
    cbn [mapM]. unfold mbind at 1, Kw.run_bind at 1.
    unfold mbind at 1, Kw.run_bind at 1. unfold Kw.with_C. by rewrite Hv.
Qed.
End GlobalEvaluateFacts.

(** ** The orchestrator *)

Lemma run_bind_inv {S A B} (m : Kw.run S A) (f : A -> Kw.run S B) s b s' :
  (m ≫= f) s = Kw.Ok (b, s') ->
  exists a s1, m s = Kw.Ok (a, s1) /\ f a s1 = Kw.Ok (b, s').
Proof.
  unfold mbind, Kw.run_bind. destruct (m s) as [[a s1]|]; [|done].
  intros H. by exists a, s1.
Qed.

Lemma of_outcome_inv {S A} (m : outcome A) (s s' : S) a :
  Kw.of_outcome m s = Kw.Ok (a, s') -> m = Return a /\ s' = s.
Proof. unfold Kw.of_outcome. destruct m; [|done]. by intros [= <- <-]. Qed.

Lemma zip_nested_fmap {A B C D E} (h : D -> E) (a : list A) (b : list B)
    (c : list C) (d : list D) :
  zip a (zip b (zip c (map h d)))
    = map (fun x => (x.1, (x.2.1, (x.2.2.1, h x.2.2.2))))
          (zip a (zip b (zip c d))).
Proof.
  revert b c d. induction a as [|x a IH]; intros [|y b] [|z c] [|w d];
    try done.
  cbn [map zip zip_with fst snd]. f_equal. apply IH.
Qed.

Section SvmKernelsFacts.
Context {rng A clf V F : Type} {float : Float F}.
Variable permutation : nat -> rng -> list nat * rng.
Variable fit : clf -> list (list A) -> list bool -> clf.
Variable predict : clf -> list (list A) -> list bool.
Variable model : gmap string V -> clf.
Variable train_Ys : list (list bool).
Variable worker_rng : nat -> rng.

Abbreviation svm_kernels_ :=
  (svm_kernels permutation fit predict model train_Ys worker_rng).
Abbreviation searched configs repeats :=
  (fun (x : nat * (list (list A) * list bool)) (y : gmap string V * evaluation) =>
     fst <$> grid_search permutation fit predict model configs
                         x.2.1 x.2.2 5 repeats false (worker_rng x.1)
       = Return y).

Lemma report_loop_inv res total acc (s s' : console (V := V)) total' full :
  report_loop res total acc s = Kw.Ok ((total', full), s') ->
  full = acc ++ map snd res
  /\ s'.1 = s.1
  /\ exists printed,
       s'.2 = s.2 ++ printed
       /\ Forall2 (fun pr line =>
                     exists C,
                       pr.1 !! "C" = Some C
                       /\ line = DatasetLine (evaluation_scale 100 pr.2) C)
                  res printed.
Proof.
  revert total acc s. induction res as [|[p perf] res IH]; intros total acc s.
  - intros [= <- <- <-]. rewrite app_nil_r. simpl. repeat split.
    exists []. by rewrite app_nil_r.
  - cbn [report_loop]. intros H.
    apply run_bind_inv in H as (C & s1 & HC & H).
    unfold Kw.getitem in HC. destruct (p !! "C") as [C'|] eqn:HpC; [|done].
    injection HC as <- <-.
    apply run_bind_inv in H as ([] & s2 & Hprint & H).
    injection Hprint as <-.
    apply IH in H as (-> & -> & printed & -> & Hprinted).
    cbn [fst snd map]. rewrite <- !app_assoc. repeat split.
    eexists (_ :: printed). split; [done|].
    constructor; [|done]. by exists C'.
Qed.

(** What a returning call of the orchestrator went through. *)
Lemma svm_kernels_inv train_Ks test_Ks Cs prediction_file repeats params
    (s s' : console (V := V)) full_results :
  svm_kernels_ (train_Ks, test_Ks) Cs prediction_file repeats params s
    = Kw.Ok (full_results, s') ->
  exists res,
    (Cs = [] \/ params !! "C" = None)
    /\ Forall2 (searched (map (fun C => <["C" := C]> params) Cs) repeats)
               (enumerate (zip train_Ks train_Ys)) res
    /\ full_results = map snd res
    /\ (exists printed total,
          s'.2 = s.2 ++ printed ++ [TotalLine total]
          /\ Forall2 (fun pr line =>
                        exists C,
                          pr.1 !! "C" = Some C
                          /\ line = DatasetLine (evaluation_scale 100 pr.2) C)
                     res printed)
    /\ match prediction_file with
       | None => s'.1 = s.1
       | Some file =>
           save_predictions
             (map (fun '(K, (Y, (K_test, (p, _)))) =>
                     final_train fit predict model p K Y K_test)
                  (zip train_Ks (zip train_Ys (zip test_Ks res))))
             file s.1 = Return (tt, s'.1)
       end.
Proof.
  unfold svm_kernels. intros H.
  apply run_bind_inv in H as (configs & s1 & Hconfigs & H).
  apply configurations_inv in Hconfigs as (-> & -> & HC).
  apply run_bind_inv in H as (res & s2 & Hres & H).
  apply of_outcome_inv in Hres as [Hres ->].
  apply outcome_mapM_inv in Hres.
  apply run_bind_inv in H as ([total full] & s3 & Hloop & H).
  apply report_loop_inv in Hloop as (-> & Hs3 & printed & Hs3' & Hprinted).
  apply run_bind_inv in H as ([] & s4 & Hsave & H).
  apply run_bind_inv in H as ([] & s5 & Hprint & H).
  injection Hprint as <-. injection H as <- <-.
  exists res. split; [done|]. split.
  { eapply Forall2_impl; [done|]. by intros [i [K Y]] y. }
  split; [done|]. cbn [fst snd].
  destruct prediction_file as [file|].
  - unfold on_outputs in Hsave. rewrite <- Hs3.
    destruct (save_predictions _ file s3.1) as [[[] o]|] eqn:Hsp; [|done].
    injection Hsave as <-. cbn [fst snd]. split; [|done].
    eexists printed, _. rewrite Hs3', <- app_assoc. by split.
  - injection Hsave as <-. split; [|done].
    eexists printed, _. rewrite Hs3', <- app_assoc. by split.
Qed.

(** X24. A call that returns gives one result per pair of a train kernel
    and a label array, down to the shorter of the two lists and in their
    order: the result at position [i] is the final evaluation of the grid
    search of data set [i], run over the configurations
    [C=C, **params] for [C] in [Cs], with 5 folds and without
    [no_perfect], from the random state of the worker of task [i]. *)
Theorem svm_kernels_results train_Ks test_Ks Cs prediction_file repeats params
    (s s' : console (V := V)) full_results :
  svm_kernels_ (train_Ks, test_Ks) Cs prediction_file repeats params s
    = Kw.Ok (full_results, s') ->
  Forall2 (fun x r =>
             exists p g',
               grid_search permutation fit predict model
                           (map (fun C => <["C" := C]> params) Cs)
                           x.2.1 x.2.2 5 repeats false (worker_rng x.1)
                 = Return ((p, r), g'))
          (enumerate (zip train_Ks train_Ys)) full_results.
Proof.
  intros H. apply svm_kernels_inv in H as (res & _ & Hres & -> & _).
  apply Forall2_fmap_r. eapply Forall2_impl; [done|].
  intros x [p r] Hx. cbn [snd].
  destruct (grid_search _ _ _ _ _ _ _ _ _ _ _) as [[[p' r'] g']|]; [|done].
  injection Hx as -> ->. by exists p, g'.
Qed.

(** X25. With at least one repeat the orchestrator returns only if the
    size of every train kernel that has a label array is a multiple of 20
    (the default 5 folds of the selection then divide it too), and only if
    [Cs] is not empty when there is such a kernel. *)
Theorem svm_kernels_needs_multiple_of_20 train_Ks test_Ks Cs prediction_file
    repeats params (s s' : console (V := V)) full_results i K Y :
  1 <= repeats ->
  svm_kernels_ (train_Ks, test_Ks) Cs prediction_file repeats params s
    = Kw.Ok (full_results, s') ->
  train_Ks !! i = Some K -> train_Ys !! i = Some Y ->
  length K `mod` 20 = 0 /\ length K `mod` 5 = 0 /\ Cs <> [].
Proof.
  intros Hrep H HK HY. apply svm_kernels_inv in H as (res & _ & Hres & _).
  remember (map (fun C => <["C" := C]> params) Cs) as configs eqn:Econf.
  assert (enumerate (zip train_Ks train_Ys) !! i = Some (i, (K, Y))) as Hi.
  { unfold enumerate. rewrite list_lookup_imap.
    by rewrite (proj2 (lookup_zip_Some _ _ _ _ _) (conj HK HY)). }
  destruct (Forall2_lookup_l _ _ _ _ _ Hres Hi) as ([p r] & _ & Hx).
  cbn [fst snd] in Hx.
  destruct (grid_search _ _ _ _ _ _ _ _ _ _ _) as [[[p' r'] g']|] eqn:Hgs;
    [|done].
  apply grid_search_inv in Hgs as (results & g1 & j & Hgr & Hj & Hp & Hfinal).
  apply evaluate_returns_divides in Hfinal; [|done].
  apply py_mod_zero in Hfinal as [_ H20]. split; [done|].
  apply grid_results_evaluated in Hgr.
  destruct Hgr as [|p0 r0 ps rs (g0 & g0' & Hev) _]; [done|].
  apply evaluate_returns_divides in Hev; [|done].
  apply py_mod_zero in Hev as [_ H5]. split; [done|]. by destruct Cs.
Qed.

(** X26. What a returning call writes. It prints one line per data set,
    in order, carrying the [C] of the configuration that the grid search
    of the data set selected, and then one line for the total. Without a
    prediction file it writes no file. With one, the file holds the header
    [Id,Bound] and then, numbered from 0 on across the data sets, the
    predictions on the test kernel of each data set by the model built
    from the configuration selected for it and fitted on its train kernel
    and labels; data sets without a test kernel are left out. *)
Theorem svm_kernels_outputs train_Ks test_Ks Cs prediction_file repeats params
    (s s' : console (V := V)) full_results :
  svm_kernels_ (train_Ks, test_Ks) Cs prediction_file repeats params s
    = Kw.Ok (full_results, s') ->
  exists selected printed total,
    Forall2 (fun x p =>
               exists r g',
                 grid_search permutation fit predict model
                             (map (fun C => <["C" := C]> params) Cs)
                             x.2.1 x.2.2 5 repeats false (worker_rng x.1)
                   = Return ((p, r), g'))
            (enumerate (zip train_Ks train_Ys)) selected
    /\ s'.2 = s.2 ++ printed ++ [TotalLine total]
    /\ Forall2 (fun p line =>
                  exists C percentages,
                    p !! "C" = Some C /\ line = DatasetLine percentages C)
               selected printed
    /\ match prediction_file with
       | None => s'.1 = s.1
       | Some file =>
           let predictions :=
             map (fun x => predict (fit (model x.2.2.2) x.1 x.2.1) x.2.2.1)
                 (zip train_Ks (zip train_Ys (zip test_Ks selected))) in
           prediction_files s'.1 !! (file +:+ ".csv")
             = Some ("Id,Bound"
                       :: map csv_line
                            (zip (seq 0 (length (concat predictions)))
                                 (concat predictions)))
       end.
Proof.
  intros H.
  apply svm_kernels_inv in H
    as (res & _ & Hres & -> & (printed & total & Hs' & Hprinted) & Hfile).
  exists (map fst res), printed, total. split.
  { apply Forall2_fmap_r. eapply Forall2_impl; [exact Hres|].
    intros x [p r] Hx. cbn [fst snd] in Hx |- *.
    destruct (grid_search _ _ _ _ _ _ _ _ _ _ _) as [[[p' r'] g']|]; [|done].
    injection Hx as -> ->. by exists r, g'. }
  split; [done|]. split.
  { apply Forall2_fmap_l. eapply Forall2_impl; [exact Hprinted|].
    intros [p r] line (C & HC & ->). by exists C, (evaluation_scale 100 r). }
  destruct prediction_file as [file|]; [|done]. cbn zeta.
  set (predictions := map _ _) in Hfile.
  assert (predictions <> []) as Hne.
  { intros E. by rewrite E in Hfile. }
  rewrite save_predictions_returns in Hfile by done.
  injection Hfile as <-. cbn [prediction_files].
  rewrite lookup_insert_eq. rewrite zip_nested_fmap, map_map.
  assert (predictions
          = map (fun x => predict (fit (model x.2.2.2.1) x.1 x.2.1) x.2.2.1)
                (zip train_Ks (zip train_Ys (zip test_Ks res)))) as ->; [|done].
  subst predictions. apply map_ext. by intros [K [Y [K_test [p r]]]].
Qed.

(** X27. A keyword [C] among [params] is a [TypeError] as soon as [Cs] is
    not empty, before any grid search; and with an empty [Cs] the first
    data set raises the [IndexError] of a grid search without
    configuration. *)
Theorem svm_kernels_no_configuration train_Ks test_Ks prediction_file repeats
    params (s : console (V := V)) :
  (forall C Cs,
     is_Some (params !! "C") ->
     svm_kernels_ (train_Ks, test_Ks) (C :: Cs) prediction_file repeats params s
       = Kw.Err Kw.TypeError)
  /\ (zip train_Ks train_Ys <> [] ->
      svm_kernels_ (train_Ks, test_Ks) [] prediction_file repeats params s
        = Kw.Err (Kw.Propagated IndexError)).
Proof.
  split.
  - intros C Cs HC. unfold svm_kernels. unfold mbind at 1, Kw.run_bind at 1.
    by rewrite configurations_clash.
  - intros Hne. unfold svm_kernels. unfold mbind at 1, Kw.run_bind at 1.
    cbn [mapM mret Kw.run_ret]. unfold mbind at 1, Kw.run_bind at 1.
    destruct (zip train_Ks train_Ys) as [|[K Y] rest]; [done|]. done.
Qed.
End SvmKernelsFacts.

(** ** Grid search: when it returns *)

Section GridSearchReturns.
Context {rng A clf P : Type}.
Variable permutation : nat -> rng -> list nat * rng.
Variable fit : clf -> list (list A) -> list bool -> clf.
Variable predict : clf -> list (list A) -> list bool.
Variable model : P -> clf.
Hypothesis permutation_spec : forall n g, (permutation n g).1 ≡ₚ seq 0 n.
Hypothesis predict_length : forall c M, length (predict c M) = length M.
Variable K : list (list A).
Variable Y : list bool.
Hypothesis K_square : square K.
Hypothesis Y_length : length Y = length K.
Hypothesis K_rows : 0 < length K.

Lemma evaluate_returns_in_unit folds classifier repeats g :
  2 <= folds -> length K `mod` folds = 0 -> 1 <= repeats ->
  exists r g',
    evaluate permutation fit predict classifier K Y folds repeats g
      = Return (r, g')
    /\ in_unit (valid_scores_mean r) /\ in_unit (valid_scores_std r)
    /\ in_unit (train_scores_mean r) /\ in_unit (train_scores_std r).
Proof.
  intros Hfolds Hdiv Hrep.
  destruct (repeats_loop_bounds permutation fit predict permutation_spec
              predict_length K Y K_square Y_length folds Hfolds K_rows Hdiv
              0 repeats classifier [] [] g)
    as (c' & vss & tss & g' & Hloop & Hvss & Htss & Hl1 & Hl2); [done..|].
  simpl in Hl1, Hl2.
  eexists _, g'. unfold evaluate, rbind. rewrite Hloop. unfold rret.
  split; [done|]. cbn [valid_scores_mean valid_scores_std
                       train_scores_mean train_scores_std].
  repeat split.
  all: first [apply np_mean_in_unit | apply np_std_in_unit]; first [lia|done].
Qed.

Lemma grid_loop_returns folds repeats params acc g :
  2 <= folds -> length K `mod` folds = 0 -> 1 <= repeats ->
  exists rs g',
    for_each params
      (fun results p =>
         r <~ evaluate permutation fit predict (model p) K Y folds repeats;
         rret (results ++ [r]))
      acc g = Return (acc ++ rs, g')
    /\ length rs = length params.
Proof.
  intros Hfolds Hdiv Hrep. revert acc g.
  induction params as [|p params IH]; intros acc g.
  - exists [], g. by rewrite app_nil_r.
  - destruct (evaluate_returns_in_unit folds (model p) repeats g)
      as (r & g1 & Hev & _); [done..|].
    destruct (IH (acc ++ [r]) g1) as (rs & g' & Hloop & Hlen).
    exists (r :: rs), g'. cbn [for_each]. unfold rbind at 1 2.
    rewrite Hev. unfold rret at 1. rewrite Hloop, <- app_assoc.
    split; [done|]. simpl. by rewrite Hlen.
Qed.

(** X28. The grid search returns on a valid input: a square kernel with at
    least one row, labels of its length, a classifier that predicts one
    label per row, a selection fold count of at least 2, a kernel size
    that the fold count and 20 both divide, at least one repeat and at
    least one configuration, without [no_perfect]. The configuration
    returned is one of [params] and the four final scores are numbers of
    [0,1]. *)
Theorem grid_search_returns params folds repeats g :
  params <> [] ->
  2 <= folds -> length K `mod` folds = 0 -> length K `mod` 20 = 0 ->
  1 <= repeats ->
  exists p final g',
    grid_search permutation fit predict model params K Y folds repeats false g
      = Return ((p, final), g')
    /\ p ∈ params
    /\ in_unit (valid_scores_mean final) /\ in_unit (valid_scores_std final)
    /\ in_unit (train_scores_mean final) /\ in_unit (train_scores_std final).
Proof.
  intros Hne Hfolds Hdiv H20 Hrep.
  destruct (grid_loop_returns folds repeats params [] g)
    as (rs & g1 & Hloop & Hlen); [done..|].
  cbn [app] in Hloop.
  destruct rs as [|r0 rs]; [by destruct params|].
  assert (exists i, selected_index false (r0 :: rs) = Return i
                    /\ i < length params) as (i & Hi & Hlt).
  { eexists. split; [done|].
    pose proof (np_argmax_first_maximum
                  (selection_scores (r0 :: rs)) _ eq_refl) as Hmax.
    apply first_maximum_lt in Hmax. unfold selection_scores in Hmax.
    rewrite length_map in Hmax. by rewrite <- Hlen. }
  destruct (lookup_lt_is_Some_2 params i Hlt) as [p Hp].
  destruct (evaluate_returns_in_unit 20 (model p) repeats g1)
    as (final & g' & Hev & Hunit); [lia|done..|].
  exists p, final, g'. split.
  - rewrite (grid_search_selected _ _ _ _ _ _ _ _ _ _ _ _ _ _ _ Hloop Hi Hp).
    unfold rbind. by rewrite Hev.
  - split; [by eapply list_elem_of_lookup_2|done].
Qed.
End GridSearchReturns.

(** * Witnesses of the further properties *)

(** Witness of X2: ten indices in five folds, sampled from the reversed
    order. *)
Lemma k_folds_indices_each_fold_witness :
  exists splits,
    k_folds_indices Demo.permutation 10 5 None 1 = Return (splits, 2)
    /\ NoDup (take 10 (Demo.permutation 10 1).1)
    /\ Forall (fun x => x < 10) (take 10 (Demo.permutation 10 1).1)
    /\ Forall (fun fold => fold.1 ++ fold.2
                             ≡ₚ take 10 (Demo.permutation 10 1).1) splits.
Proof.
  apply (k_folds_indices_each_fold Demo.permutation demo_permutation_spec
           10 5 None 1).
  reflexivity.
Defined.

(** Witness of X3: index 7 of ten indices in five folds. *)
Lemma k_folds_indices_validated_once_witness :
  exists splits i fold,
    k_folds_indices Demo.permutation 10 5 None 0 = Return (splits, 1)
    /\ splits !! i = Some fold
    /\ 7 ∈ fold.2
    /\ (forall j fold', splits !! j = Some fold' -> 7 ∈ fold'.2 -> j = i).
Proof.
  apply (k_folds_indices_validated_once Demo.permutation demo_permutation_spec
           10 5 None 0 7).
  - reflexivity.
  - simpl. lia.
  - lia.
Defined.

(** Witness of X4: three repeats on a 2 x 2 kernel leave the state reached
    by three draws. *)
Lemma evaluate_random_state_witness :
  exists r,
    demo_evaluate true (Demo.zeros 2) [true; true] 2 3 0
      = Return (r, Nat.iter 3 (fun g => (Demo.permutation 2 g).2) 0).
Proof.
  apply (evaluate_random_state Demo.permutation Demo.fit Demo.predict
           demo_permutation_spec demo_predict_length
           (Demo.zeros 2) [true; true] (demo_zeros_square 2) eq_refl 2).
  - lia.
  - simpl. lia.
  - reflexivity.
Defined.

(** Witness of X5: one repeat on a 2 x 2 kernel. *)
Lemma evaluate_single_repeat_witness :
  exists r g',
    demo_evaluate true (Demo.zeros 2) [true; true] 2 1 0 = Return (r, g')
    /\ valid_scores_std r = fin 0
    /\ train_scores_std r = fin 0
    /\ in_unit (valid_scores_mean r)
    /\ fsub (valid_scores_mean r) (valid_scores_std r) = valid_scores_mean r.
Proof.
  apply (evaluate_single_repeat Demo.permutation Demo.fit Demo.predict
           demo_permutation_spec demo_predict_length
           (Demo.zeros 2) [true; true] (demo_zeros_square 2) eq_refl 2).
  - lia.
  - simpl. lia.
  - reflexivity.
Defined.

(** Witness of X6: the classifier that always predicts [True] on four
    labels [True], in two folds and three repeats. *)
Lemma evaluate_constant_classifier_witness :
  exists g',
    evaluate Demo.permutation DemoRun.fit_nothing DemoRun.predict_true tt
             (Demo.zeros 4) (replicate 4 true) 2 3 0
      = Return (Evaluation (fin (if eqb true true then 1 else 0)) (fin 0)
                           (fin (if eqb true true then 1 else 0)) (fin 0), g').
Proof.
  apply (evaluate_constant_classifier Demo.permutation DemoRun.fit_nothing
           DemoRun.predict_true demo_permutation_spec true
           (fun c M => eq_refl) (Demo.zeros 4) (replicate 4 true)
           (demo_zeros_square 4) eq_refl 2).
  - lia.
  - simpl. lia.
  - reflexivity.
  - by repeat constructor.
  - lia.
Defined.

(** Witness of X7: a third label on a 2 x 2 kernel. *)
Lemma evaluate_ignores_extra_labels_witness :
  demo_evaluate true (Demo.zeros 2) ([true; true] ++ [false]) 2 1 0
    = demo_evaluate true (Demo.zeros 2) [true; true] 2 1 0.
Proof.
  apply (evaluate_ignores_extra_labels Demo.permutation Demo.fit Demo.predict
           demo_permutation_spec (Demo.zeros 2) true [true; true] [false] 2 1 0).
  simpl. lia.
Defined.

(** Witness of X8: one label for a 2 x 2 kernel. *)
Lemma evaluate_short_labels_witness :
  demo_evaluate true (Demo.zeros 2) [true] 2 1 0 = Raise IndexError.
Proof.
  apply (evaluate_short_labels Demo.permutation Demo.fit Demo.predict
           demo_permutation_spec (Demo.zeros 2) true [true] 2 1 0).
  - apply demo_zeros_square.
  - simpl. lia.
  - lia.
  - reflexivity.
  - lia.
Defined.

Lemma demo_results_single :
  demo_grid_results [2] (Demo.zeros 20) (replicate 20 true) 5 1 0
    = Return ([all_right], 1).
Proof.
  unfold grid_results. cbn [for_each]. unfold rbind.
  change (Demo.model 2) with true. by rewrite (demo_evaluate_5 true 0) by lia.
Qed.

Lemma demo_results_perfect_last :
  demo_grid_results [1; 2] (Demo.zeros 20) (replicate 20 true) 5 1 0
    = Return ([all_wrong] ++ [all_right], 2).
Proof.
  unfold grid_results. cbn [for_each]. unfold rbind.
  change (Demo.model 1) with false. rewrite (demo_evaluate_5 false 0) by lia.
  unfold rret. cbn [app].
  change (Demo.model 2) with true. by rewrite (demo_evaluate_5 true 1) by lia.
Qed.

Lemma demo_selected_perfect_last :
  selected_index true ([all_wrong] ++ [all_right]) = Return 0.
Proof.
  np_select. done.
Qed.

Lemma demo_search_perfect_last :
  demo_grid_search [1; 2] (Demo.zeros 20) (replicate 20 true) 5 1 true 0
    = Return ((1, all_wrong), 3).
Proof.
  rewrite (grid_search_selected _ _ _ _ _ _ _ _ _ _ _ _ _ 0 1
             demo_results_perfect_last demo_selected_perfect_last eq_refl).
  unfold rbind. change (Demo.model 1) with false.
  by rewrite (demo_evaluate_20 false 2) by lia.
Qed.

(** Witness of X9: a single configuration with a train mean of 1. *)
Lemma grid_search_no_candidate_witness :
  demo_grid_search [2] (Demo.zeros 20) (replicate 20 true) 5 1 true 0
    = Raise ValueError.
Proof.
  apply (proj2 (grid_search_no_candidate Demo.permutation Demo.fit Demo.predict
                  Demo.model [2] (Demo.zeros 20) (replicate 20 true) 5 1 0)
               [all_right] 1).
  - done.
  - apply demo_results_single.
  - repeat constructor. exact_arith; cbn [train_scores_mean INR]. apply bool_decide_eq_false_2. lra.
Defined.

(** Witness of X10: the configuration with a train mean of 1 comes last. *)
Lemma grid_search_perfect_last_witness :
  exists i r,
    [1; 2] !! i = Some 1
    /\ [all_wrong] !! i = Some r
    /\ evaluated Demo.permutation Demo.fit Demo.predict (Demo.zeros 20)
                 (replicate 20 true) 5 1 (Demo.model 1) r
    /\ flt (train_scores_mean r) 1 = true
    /\ first_maximum
         (map (fun r : evaluation (F := npfloat) =>
                 fsub (valid_scores_mean r) (valid_scores_std r))
              [all_wrong]) i.
Proof.
  apply (grid_search_perfect_last Demo.permutation Demo.fit Demo.predict
           Demo.model [1; 2] (Demo.zeros 20) (replicate 20 true) 5 1 0
           [all_wrong] [all_right] 2 1 all_wrong 3).
  - apply demo_results_perfect_last.
  - repeat constructor. exact_arith; cbn [train_scores_mean INR]. apply bool_decide_eq_true_2. lra.
  - repeat constructor. exact_arith; cbn [train_scores_mean INR]. apply bool_decide_eq_false_2. lra.
  - apply demo_search_perfect_last.
Defined.

(** Witness of X28: two configurations on a 20 x 20 kernel. *)
Lemma grid_search_returns_witness :
  exists p final g',
    demo_grid_search [1; 2] (Demo.zeros 20) (replicate 20 true) 5 1 false 0
      = Return ((p, final), g')
    /\ p ∈ [1; 2]
    /\ in_unit (valid_scores_mean final) /\ in_unit (valid_scores_std final)
    /\ in_unit (train_scores_mean final) /\ in_unit (train_scores_std final).
Proof.
  apply (grid_search_returns Demo.permutation Demo.fit Demo.predict Demo.model
           demo_permutation_spec demo_predict_length
           (Demo.zeros 20) (replicate 20 true) (demo_zeros_square 20)).
  - by rewrite !length_replicate.
  - unfold Demo.zeros. rewrite length_replicate. lia.
  - done.
  - lia.
  - unfold Demo.zeros. by rewrite length_replicate.
  - unfold Demo.zeros. by rewrite length_replicate.
  - lia.
Defined.


(** Witness of X14: two arrays of three elements, shuffled from the state
    1. *)
Lemma shuffle_rearranges_witness :
  exists outs,
    shuffle Demo.permutation ([1; 2; 3] :: [[4; 5; 6]]) 1
      = Return (outs, (Demo.permutation (length [1; 2; 3]) 1).2)
    /\ (Demo.permutation (length [1; 2; 3]) 1).1 ≡ₚ seq 0 (length [1; 2; 3])
    /\ Forall2 (fun a out =>
                  out ≡ₚ a
                  /\ Forall2 (fun i x => a !! i = Some x)
                             (Demo.permutation (length [1; 2; 3]) 1).1 out)
               ([1; 2; 3] :: [[4; 5; 6]]) outs.
Proof.
  apply (shuffle_rearranges Demo.permutation demo_permutation_spec
           [1; 2; 3] [[4; 5; 6]] 1).
  repeat constructor.
Defined.

(** Witness of X15: the second array is shorter than the first. *)
Lemma shuffle_index_error_witness :
  shuffle Demo.permutation ([1; 2; 3] :: [[4; 5]]) 0 = Raise IndexError.
Proof.
  apply (proj2 (shuffle_index_error Demo.permutation demo_permutation_spec
                  [1; 2; 3] [4; 5] [[4; 5]] 0)).
  - by left.
  - simpl. lia.
Defined.

(** Witness of X16: the name of the train features of data set 2. *)
Lemma file_name_inj_witness :
  true = true /\ true = true /\ 2 = 2 /\ false = false.
Proof.
  apply (file_name_inj true true true true 2 2 false false). reflexivity.
Defined.

Lemma demo_saved :
  save_predictions [[true; false]; [true]] "run" (Outputs false ∅)
    = Return (tt, Outputs true {["run.csv" := ["Id,Bound"; "0,1"; "1,0"; "2,1"]]}).
Proof. reflexivity. Qed.

(** Witness of X17: two data sets, of two and of one prediction. *)
Lemma save_predictions_layout_witness :
  exists lines,
    prediction_files
      (Outputs true {["run.csv" := ["Id,Bound"; "0,1"; "1,0"; "2,1"]]})
    !! ("run" +:+ ".csv") = Some lines
    /\ lines !! 0 = Some "Id,Bound"
    /\ length lines = 1 + length (concat [[true; false]; [true]])
    /\ (forall d arr j b,
          [[true; false]; [true]] !! d = Some arr -> arr !! j = Some b ->
          let id := length (concat (take d [[true; false]; [true]])) + j in
          lines !! (1 + id) = Some (csv_line (id, b))).
Proof.
  apply (save_predictions_layout [[true; false]; [true]] "run"
           (Outputs false ∅)).
  apply demo_saved.
Defined.

(** Witness of X18: the same lines written from one list of three
    predictions. *)
Lemma save_predictions_inj_witness :
  concat [[true; false]; [true]] = concat [[true; false; true]].
Proof.
  apply (save_predictions_inj [[true; false]; [true]] [[true; false; true]]
           "run" "run" (Outputs false ∅) (Outputs false ∅)
           (Outputs true {["run.csv" := ["Id,Bound"; "0,1"; "1,0"; "2,1"]]})
           (Outputs true {["run.csv" := ["Id,Bound"; "0,1"; "1,0"; "2,1"]]})
           ["Id,Bound"; "0,1"; "1,0"; "2,1"]).
  - apply demo_saved.
  - reflexivity.
  - reflexivity.
  - reflexivity.
Defined.

(** Witness of X19: the run above. *)
Lemma save_predictions_one_file_witness :
  [[true; false]; [true]] <> []
  /\ predictions_dir
       (Outputs true {["run.csv" := ["Id,Bound"; "0,1"; "1,0"; "2,1"]]}) = true
  /\ is_Some (prediction_files
                (Outputs true {["run.csv" := ["Id,Bound"; "0,1"; "1,0"; "2,1"]]})
              !! ("run" +:+ ".csv")).
Proof.
  apply (proj2 (save_predictions_one_file [[true; false]; [true]] "run"
                  (Outputs false ∅))).
  apply demo_saved.
Defined.

(** Witness of X20: a file of two sequences of four characters, one with
    an N, and a file of a single sequence. *)
Lemma load_encodes_witness :
  (exists rows,
     load DemoRun.loadtxt_float DemoRun.loadtxt_str DemoRun.loadtxt_bool
          true 0 true false true = Kw.Ok (Encoded rows)
     /\ Forall2 (fun s row =>
                   row = map letter_code (String.list_ascii_of_string s))
                ["ATCG"; "GGNA"] rows
     /\ Forall (Forall (fun code => code <= 3)) rows)
  /\ load DemoRun.loadtxt_float DemoRun.loadtxt_str DemoRun.loadtxt_bool
          true 1 true false true = Kw.Err Kw.TypeError.
Proof.
  split.
  - apply (proj1 (load_encodes DemoRun.loadtxt_float DemoRun.loadtxt_str
                    DemoRun.loadtxt_bool 0 true) ["ATCG"; "GGNA"]).
    + reflexivity.
    + intros s s' Hs Hs'.
      rewrite !elem_of_cons, elem_of_nil in Hs, Hs'.
      by destruct Hs as [->|[->|[]]], Hs' as [->|[->|[]]].
  - apply (proj2 (load_encodes DemoRun.loadtxt_float DemoRun.loadtxt_str
                    DemoRun.loadtxt_bool 1 true) "ATCG").
    reflexivity.
Defined.

(** Witness of X21: one sequence over the alphabet. *)
Lemma encode_inj_witness : ["GATC"] = ["GATC"].
Proof.
  apply (encode_inj ["GATC"] ["GATC"] [[3; 0; 1; 2]]).
  - repeat constructor; by apply (bool_decide_unpack _).
  - repeat constructor; by apply (bool_decide_unpack _).
  - reflexivity.
  - reflexivity.
Defined.

(** ** A run of the orchestrator *)

Abbreviation demo_svm_kernels :=
  (svm_kernels Demo.permutation Demo.fit Demo.predict DemoRun.keyword_model
               DemoRun.train_Ys DemoRun.worker_rng).

Lemma demo_keyword_results :
  grid_results Demo.permutation Demo.fit Demo.predict DemoRun.keyword_model
               [<["C" := 1]> ∅; <["C" := 2]> ∅]
               (Demo.zeros 20) (replicate 20 true) 5 1 0
    = Return ([all_wrong] ++ [all_right], 2).
Proof.
  unfold grid_results. cbn [for_each]. unfold rbind.
  change (DemoRun.keyword_model (<["C" := 1]> ∅)) with false.
  rewrite (demo_evaluate_5 false 0) by lia.
  unfold rret. cbn [app].
  change (DemoRun.keyword_model (<["C" := 2]> ∅)) with true.
  by rewrite (demo_evaluate_5 true 1) by lia.
Qed.

Lemma demo_keyword_selected :
  selected_index false ([all_wrong] ++ [all_right]) = Return 1.
Proof.
  np_select. done.
Qed.

Lemma demo_keyword_search :
  grid_search Demo.permutation Demo.fit Demo.predict DemoRun.keyword_model
              [<["C" := 1]> ∅; <["C" := 2]> ∅]
              (Demo.zeros 20) (replicate 20 true) 5 1 false 0
    = Return ((<["C" := 2]> ∅, all_right), 3).
Proof.
  rewrite (grid_search_selected _ _ _ _ _ _ _ _ _ _ _ _ _ 1 (<["C" := 2]> ∅)
             demo_keyword_results demo_keyword_selected eq_refl).
  unfold rbind. change (DemoRun.keyword_model (<["C" := 2]> ∅)) with true.
  by rewrite (demo_evaluate_20 true 2) by lia.
Qed.

Lemma demo_svm_run :
  exists s',
    demo_svm_kernels ([Demo.zeros 20], [Demo.zeros 3]) [1; 2] (Some "run") 1 ∅
                     (Outputs false ∅, [])
      = Kw.Ok ([all_right], s').
Proof.
  eexists. unfold svm_kernels.
  unfold mbind at 1, Kw.run_bind at 1.
  assert (mapM (M := Kw.run (console (V := nat)))
               (fun C : nat => Kw.with_C C ∅) [1; 2] (Outputs false ∅, [])
            = Kw.Ok ([<["C" := 1]> ∅; <["C" := 2]> ∅], (Outputs false ∅, [])))
    as -> by reflexivity.
  change (enumerate (zip [Demo.zeros 20] DemoRun.train_Ys))
    with [(0, (Demo.zeros 20, replicate 20 true))].
  cbn [mapM]. change (DemoRun.worker_rng 0) with 0.
  rewrite demo_keyword_search.
  unfold mbind at 1, Kw.run_bind at 1.
  cbn [Kw.of_outcome fmap outcome_fmap mbind outcome_bind mret outcome_ret fst].
  cbn [report_loop].
  unfold mbind at 1, Kw.run_bind at 1.
  unfold mbind at 1, Kw.run_bind at 1.
  unfold Kw.getitem. rewrite lookup_insert_eq. cbn [mret Kw.run_ret].
  unfold mbind at 1, Kw.run_bind at 1. unfold print at 1. cbn [fst snd app].
  unfold mbind at 1, Kw.run_bind at 1.
  cbn [mret Kw.run_ret].
  change (zip [Demo.zeros 20]
            (zip DemoRun.train_Ys
               (zip [Demo.zeros 3]
                    [(<["C" := 2]> (∅ : gmap string nat), all_right)])))
    with [(Demo.zeros 20,
           (replicate 20 true,
            (Demo.zeros 3, (<["C" := 2]> (∅ : gmap string nat), all_right))))].
  cbn [map]. unfold on_outputs. cbn [fst snd].
  rewrite save_predictions_returns by done.
  unfold mbind at 1, Kw.run_bind at 1. unfold print. cbn [fst snd].
  cbn [mret Kw.run_ret].
  reflexivity.
Qed.

(** Witness of X24: one data set of twenty rows, the values 1 and 2 of
    [C], one repeat. *)
Lemma svm_kernels_results_witness :
  exists s',
    demo_svm_kernels ([Demo.zeros 20], [Demo.zeros 3]) [1; 2] (Some "run") 1 ∅
                     (Outputs false ∅, [])
      = Kw.Ok ([all_right], s')
    /\ Forall2 (fun x r =>
                  exists p g',
                    grid_search Demo.permutation Demo.fit Demo.predict
                                DemoRun.keyword_model
                                (map (fun C => <["C" := C]> ∅) [1; 2])
                                x.2.1 x.2.2 5 1 false (DemoRun.worker_rng x.1)
                      = Return ((p, r), g'))
               (enumerate (zip [Demo.zeros 20] DemoRun.train_Ys)) [all_right].
Proof.
  destruct demo_svm_run as [s' Hrun]. exists s'. split; [exact Hrun|].
  exact (svm_kernels_results Demo.permutation Demo.fit Demo.predict
           DemoRun.keyword_model DemoRun.train_Ys DemoRun.worker_rng
           [Demo.zeros 20] [Demo.zeros 3] [1; 2] (Some "run") 1 ∅
           (Outputs false ∅, []) s' [all_right] Hrun).
Defined.

(** Witness of X25: the data set of the run has twenty rows. *)
Lemma svm_kernels_needs_multiple_of_20_witness :
  length (Demo.zeros 20) `mod` 20 = 0
  /\ length (Demo.zeros 20) `mod` 5 = 0
  /\ [1; 2] <> [].
Proof.
  destruct demo_svm_run as [s' Hrun].
  apply (svm_kernels_needs_multiple_of_20 Demo.permutation Demo.fit
           Demo.predict DemoRun.keyword_model DemoRun.train_Ys
           DemoRun.worker_rng [Demo.zeros 20] [Demo.zeros 3] [1; 2]
           (Some "run") 1 ∅ (Outputs false ∅, []) s' [all_right]
           0 (Demo.zeros 20) (replicate 20 true)).
  - lia.
  - exact Hrun.
  - reflexivity.
  - reflexivity.
Defined.

(** Witness of X26: the run prints the line of its data set and the total,
    and writes the header and the three predictions on the test kernel. *)
Lemma svm_kernels_outputs_witness :
  exists (s' : console (F := npfloat) (V := nat)) selected printed total,
    Forall2 (fun x p =>
               exists r g',
                 grid_search Demo.permutation Demo.fit Demo.predict
                             DemoRun.keyword_model
                             (map (fun C => <["C" := C]> ∅) [1; 2])
                             x.2.1 x.2.2 5 1 false (DemoRun.worker_rng x.1)
                   = Return ((p, r), g'))
            (enumerate (zip [Demo.zeros 20] DemoRun.train_Ys)) selected
    /\ s'.2 = [] ++ printed ++ [TotalLine total]
    /\ Forall2 (fun p line =>
                  exists C percentages,
                    p !! "C" = Some C /\ line = DatasetLine percentages C)
               selected printed
    /\ let predictions :=
         map (fun x => Demo.predict
                         (Demo.fit (DemoRun.keyword_model x.2.2.2) x.1 x.2.1)
                         x.2.2.1)
             (zip [Demo.zeros 20]
                  (zip DemoRun.train_Ys (zip [Demo.zeros 3] selected))) in
       prediction_files s'.1 !! ("run" +:+ ".csv")
         = Some ("Id,Bound"
                   :: map csv_line
                        (zip (seq 0 (length (concat predictions)))
                             (concat predictions))).
Proof.
  destruct demo_svm_run as [s' Hrun]. exists s'.
  apply (svm_kernels_outputs Demo.permutation Demo.fit Demo.predict
           DemoRun.keyword_model DemoRun.train_Ys DemoRun.worker_rng
           [Demo.zeros 20] [Demo.zeros 3] [1; 2] (Some "run") 1 ∅
           (Outputs false ∅, []) s' [all_right]).
  exact Hrun.
Defined.

Lemma demo_global_evaluate :
  global_evaluate Demo.permutation Demo.fit Demo.predict DemoRun.keyword_model
                  [Demo.zeros 20] [replicate 20 true] [2] 5 1 ∅ 0
    = Kw.Ok ([all_right], 1).
Proof.
  unfold global_evaluate. cbn [zip zip_with mapM].
  unfold mbind at 1, Kw.run_bind at 1.
  unfold mbind at 1, Kw.run_bind at 1.
  assert (Kw.with_C (S := nat) 2 (∅ : gmap string nat) 0
            = Kw.Ok (<["C" := 2]> ∅, 0)) as -> by reflexivity.
  unfold Kw.of_rand.
  change (DemoRun.keyword_model (<["C" := 2]> ∅)) with true.
  by rewrite (demo_evaluate_5 true 0) by lia.
Qed.

(** Witness of X23: one data set evaluated with [C=2]; and the clash of a
    keyword [C] given among [params]. *)
Lemma global_evaluate_rows_witness :
  (exists states,
     length [all_right]
       = length (zip [Demo.zeros 20] (zip [replicate 20 true] [2]))
     /\ states !! 0 = Some 0
     /\ last states = Some 1
     /\ forall i x r,
          zip [Demo.zeros 20] (zip [replicate 20 true] [2]) !! i = Some x ->
          [all_right] !! i = Some r ->
          (∅ : gmap string nat) !! "C" = None
          /\ exists gi gi',
               states !! i = Some gi
               /\ states !! S i = Some gi'
               /\ evaluate Demo.permutation Demo.fit Demo.predict
                           (DemoRun.keyword_model (<["C" := x.2.2]> ∅))
                           x.1 x.2.1 5 1 gi
                    = Return (r, gi'))
  /\ global_evaluate Demo.permutation Demo.fit Demo.predict
                     DemoRun.keyword_model
                     [Demo.zeros 20] [replicate 20 true] [2] 5 1
                     (<["C" := 0]> ∅) 0
       = Kw.Err Kw.TypeError.
Proof.
  split.
  - apply (proj1 (global_evaluate_rows Demo.permutation Demo.fit Demo.predict
                    DemoRun.keyword_model
                    [Demo.zeros 20] [replicate 20 true] [2] 5 1 ∅ 0)
             [all_right] 1).
    apply demo_global_evaluate.
  - apply (proj2 (global_evaluate_rows Demo.permutation Demo.fit Demo.predict
                    DemoRun.keyword_model
                    [Demo.zeros 20] [replicate 20 true] [2] 5 1
                    (<["C" := 0]> ∅) 0)).
    + exists 0. reflexivity.
    + discriminate.
Defined.

(** Witness of X27: a keyword [C] among [params], and an empty [Cs]. *)
Lemma svm_kernels_no_configuration_witness :
  demo_svm_kernels ([Demo.zeros 20], [Demo.zeros 3]) [1; 2] None 1
                   (<["C" := 0]> ∅) (Outputs false ∅, [])
    = Kw.Err Kw.TypeError
  /\ demo_svm_kernels ([Demo.zeros 20], [Demo.zeros 3]) [] None 1
                      ∅ (Outputs false ∅, [])
       = Kw.Err (Kw.Propagated IndexError).
Proof.
  split.
  - apply (proj1 (svm_kernels_no_configuration Demo.permutation Demo.fit
                    Demo.predict DemoRun.keyword_model DemoRun.train_Ys
                    DemoRun.worker_rng [Demo.zeros 20] [Demo.zeros 3] None 1
                    (<["C" := 0]> ∅) (Outputs false ∅, [])) 1 [2]).
    exists 0. reflexivity.
  - apply (proj2 (svm_kernels_no_configuration Demo.permutation Demo.fit
                    Demo.predict DemoRun.keyword_model DemoRun.train_Ys
                    DemoRun.worker_rng [Demo.zeros 20] [Demo.zeros 3] None 1
                    ∅ (Outputs false ∅, []))).
    discriminate.
Defined.
